(** * MARS scheduling engine: a shallow embedding and its properties

    The development follows the Python sources:
    - [app/domain/scheduling/time_calculator.py]
        (modules [DailyTimeCalculator] and [RegularTimeCalculator])
    - [app/scheduler.py]                          (module [Scheduler])
    - [app/domain/scheduling/schedule_executor.py] (module [ScheduleExecutor])
    - [app/infrastructure/persistence/schedule_repository.py]
                                                  (module [ScheduleRepository])
    - [app/services/browser_service.py]           (module [BrowserService])

    A schedule is a Python [dict]; it is embedded as a [gmap string value].
    Statements that mutate the dict in place become state passing, and a
    raised exception leaves the mutations made so far in the state. *)

From stdpp Require Import gmap strings list fin_maps.
From Stdlib Require Import ZArith Lia Ascii.

Local Open Scope Z_scope.

(** ** Naive datetimes

    A naive [datetime] is a count of microseconds on the proleptic
    calendar; [timedelta] arithmetic is addition.  The calendar day is the
    quotient by [DAY] and the wall-clock time the remainder, which is what
    [now.date()], [now.time()] and [datetime.combine] compute.  The year
    range of Python's [datetime] (an [OverflowError] outside 1..9999) is
    checked where a stored time is moved by a week ([datetime_add]); the
    clock is taken to be far from both ends of the range, and what is added
    to a clock reading is not checked. *)
Module PyTime.

Definition MINUTE : Z := 60000000.
Definition DAY : Z := 1440 * MINUTE.

(** [timedelta(days=n)], [timedelta(minutes=n)] *)
Definition days (n : Z) : Z := n * DAY.
Definition minutes (n : Z) : Z := n * MINUTE.

(** [now.date()] as a day number, [now.time()] as microseconds of day *)
Definition date (now : Z) : Z := now / DAY.
Definition time (now : Z) : Z := now mod DAY.

(** [datetime.combine(d, t)] *)
Definition combine (d t : Z) : Z := d * DAY + t.

(** [datetime.min.time().replace(hour=h, minute=m)]; the caller checks
    the ranges first (see [time_replace] below). *)
Definition hm (h m : Z) : Z := (h * 60 + m) * MINUTE.

(** [datetime.max], 9999-12-31T23:59:59.999999; [datetime.min] is 0 *)
Definition MAX : Z := 3652059 * DAY - 1.

(** a [datetime]: a time of the years 1 to 9999 *)
Definition is_datetime (t : Z) : Prop := 0 <= t <= MAX.

(** A [float] is kept as an exact fraction, its numerator over [2^53]:
    [random.random()] returns [k / 2^53] for an integer [0 <= k < 2^53],
    and what Python then computes in doubles is computed exactly here. *)
Definition UNIT : Z := 9007199254740992.

(** the nearest integer to [n / d], ties to the even one *)
Definition round_half_even (n d : Z) : Z :=
  let q := n / d in
  let r := n mod d in
  if 2 * r <? d then q
  else if d <? 2 * r then q + 1
  else if Z.even q then q else q + 1.

(** [timedelta(minutes=x)] for a float [x]: the fraction of a microsecond
    is rounded to the nearest microsecond, ties to even *)
Definition timedelta_minutes (x : Z) : Z := round_half_even (x * MINUTE) UNIT.

(** Days from 0001-01-01 of a civil date of the proleptic Gregorian
    calendar, used to write concrete timestamps in examples. *)
Definition is_leap (y : Z) : bool :=
  ((y mod 4 =? 0) && negb (y mod 100 =? 0)) || (y mod 400 =? 0).

Definition days_before_year (y : Z) : Z :=
  let p := y - 1 in p * 365 + p / 4 - p / 100 + p / 400.

Definition days_before_month (y m : Z) : Z :=
  nth (Z.to_nat (m - 1))
      [0; 31; 59; 90; 120; 151; 181; 212; 243; 273; 304; 334] 0
  + (if (2 <? m) && is_leap y then 1 else 0).

(** [datetime(y, mo, d, h, mi)] *)
Definition civil (y mo d h mi : Z) : Z :=
  combine (days_before_year y + days_before_month y mo + (d - 1)) (hm h mi).

End PyTime.

(** ** Values and dictionaries

    JSON values found in a schedule.  A [str] is represented by what the
    two parsers of the sources make of it:
    - [VIso t]     the string [t.isoformat()], which
                   [datetime.fromisoformat] reads back as [t];
    - [VClock h m] a clock string such as ["23:05"]: [split(':')] gives
                   exactly two pieces that [int] reads as [h] and [m];
    - [VStr s]     any other string (ids, urls, status names, garbage):
                   both parsers raise on it. *)
Inductive value :=
| VNone
| VBool (b : bool)
| VStr (s : string)
| VIso (t : Z)
| VClock (h m : Z).

#[global] Instance value_eq_dec : EqDecision value.
Proof. solve_decision. Defined.

Abbreviation dict := (gmap string value).

Inductive exn :=
| KeyError (k : string)
| ValueError
| TypeError
| AttributeError
| OverflowError.

Inductive outcome (A : Type) :=
| Ok (a : A)
| Raise (e : exn).
Arguments Ok {A} a.
Arguments Raise {A} e.

(** Python truthiness ([if x], [not x]) *)
Definition truthy (v : value) : bool :=
  match v with
  | VNone => false
  | VBool b => b
  | VStr s => negb (String.eqb s "")
  | VIso _ | VClock _ _ => true
  end.

(** [a == b] on values *)
Definition py_eq (a b : value) : bool := bool_decide (a = b).

(** [datetime.fromisoformat(v)] *)
Definition fromisoformat (v : value) : outcome Z :=
  match v with
  | VIso t => Ok t
  | VStr _ | VClock _ _ => Raise ValueError
  | VNone | VBool _ => Raise TypeError
  end.

(** [t.isoformat()] *)
Definition isoformat (t : Z) : value := VIso t.

(** [h, m = map(int, v.split(':'))] *)
Definition split_clock (v : value) : outcome (Z * Z) :=
  match v with
  | VClock h m => Ok (h, m)
  | VStr _ | VIso _ => Raise ValueError
  | VNone | VBool _ => Raise AttributeError
  end.

(** an integer that the argument parser of a C function takes as an
    [int] *)
Definition c_int (z : Z) : bool := (-2147483648 <=? z) && (z <=? 2147483647).

(** [datetime.min.time().replace(hour=h, minute=m)]: the arguments are
    first read as C integers, which raises [OverflowError] for one that
    does not fit; then [ValueError] is raised outside 0..23 and 0..59 *)
Definition time_replace (h m : Z) : outcome Z :=
  if negb (c_int h && c_int m) then Raise OverflowError
  else if (0 <=? h) && (h <=? 23) && (0 <=? m) && (m <=? 59)
  then Ok (PyTime.hm h m) else Raise ValueError.

(** [t + delta] for a [datetime] [t]: [OverflowError] when the result is
    not a time of the years 1 to 9999 *)
Definition datetime_add (t delta : Z) : outcome Z :=
  if (0 <=? t + delta) && (t + delta <=? PyTime.MAX)
  then Ok (t + delta) else Raise OverflowError.

(** [random.uniform(a, b)] is [a + (b - a) * random.random()]; [r] is the
    numerator of what [random.random()] returned *)
Definition uniform (a b r : Z) : Z := a * PyTime.UNIT + (b - a) * r.

(** ** The world outside the schedule

    Every call of [datetime.now()] and every [random.uniform(5, 8)]
    consumes one entry of an oracle; what the code does to the outside (threads started,
    log records of handled errors, whole-list saves) is appended to a
    trace. *)
Record oracle := {
  now_at : nat -> Z;           (* the k-th reading of [datetime.now()] *)
  random_at : nat -> Z;        (* what [random.random()] returns inside the
                                  k-th [random.uniform(5, 8)]: its
                                  numerator, read modulo [2^53] *)
  download_queue : value -> option dict
                               (* [download_service.download_queue] *)
}.

Inductive event :=
| Spawn (s : dict)             (* [threading.Thread(...).start()] *)
| LogError (e : exn)           (* [logger.error] in an [except] clause *)
| Save (l : list dict).        (* [save_schedules()] *)

Record world := {
  reads : nat;                 (* clock readings consumed *)
  draws : nat;                 (* random draws consumed *)
  trace : list event           (* most recent event first *)
}.

Definition world0 : world := {| reads := 0; draws := 0; trace := [] |}.

Definition emit (e : event) (w : world) : world :=
  {| reads := reads w; draws := draws w; trace := e :: trace w |}.

(** [random.random()], a float of [0.0, 1.0) *)
Definition random_random (O : oracle) (k : nat) : Z :=
  random_at O k mod PyTime.UNIT.

(** [timedelta(minutes=random.uniform(5, 8))] of the k-th draw *)
Definition delay_at (O : oracle) (k : nat) : Z :=
  PyTime.timedelta_minutes (uniform 5 8 (random_random O k)).

(** a [timedelta] of 5 to 8 minutes *)
Definition delay_ok (d : Z) : Prop :=
  PyTime.minutes 5 <= d <= PyTime.minutes 8.

(** ** A state-and-exception monad for code that works on one schedule *)
Record pst := { cur : dict; wld : world }.

Definition M (A : Type) : Type := pst -> outcome A * pst.

Definition ret {A} (a : A) : M A := fun s => (Ok a, s).

Definition bind {A B} (c : M A) (k : A -> M B) : M B :=
  fun s => match c s with
           | (Ok a, s') => k a s'
           | (Raise e, s') => (Raise e, s')
           end.

Notation "x <- c ;; k" := (bind c (fun x => k))
  (at level 100, c at next level, right associativity).
Notation "c ;;; k" := (bind c (fun _ => k))
  (at level 100, right associativity).

Definition raise {A} (e : exn) : M A := fun s => (Raise e, s).

Definition lift {A} (o : outcome A) : M A := fun s => (o, s).

(** [schedule[k]] *)
Definition getitem (k : string) : M value :=
  fun s => match cur s !! k with
           | Some v => (Ok v, s)
           | None => (Raise (KeyError k), s)
           end.

(** [schedule.get(k)] *)
Definition get (k : string) : M value :=
  fun s => (Ok (default VNone (cur s !! k)), s).

(** [schedule[k] = v] *)
Definition setitem (k : string) (v : value) : M unit :=
  fun s => (Ok tt, {| cur := <[k := v]> (cur s); wld := wld s |}).

(** [try: c  except (ValueError, TypeError): h] *)
Definition try_value_type {A} (c : M A) (h : M A) : M A :=
  fun s => match c s with
           | (Raise ValueError, s') | (Raise TypeError, s') => h s'
           | r => r
           end.

Definition when (b : bool) (c : M unit) : M unit :=
  if b then c else ret tt.

Definition emitM (e : event) : M unit :=
  fun s => (Ok tt, {| cur := cur s; wld := emit e (wld s) |}).

(** [threading.Thread(target=..., args=(schedule, ...)).start()] *)
Definition start_thread : M unit :=
  fun s => emitM (Spawn (cur s)) s.

Section WithOracle.

Variable O : oracle.

(** [datetime.now()] *)
Definition datetime_now : M Z :=
  fun s => let w := wld s in
           (Ok (now_at O (reads w)),
            {| cur := cur s;
               wld := {| reads := S (reads w); draws := draws w;
                         trace := trace w |} |}).

(** [random.uniform(a, b)] *)
Definition random_uniform (a b : Z) : M Z :=
  fun s => let w := wld s in
           (Ok (uniform a b (random_random O (draws w))),
            {| cur := cur s;
               wld := {| reads := reads w; draws := S (draws w);
                         trace := trace w |} |}).

End WithOracle.

(** ** Windows

    The block that the four window computations of the sources share:
    parse both clock strings, build today's start and end, detect a window
    that spans midnight and anchor it to yesterday or to tomorrow
    (time_calculator.py 63-95 and 148-170, scheduler.py 353-385 and
    462-484). *)
Record window := {
  start_dt : Z;
  end_dt : Z;
  spans_midnight : bool;
  start_clock : Z               (* the [time] object of the start *)
}.

Definition daily_window (now sh sm eh em st et : Z) : window :=
  let today := PyTime.date now in
  let spans := (eh <? sh) || ((eh =? sh) && (em <? sm)) in
  if spans then
    if PyTime.time now <? st then
      {| start_dt := PyTime.combine (today - 1) st;
         end_dt := PyTime.combine today et;
         spans_midnight := spans; start_clock := st |}
    else
      {| start_dt := PyTime.combine today st;
         end_dt := PyTime.combine today et + PyTime.days 1;
         spans_midnight := spans; start_clock := st |}
  else
    {| start_dt := PyTime.combine today st;
       end_dt := PyTime.combine today et;
       spans_midnight := spans; start_clock := st |}.

Definition resolve_daily (now : Z) : M window :=
  start_time_str <- getitem "start_time" ;;
  end_time_str <- getitem "end_time" ;;
  s <- lift (split_clock start_time_str) ;;
  e <- lift (split_clock end_time_str) ;;
  st <- lift (time_replace (fst s) (snd s)) ;;
  et <- lift (time_replace (fst e) (snd e)) ;;
  ret (daily_window now (fst s) (snd s) (fst e) (snd e) st et).

(** [start_dt, end_dt] of a regular schedule *)
Definition resolve_regular : M (Z * Z) :=
  st <- getitem "start_time" ;;
  start <- lift (fromisoformat st) ;;
  et <- getitem "end_time" ;;
  end_ <- lift (fromisoformat et) ;;
  ret (start, end_).

(** the log line [f"Schedule {schedule['id']}: ..."] evaluates
    [schedule['id']] *)
Definition log_id : M unit := getitem "id" ;;; ret tt.

(** [schedule['status'] in ['active', 'download_started']] *)
Definition active_or_started (status : value) : bool :=
  py_eq status (VStr "active") || py_eq status (VStr "download_started").

(** ** time_calculator.py *)
Module DailyTimeCalculator.
Section WithOracle.

Variable O : oracle.

(** [DailyTimeCalculator.calculate_next_check(schedule, now)] *)
Definition calculate_next_check (now : Z) : M unit :=
  w <- resolve_daily now ;;
  if now <? start_dt w then
    setitem "next_check" (isoformat (start_dt w)) ;;; log_id
  else if (start_dt w <=? now) && (now <=? end_dt w) then
    minutes <- random_uniform O 5 8 ;;
    let next_dt := now + PyTime.timedelta_minutes minutes in
    let next_dt := if next_dt >? end_dt w then end_dt w else next_dt in
    setitem "next_check" (isoformat next_dt) ;;; log_id
  else
    let today := PyTime.date now in
    let next_start :=
      if spans_midnight w && (PyTime.time now <? start_clock w)
      then PyTime.combine today (start_clock w)
      else PyTime.combine (today + 1) (start_clock w) in
    setitem "next_check" (isoformat next_start) ;;; log_id.

(** [DailyTimeCalculator.check_schedule(schedule, now)] *)
Definition check_schedule (now : Z) : M bool :=
  w <- resolve_daily now ;;
  if (start_dt w <=? now) && (now <=? end_dt w) then
    status <- getitem "status" ;;
    if py_eq status (VStr "download_started") then ret false
    else
      status <- getitem "status" ;;
      let was_pending := py_eq status (VStr "pending") in
      setitem "status" (VStr "active") ;;;
      next_check <- get "next_check" ;;
      if was_pending || negb (truthy next_check) then ret true
      else
        t <- lift (fromisoformat next_check) ;;
        ret (t <=? now)
  else if now <? start_dt w then
    setitem "status" (VStr "pending") ;;;
    next_check <- get "next_check" ;;
    (if negb (truthy next_check) then calculate_next_check now
     else
       t <- lift (fromisoformat next_check) ;;
       when (negb (t =? start_dt w)) (calculate_next_check now)) ;;;
    ret false
  else
    status <- getitem "status" ;;
    when (active_or_started status)
      (setitem "status" (VStr "pending") ;;;
       setitem "last_check" VNone ;;;
       calculate_next_check now) ;;;
    ret false.

End WithOracle.
End DailyTimeCalculator.

Module RegularTimeCalculator.
Section WithOracle.

Variable O : oracle.

(** [RegularTimeCalculator.calculate_next_check(schedule, now)] *)
Definition calculate_next_check (now : Z) : M unit :=
  w <- resolve_regular ;;
  let '(start_dt, end_dt) := w in
  if now <? start_dt then
    setitem "next_check" (isoformat start_dt) ;;; log_id
  else if (start_dt <=? now) && (now <=? end_dt) then
    minutes <- random_uniform O 5 8 ;;
    let next_dt := now + PyTime.timedelta_minutes minutes in
    let next_dt := if next_dt >? end_dt then end_dt else next_dt in
    setitem "next_check" (isoformat next_dt) ;;; log_id
  else
    setitem "next_check" VNone ;;; log_id.

(** [RegularTimeCalculator.check_schedule(schedule, now)] *)
Definition check_schedule (now : Z) : M bool :=
  w <- resolve_regular ;;
  let '(start_dt, end_dt) := w in
  if now >? end_dt then ret false
  else if (start_dt <=? now) && (now <=? end_dt) then
    status <- getitem "status" ;;
    if py_eq status (VStr "download_started") then ret false
    else
      status <- getitem "status" ;;
      let was_pending := py_eq status (VStr "pending") in
      setitem "status" (VStr "active") ;;;
      next_check <- get "next_check" ;;
      if was_pending || negb (truthy next_check) then ret true
      else
        t <- lift (fromisoformat next_check) ;;
        ret (t <=? now)
  else if now <? start_dt then
    setitem "status" (VStr "pending") ;;;
    next_check <- get "next_check" ;;
    (if negb (truthy next_check) then calculate_next_check now
     else
       t <- lift (fromisoformat next_check) ;;
       when (negb (t =? start_dt)) (calculate_next_check now)) ;;;
    ret false
  else ret false.

End WithOracle.
End RegularTimeCalculator.

(** [[s for s in schedules if s['id'] != schedule_id]], the comprehension
    of both [remove_schedule] methods *)
Fixpoint without_id (schedule_id : value) (l : list dict)
  : outcome (list dict) :=
  match l with
  | [] => Ok []
  | s :: rest =>
      match s !! "id" with
      | None => Raise (KeyError "id")
      | Some id =>
          match without_id schedule_id rest with
          | Ok kept =>
              Ok (if negb (py_eq id schedule_id) then s :: kept else kept)
          | Raise e => Raise e
          end
      end
  end.


(** [s.split(sep)] for a one-character separator *)
Fixpoint split_on (sep : Ascii.ascii) (s : string) : list string :=
  match s with
  | EmptyString => [EmptyString]
  | String c rest =>
      let parts := split_on sep rest in
      if Ascii.eqb c sep then EmptyString :: parts
      else match parts with
           | p :: ps => String c p :: ps
           | [] => [String c EmptyString]
           end
  end.

(** ** The loop of a tick

    [Scheduler._check_schedules] (scheduler.py 258-341) and
    [ScheduleExecutor.execute_schedules] (schedule_executor.py 106-143) are
    the same loop around two different [try] bodies: read the clock, and
    for each schedule evaluate the guard, run the body inside
    [try ... except Exception], log a caught exception together with
    [schedule['id']]; after the loop save the whole list. *)
Module Tick.
Section WithBody.

Variable O : oracle.
Variable body : Z -> M unit.

(** The guard at the head of the loop body, outside the [try]:
    [schedule['status'] == 'completed' and not schedule.get('daily')] *)
Definition skipped : M bool :=
  status <- getitem "status" ;;
  if py_eq status (VStr "completed") then
    daily <- get "daily" ;; ret (negb (truthy daily))
  else ret false.

(** One iteration of [for schedule in schedules].  [Raise] means the
    exception left the loop: it came from the guard or from the
    handler's own [schedule['id']]. *)
Definition iteration (now : Z) : M unit :=
  skip <- skipped ;;
  if skip then ret tt
  else fun s =>
    match body now s with
    | (Ok _, s') => (Ok tt, s')
    | (Raise e, s') => (getitem "id" ;;; emitM (LogError e)) s'
    end.

Fixpoint loop (now : Z) (l : list dict) (w : world)
  : outcome unit * list dict * world :=
  match l with
  | [] => (Ok tt, [], w)
  | schedule :: rest =>
      match iteration now {| cur := schedule; wld := w |} with
      | (Ok _, s') =>
          let '(r, rest', w') := loop now rest (wld s') in
          (r, cur s' :: rest', w')
      | (Raise e, s') => (Raise e, cur s' :: rest, wld s')
      end
  end.

(** One tick.  The result holds the exception that escaped the loop, if
    any (the caller's [except] gets it and nothing is saved), the list
    after the in-place mutations, and the world. *)
Definition run (l : list dict) (w : world)
  : outcome unit * list dict * world :=
  let now := now_at O (reads w) in
  let w := {| reads := S (reads w); draws := draws w; trace := trace w |} in
  match loop now l w with
  | (Ok _, l', w') => (Ok tt, l', emit (Save l') w')
  | r => r
  end.

End WithBody.
End Tick.

(** ** scheduler.py *)
Module Scheduler.
Section WithOracle.

Variable O : oracle.

(** [Scheduler._update_next_check(schedule)].  It reads the clock itself;
    its daily branch (lines 461-512) is, statement for statement, the body
    of [DailyTimeCalculator.calculate_next_check] and its regular branch
    (lines 515-535) that of [RegularTimeCalculator.calculate_next_check]. *)
Definition _update_next_check : M unit :=
  now <- datetime_now O ;;
  daily <- get "daily" ;;
  if truthy daily
  then DailyTimeCalculator.calculate_next_check O now
  else RegularTimeCalculator.calculate_next_check O now.

(** [Scheduler._reschedule_next_week(schedule)] *)
Definition _reschedule_next_week : M unit :=
  w <- resolve_regular ;;
  let '(start_dt, end_dt) := w in
  new_start <- lift (datetime_add start_dt (PyTime.days 7)) ;;
  new_end <- lift (datetime_add end_dt (PyTime.days 7)) ;;
  setitem "start_time" (isoformat new_start) ;;;
  setitem "end_time" (isoformat new_end) ;;;
  setitem "status" (VStr "pending") ;;;
  setitem "active_browser_id" VNone ;;;
  setitem "manual_stop" (VBool false) ;;;
  _update_next_check ;;;
  log_id.

(** [Scheduler._is_download_active(browser_id)]; the whole body sits in
    a [try] whose handler returns [False] *)
Definition _is_download_active (browser_id : value) : bool :=
  if negb (truthy browser_id) then false
  else match download_queue O browser_id with
       | Some download_info =>
           bool_decide (download_info !! "completed_at" = None)
       | None => false
       end.

(** [Scheduler._perform_check(schedule)]: the log line reads
    [schedule['name']] and [schedule['url']]; the thread is started and
    not awaited (its duration draw is not part of the model). *)
Definition _perform_check : M unit :=
  getitem "name" ;;;
  getitem "url" ;;;
  start_thread ;;;
  _update_next_check.

(** The end of that block (lines 317-321 and 416-420):
    [if not next_check or now >= datetime.fromisoformat(next_check):
     self._perform_check(schedule)] *)
Definition check_if_due (now : Z) : M unit :=
  next_check <- get "next_check" ;;
  if negb (truthy next_check) then _perform_check
  else
    t <- lift (fromisoformat next_check) ;;
    when (t <=? now) _perform_check.

(** The block both window checks run when [start_dt <= now <= end_dt]
    (lines 289-321 for regular schedules, 388-420 for daily ones). *)
Definition in_window (now end_dt : Z) : M unit :=
  status <- getitem "status" ;;
  resume <-
    (if py_eq status (VStr "download_started") then
       active_browser_id <- get "active_browser_id" ;;
       if _is_download_active active_browser_id then ret false
       else
         log_id ;;;
         setitem "status" (VStr "active") ;;;
         setitem "active_browser_id" VNone ;;;
         ret true
     else ret true) ;;
  if negb resume then ret tt
  else
    status <- getitem "status" ;;
    when (negb (py_eq status (VStr "active")))
      (next_check_val <- get "next_check" ;;
       if truthy next_check_val then
         try_value_type
           (next_check_dt <- lift (fromisoformat next_check_val) ;;
            when (next_check_dt <=? end_dt)
                 (setitem "status" (VStr "active")))
           (setitem "status" (VStr "active"))
       else setitem "status" (VStr "active")) ;;;
    check_if_due now.

(** The block both window checks run when [now < start_dt]
    (lines 323-336 and 422-436). *)
Definition before_window (now : Z) : M unit :=
  setitem "status" (VStr "pending") ;;;
  next_check <- get "next_check" ;;
  if negb (truthy next_check) then _update_next_check
  else
    try_value_type
      (next_check_dt <- lift (fromisoformat next_check) ;;
       when (next_check_dt <? now) _update_next_check)
      _update_next_check.

(** [Scheduler._check_daily_schedule(schedule, now)] *)
Definition _check_daily_schedule (now : Z) : M unit :=
  w <- resolve_daily now ;;
  if (start_dt w <=? now) && (now <=? end_dt w) then
    in_window now (end_dt w)
  else if now <? start_dt w then
    before_window now
  else
    status <- getitem "status" ;;
    when (active_or_started status)
      (setitem "status" (VStr "pending") ;;;
       setitem "last_check" VNone ;;;
       setitem "active_browser_id" VNone ;;;
       setitem "manual_stop" (VBool false) ;;;
       _update_next_check).

(** The body of the [try] in [Scheduler._check_schedules], for one
    schedule. *)
Definition check_one (now : Z) : M unit :=
  daily <- get "daily" ;;
  if truthy daily then _check_daily_schedule now
  else
    w <- resolve_regular ;;
    let '(start_dt, end_dt) := w in
    if now >? end_dt then
      repeat_ <- getitem "repeat" ;;
      if truthy repeat_ then _reschedule_next_week
      else
        status <- getitem "status" ;;
        when (negb (py_eq status (VStr "download_started")))
             (setitem "status" (VStr "completed")) ;;;
        setitem "active_browser_id" VNone ;;;
        setitem "manual_stop" (VBool false)
    else if (start_dt <=? now) && (now <=? end_dt) then
      in_window now end_dt
    else if now <? start_dt then
      before_window now
    else ret tt.

(** [Scheduler._check_schedules()], one tick of the execution loop. *)
Definition _check_schedules (l : list dict) (w : world)
  : outcome unit * list dict * world :=
  Tick.run O check_one l w.

(** The dict literal of [Scheduler.add_schedule]; [id] is
    [str(int(time.time() * 1000))] and [created_at] the clock reading
    of [datetime.now().isoformat()]. *)
Definition new_schedule (id : string)
    (url start_time end_time repeat_ daily name resolution framerate
     format : value) (created_at : Z) : dict :=
  <["created_at" := isoformat created_at]>
  (<["last_check" := VNone]>
  (<["next_check" := VNone]>
  (<["status" := VStr "pending"]>
  (<["daily" := daily]>
  (<["repeat" := repeat_]>
  (<["end_time" := end_time]>
  (<["start_time" := start_time]>
  (<["format" := format]>
  (<["framerate" := framerate]>
  (<["resolution" := resolution]>
  (<["name" := name]>
  (<["url" := url]>
  (<["id" := VStr id]> ∅))))))))))))).

(** [Scheduler.add_schedule(url, start_time, end_time, repeat, daily,
    name, resolution, framerate, format)]: returns the new schedule and
    the list after [append]; an exception of [_update_next_check] leaves
    the list as it was and nothing is saved. *)
Definition add_schedule (id : string)
    (url start_time end_time repeat_ daily name resolution framerate
     format : value) (l : list dict) (w : world)
  : outcome dict * list dict * world :=
  let created_at := now_at O (reads w) in
  let w := {| reads := S (reads w); draws := draws w; trace := trace w |} in
  let schedule :=
    new_schedule id url start_time end_time repeat_ daily name resolution
                 framerate format created_at in
  match _update_next_check {| cur := schedule; wld := w |} with
  | (Ok _, s') =>
      let l' := l ++ [cur s'] in
      (Ok (cur s'), l', emit (Save l') (wld s'))
  | (Raise e, s') => (Raise e, l, wld s')
  end.

(** [Scheduler.remove_schedule(schedule_id)] *)
Definition remove_schedule (schedule_id : value) (l : list dict) (w : world)
  : outcome bool * list dict * world :=
  match without_id schedule_id l with
  | Ok kept => (Ok true, kept, emit (Save kept) w)
  | Raise e => (Raise e, l, w)
  end.

(** The statements of [Scheduler.move_to_next_slot] that work on the
    schedule found (lines 150-177). *)
Definition move_slot : M unit :=
  setitem "status" (VStr "pending") ;;;
  setitem "active_browser_id" VNone ;;;
  setitem "manual_stop" (VBool false) ;;;
  daily <- get "daily" ;;
  if truthy daily then
    start_time_str <- getitem "start_time" ;;
    hm <- lift (split_clock start_time_str) ;;
    now <- datetime_now O ;;
    let tomorrow := PyTime.date now + 1 in
    st <- lift (time_replace (fst hm) (snd hm)) ;;
    setitem "next_check" (isoformat (PyTime.combine tomorrow st))
  else
    repeat_ <- get "repeat" ;;
    if truthy repeat_ then _reschedule_next_week
    else
      setitem "status" (VStr "completed") ;;;
      _update_next_check.

(** [for schedule in self.schedules] of [move_to_next_slot]: the first
    schedule with the id and the browser id ends the loop. *)
Fixpoint move_loop (schedule_id browser_id : string) (l : list dict)
    (w : world) : outcome bool * list dict * world :=
  match l with
  | [] => (Ok false, [], w)
  | schedule :: rest =>
      match schedule !! "id" with
      | None => (Raise (KeyError "id"), l, w)
      | Some id =>
          if py_eq id (VStr schedule_id)
             && py_eq (default VNone (schedule !! "active_browser_id"))
                      (VStr browser_id)
          then
            match move_slot {| cur := schedule; wld := w |} with
            | (Ok _, s') => (Ok true, cur s' :: rest, wld s')
            | (Raise e, s') => (Raise e, cur s' :: rest, wld s')
            end
          else
            let '(r, rest', w') := move_loop schedule_id browser_id rest w in
            (r, schedule :: rest', w')
      end
  end.

(** [Scheduler.move_to_next_slot(browser_id)].  [save_schedules()] and
    [return True] follow the mutation at once, so the save is recorded
    when the loop has returned [True]. *)
Definition move_to_next_slot (browser_id : string) (l : list dict)
    (w : world) : outcome bool * list dict * world :=
  if negb (String.prefix "sched_" browser_id) then (Ok false, l, w)
  else
    match split_on "_"%char browser_id with
    | _ :: schedule_id :: _ =>
        match move_loop schedule_id browser_id l w with
        | (Ok true, l', w') => (Ok true, l', emit (Save l') w')
        | r => r
        end
    | _ => (Ok false, l, w)
    end.

(** *** Updating a schedule *)
Section UpdateSchedule.

Variables (schedule_id url start_time end_time repeat_ daily name
           resolution framerate format : value).

(** The statements of [Scheduler.update_schedule] that work on the
    schedule found (lines 99-113). *)
Definition update_fields : M unit :=
  setitem "url" url ;;;
  setitem "name" name ;;;
  setitem "start_time" start_time ;;;
  setitem "end_time" end_time ;;;
  setitem "repeat" repeat_ ;;;
  setitem "daily" daily ;;;
  setitem "resolution" resolution ;;;
  setitem "framerate" framerate ;;;
  setitem "format" format ;;;
  setitem "status" (VStr "pending") ;;;
  _update_next_check.

(** [for schedule in self.schedules] of [update_schedule]: the first
    schedule with the id ends the loop. *)
Fixpoint update_loop (l : list dict) (w : world)
  : outcome (option dict) * list dict * world :=
  match l with
  | [] => (Ok None, [], w)
  | schedule :: rest =>
      match schedule !! "id" with
      | None => (Raise (KeyError "id"), l, w)
      | Some id =>
          if py_eq id schedule_id then
            match update_fields {| cur := schedule; wld := w |} with
            | (Ok _, s') => (Ok (Some (cur s')), cur s' :: rest, wld s')
            | (Raise e, s') => (Raise e, cur s' :: rest, wld s')
            end
          else
            let '(r, rest', w') := update_loop rest w in
            (r, schedule :: rest', w')
      end
  end.

(** [Scheduler.update_schedule(schedule_id, url, start_time, end_time,
    repeat, daily, name, resolution, framerate, format)]: the updated
    schedule, or [None] when no schedule has the id.  [save_schedules()]
    and [return schedule] follow [_update_next_check] at once. *)
Definition update_schedule (l : list dict) (w : world)
  : outcome (option dict) * list dict * world :=
  match update_loop l w with
  | (Ok (Some schedule), l', w') =>
      (Ok (Some schedule), l', emit (Save l') w')
  | r => r
  end.

End UpdateSchedule.

(** *** Resetting all schedules *)




(** *** The loop thread *)

(** One pass of [while self.running] in [Scheduler._run_loop] (lines
    244-247): the tick inside [try ... except Exception], whose handler
    logs.  The sleep between two passes is not modelled. *)
Definition _run_loop_pass (l : list dict) (w : world) : list dict * world :=
  match _check_schedules l w with
  | (Ok _, l', w') => (l', w')
  | (Raise e, l', w') => (l', emit (LogError e) w')
  end.

(** *** The browser check task *)

(** [f"sched_{schedule['id']}_{int(time.time())}"] for a schedule whose id
    is the string [id]; [stamp] is the text of [int(time.time())]
    (lines 611 of scheduler.py and 251 of schedule_executor.py). *)
Definition browser_id_of (id stamp : string) : string :=
  "sched_" +:+ id +:+ "_" +:+ stamp.

(** The loop of the critical section of [_run_browser_check_task] (lines
    646-651): the first schedule of the list with the id of the task's
    schedule is marked. *)
Fixpoint started_loop (schedule_id : value) (browser_id : string)
    (l : list dict) : outcome bool * list dict :=
  match l with
  | [] => (Ok false, [])
  | s :: rest =>
      match s !! "id" with
      | None => (Raise (KeyError "id"), l)
      | Some id =>
          if py_eq id schedule_id then
            (Ok true,
             <["active_browser_id" := VStr browser_id]>
               (<["status" := VStr "download_started"]> s) :: rest)
          else
            let '(r, rest') := started_loop schedule_id browser_id rest in
            (r, s :: rest')
      end
  end.

(** What [_run_browser_check_task] does to the schedules when the
    download service reports the download of [browser_id] (lines 642-651);
    [save_schedules()] runs inside the [if], before [break]. *)
Definition mark_download_started (schedule_id : value) (browser_id : string)
    (l : list dict) (w : world) : outcome unit * list dict * world :=
  match started_loop schedule_id browser_id l with
  | (Ok true, l') => (Ok tt, l', emit (Save l') w)
  | (Ok false, l') => (Ok tt, l', w)
  | (Raise e, l') => (Raise e, l', w)
  end.

(** *** Loading the schedules at start-up *)

(** what [os.path.exists], [open] and [json.load] find at
    [config.SCHEDULES_FILE]: no file, a file whose reading raises [e], or
    a JSON list of objects *)
Inductive schedules_file :=
| NoFile
| Unreadable (e : exn)
| Stored (l : list dict).

(** the body of the loop of lines 42-44 *)
Definition ensure_next_check : M unit :=
  next_check <- get "next_check" ;;
  when (negb (truthy next_check)) _update_next_check.

Fixpoint load_loop (l : list dict) (w : world)
  : outcome unit * list dict * world :=
  match l with
  | [] => (Ok tt, [], w)
  | schedule :: rest =>
      match ensure_next_check {| cur := schedule; wld := w |} with
      | (Ok _, s') =>
          let '(r, rest', w') := load_loop rest (wld s') in
          (r, cur s' :: rest', w')
      | (Raise e, s') => (Raise e, cur s' :: rest, wld s')
      end
  end.

(** [Scheduler.load_schedules()]: the value of [self.schedules] when it
    returns.  Any exception is caught, logged, and replaced by an empty
    list. *)
Definition load_schedules (f : schedules_file) (w : world)
  : list dict * world :=
  match f with
  | NoFile => ([], w)
  | Unreadable e => ([], emit (LogError e) w)
  | Stored l =>
      match load_loop l w with
      | (Ok _, l', w') => (l', w')
      | (Raise e, _, w') => ([], emit (LogError e) w')
      end
  end.

End WithOracle.
End Scheduler.

(** ** schedule_executor.py *)
Module ScheduleExecutor.
Section WithOracle.

Variable O : oracle.

(** [ScheduleExecutor._update_next_check(schedule)] *)
Definition _update_next_check : M unit :=
  now <- datetime_now O ;;
  daily <- get "daily" ;;
  if truthy daily
  then DailyTimeCalculator.calculate_next_check O now
  else RegularTimeCalculator.calculate_next_check O now.

(** [ScheduleExecutor.reschedule_weekly(schedule)] *)
Definition reschedule_weekly : M unit :=
  w <- resolve_regular ;;
  let '(start_dt, end_dt) := w in
  new_start <- lift (datetime_add start_dt (PyTime.days 7)) ;;
  new_end <- lift (datetime_add end_dt (PyTime.days 7)) ;;
  setitem "start_time" (isoformat new_start) ;;;
  setitem "end_time" (isoformat new_end) ;;;
  setitem "status" (VStr "pending") ;;;
  _update_next_check ;;;
  log_id.

(** [ScheduleExecutor._perform_check(schedule, ...)] *)
Definition _perform_check : M unit :=
  getitem "name" ;;;
  getitem "url" ;;;
  start_thread ;;;
  _update_next_check.

(** The body of the [try] in [ScheduleExecutor.execute_schedules]. *)
Definition execute_one (now : Z) : M unit :=
  daily <- get "daily" ;;
  if truthy daily then
    should_execute <- DailyTimeCalculator.check_schedule O now ;;
    when should_execute _perform_check
  else
    w <- resolve_regular ;;
    let '(start_dt, end_dt) := w in
    if now >? end_dt then
      repeat_ <- getitem "repeat" ;;
      if truthy repeat_ then reschedule_weekly
      else
        status <- getitem "status" ;;
        when (negb (py_eq status (VStr "download_started")))
             (setitem "status" (VStr "completed"))
    else
      should_execute <- RegularTimeCalculator.check_schedule O now ;;
      when should_execute _perform_check.

(** [ScheduleExecutor.execute_schedules(schedules, ...)];
    [save_callback()] is the [Save] event. *)
Definition execute_schedules (l : list dict) (w : world)
  : outcome unit * list dict * world :=
  Tick.run O execute_one l w.

End WithOracle.
End ScheduleExecutor.

(** ** schedule_repository.py *)
Module ScheduleRepository.

(** the schedules file: missing, unreadable as JSON, or a list *)
Inductive file :=
| Missing
| Corrupt
| Content (l : list dict).

(** [self.lock] is a [threading.Lock], which is not reentrant *)
Record repo := {
  schedules_file : file;
  lock_held : bool;
  _schedules_cache : option (list dict)
}.

Inductive result (A : Type) :=
| Returns (a : A)
| Raises (e : exn)
| Blocks.                      (* waits for a lock that is never freed *)
Arguments Returns {A} a.
Arguments Raises {A} e.
Arguments Blocks {A}.

Definition set_lock (b : bool) (r : repo) : repo :=
  {| schedules_file := schedules_file r; lock_held := b;
     _schedules_cache := _schedules_cache r |}.

(** [ScheduleRepository._load_for_modification()] *)
Definition _load_for_modification (r : repo) : list dict :=
  match schedules_file r with
  | Content l => l
  | Missing | Corrupt => []
  end.

(** [ScheduleRepository.save_schedules(schedules)]; a failing write is
    logged and swallowed, which the model does not distinguish. *)
Definition save_schedules (l : list dict) (r : repo) : result unit * repo :=
  if lock_held r then (Blocks, r)
  else (Returns tt,
        {| schedules_file := Content l; lock_held := false;
           _schedules_cache := Some l |}).

(** [ScheduleRepository.remove_schedule(schedule_id)] *)
Definition remove_schedule (schedule_id : value) (r : repo)
  : result bool * repo :=
  if lock_held r then (Blocks, r)
  else
    let r := set_lock true r in
    let schedules := _load_for_modification r in
    let initial_count := length schedules in
    match without_id schedule_id schedules with
    | Raise e => (Raises e, set_lock false r)
    | Ok kept =>
        if (length kept <? initial_count)%nat then
          match save_schedules kept r with
          | (Returns _, r') => (Returns true, set_lock false r')
          | (Raises e, r') => (Raises e, set_lock false r')
          | (Blocks, r') => (Blocks, r')
          end
        else (Returns false, set_lock false r)
    end.

(** [ScheduleRepository.load_schedules()] *)
Definition load_schedules (r : repo) : result (list dict) * repo :=
  if lock_held r then (Blocks, r)
  else
    let schedules :=
      match schedules_file r with
      | Content l => l
      | Missing | Corrupt => []
      end in
    (Returns schedules,
     {| schedules_file := schedules_file r; lock_held := false;
        _schedules_cache := Some schedules |}).

(** [ScheduleRepository.get_all_schedules()] *)
Definition get_all_schedules (r : repo) : result (list dict) * repo :=
  load_schedules r.

(** [for schedule in schedules: if schedule['id'] == schedule_id:
    return schedule], then [return None] *)
Fixpoint first_with_id (schedule_id : value) (l : list dict)
  : outcome (option dict) :=
  match l with
  | [] => Ok None
  | schedule :: rest =>
      match schedule !! "id" with
      | None => Raise (KeyError "id")
      | Some id =>
          if py_eq id schedule_id then Ok (Some schedule)
          else first_with_id schedule_id rest
      end
  end.

(** [ScheduleRepository.get_schedule_by_id(schedule_id)] *)
Definition get_schedule_by_id (schedule_id : value) (r : repo)
  : result (option dict) * repo :=
  match get_all_schedules r with
  | (Returns schedules, r') =>
      match first_with_id schedule_id schedules with
      | Ok found => (Returns found, r')
      | Raise e => (Raises e, r')
      end
  | (Raises e, r') => (Raises e, r')
  | (Blocks, r') => (Blocks, r')
  end.

(** [ScheduleRepository.add_schedule(schedule)]: [save_schedules] is
    called inside [with self.lock]. *)
Definition add_schedule (schedule : dict) (r : repo) : result dict * repo :=
  if lock_held r then (Blocks, r)
  else
    let r := set_lock true r in
    let schedules := _load_for_modification r ++ [schedule] in
    match save_schedules schedules r with
    | (Returns _, r') => (Returns schedule, set_lock false r')
    | (Raises e, r') => (Raises e, set_lock false r')
    | (Blocks, r') => (Blocks, r')
    end.

(** The loop of [update_schedule] up to [schedule.update(updates)]: the
    list with the first schedule of that id updated, and that schedule;
    [None] when the loop ends without a match. *)
Fixpoint update_first (schedule_id : value) (updates : dict) (l : list dict)
  : outcome (option (dict * list dict)) :=
  match l with
  | [] => Ok None
  | schedule :: rest =>
      match schedule !! "id" with
      | None => Raise (KeyError "id")
      | Some id =>
          if py_eq id schedule_id then
            let schedule' := updates ∪ schedule in
            Ok (Some (schedule', schedule' :: rest))
          else
            match update_first schedule_id updates rest with
            | Ok (Some (found, rest')) => Ok (Some (found, schedule :: rest'))
            | r => r
            end
      end
  end.

(** [ScheduleRepository.update_schedule(schedule_id, updates)] *)
Definition update_schedule (schedule_id : value) (updates : dict) (r : repo)
  : result (option dict) * repo :=
  if lock_held r then (Blocks, r)
  else
    let r := set_lock true r in
    match update_first schedule_id updates (_load_for_modification r) with
    | Raise e => (Raises e, set_lock false r)
    | Ok None => (Returns None, set_lock false r)
    | Ok (Some (schedule, schedules)) =>
        match save_schedules schedules r with
        | (Returns _, r') => (Returns (Some schedule), set_lock false r')
        | (Raises e, r') => (Raises e, set_lock false r')
        | (Blocks, r') => (Blocks, r')
        end
    end.

End ScheduleRepository.


(** ** browser_service.py

    The launch queue as a transition system.  A step is one critical
    section (a [with self.queue_lock] block) or one blocking call of the
    queue processor; the other threads ([start_browser] and [close_browser]
    callers) may take their steps between any two of them. *)
Module BrowserService.

Inductive status := queued | launching.

#[global] Instance status_eq_dec : EqDecision status.
Proof. solve_decision. Defined.

(** an entry of [self.active_browsers]: the placeholder dict of a request
    that has not been launched, or a [StreamDetector] *)
Inductive browser :=
| Placeholder (st : status)
| Detector.

#[global] Instance browser_eq_dec : EqDecision browser.
Proof. solve_decision. Defined.

(** where the thread of [_process_browser_queue] stands *)
Inductive worker :=
| Idle                                   (* [browser_queue.get], line 90 *)
| Marking (bid : string)                 (* lines 94-100 *)
| Snapshot (bid : string)                (* [_ensure_chrome_closed], 140-145 *)
| Closing (bid : string) (todo : list string)
                                         (* the loop of lines 149-153 *)
| ClosingDetector (bid b : string) (todo : list string)
                                         (* [detector.close()], line 230 *)
| Waiting (bid : string)                 (* sleeps and polls, 155-186 *)
| Installing (bid : string)              (* [_launch_browser_internal], 190-204 *)
| Starting (bid : string).               (* [detector.start_browser(url)] *)

Record state := {
  active_browsers : gmap string browser;
  browser_queue : list string;           (* browser ids of the requests *)
  processor : worker
}.

Definition init : state :=
  {| active_browsers := ∅; browser_queue := []; processor := Idle |}.

Inductive action :=
| Place (bid : string)    (* [start_browser], lines 55-61: the placeholder *)
| Put (bid : string)      (* [start_browser], line 65: [browser_queue.put] *)
| Remove (bid : string)   (* a [del] of [close_browser] in another thread *)
| Work (ok : bool)        (* the next step of the queue processor; [ok] is
                             what [detector.start_browser] returns *)
| Fail.                   (* an exception in the processor's [try]: the
                             handler of lines 126-130, back to the loop *)

(** [[bid for bid, browser in active_browsers.items()
      if not isinstance(browser, dict)]] *)
Definition browsers_to_close (m : gmap string browser) : list string :=
  filter (fun bid => m !! bid = Some Detector) (map_to_list m).*1.

Definition with_worker (w : worker) (s : state) : state :=
  {| active_browsers := active_browsers s;
     browser_queue := browser_queue s; processor := w |}.

Definition with_browsers (m : gmap string browser) (s : state) : state :=
  {| active_browsers := m;
     browser_queue := browser_queue s; processor := processor s |}.

(** one step of [_process_browser_queue] *)
Definition work (ok : bool) (s : state) : state :=
  let m := active_browsers s in
  match processor s with
  | Idle =>
      match browser_queue s with
      | [] => s                               (* [queue.Empty]: [continue] *)
      | bid :: rest =>
          {| active_browsers := m; browser_queue := rest;
             processor := Marking bid |}
      end
  | Marking bid =>
      let m' := match m !! bid with
                | Some (Placeholder _) => <[bid := Placeholder launching]> m
                | _ => m
                end in
      with_worker (Snapshot bid) (with_browsers m' s)
  | Snapshot bid => with_worker (Closing bid (browsers_to_close m)) s
  | Closing bid [] => with_worker (Waiting bid) s
  | Closing bid (b :: todo) =>
      (* [close_browser(b)], lines 216-225 *)
      match m !! b with
      | None => with_worker (Closing bid todo) s
      | Some (Placeholder _) =>
          with_worker (Closing bid todo) (with_browsers (delete b m) s)
      | Some Detector => with_worker (ClosingDetector bid b todo) s
      end
  | ClosingDetector bid b todo =>
      (* [close_browser(b)], lines 229-239 *)
      with_worker (Closing bid todo) (with_browsers (delete b m) s)
  | Waiting bid => with_worker (Installing bid) s
  | Installing bid =>
      with_worker (Starting bid) (with_browsers (<[bid := Detector]> m) s)
  | Starting bid =>
      if ok then with_worker Idle s
      else with_worker Idle (with_browsers (delete bid m) s)
  end.

Definition step (a : action) (s : state) : state :=
  match a with
  | Place bid =>
      with_browsers (<[bid := Placeholder queued]> (active_browsers s)) s
  | Put bid =>
      {| active_browsers := active_browsers s;
         browser_queue := browser_queue s ++ [bid];
         processor := processor s |}
  | Remove bid => with_browsers (delete bid (active_browsers s)) s
  | Work ok => work ok s
  | Fail => with_worker Idle s
  end.

(** the state after a schedule of steps, oldest first *)
Definition run (acts : list action) (s : state) : state :=
  foldl (fun s a => step a s) s acts.

(** the status a session reports *)
Inductive reported := Rqueued | Rlaunching | Rrunning.

(** Modelled from the spec: what a launched session reports.
    [StreamDetector.get_status] is in [app/models], which is not among the
    sources; by the Browser Controller contract of the specification a
    launched session reports [running].  The other branches are
    [BrowserService.get_browser_status], lines 243-251: absent ids give
    [None] and a placeholder reports the status it holds. *)
Definition get_browser_status (s : state) (bid : string) : option reported :=
  match active_browsers s !! bid with
  | None => None
  | Some (Placeholder queued) => Some Rqueued
  | Some (Placeholder launching) => Some Rlaunching
  | Some Detector => Some Rrunning
  end.

(** a session that is launching or running *)
Definition in_flight (s : state) (bid : string) : Prop :=
  get_browser_status s bid = Some Rlaunching \/
  get_browser_status s bid = Some Rrunning.

End BrowserService.

(** ** The calculators by variant *)
Inductive variant := Daily | Regular.

(** the window ([start_dt], [end_dt]) a calculator works with *)
Definition resolve (v : variant) (now : Z) : M (Z * Z) :=
  match v with
  | Daily => w <- resolve_daily now ;; ret (start_dt w, end_dt w)
  | Regular => resolve_regular
  end.

Definition calculate_next_check (O : oracle) (v : variant) (now : Z) : M unit :=
  match v with
  | Daily => DailyTimeCalculator.calculate_next_check O now
  | Regular => RegularTimeCalculator.calculate_next_check O now
  end.

(** ** Closed forms used by the proofs *)

(** the outcome of a log line that reads [schedule['id']] *)
Definition log_result (d : dict) : outcome unit :=
  match d !! "id" with
  | Some _ => Ok tt
  | None => Raise (KeyError "id")
  end.

Definition set_next (v : value) (s : pst) : pst :=
  {| cur := <["next_check" := v]> (cur s); wld := wld s |}.

(** the state after one random draw *)
Definition drawn (s : pst) : pst :=
  {| cur := cur s;
     wld := {| reads := reads (wld s); draws := S (draws (wld s));
               trace := trace (wld s) |} |}.

(** the state after one clock reading *)
Definition clocked (s : pst) : pst :=
  {| cur := cur s;
     wld := {| reads := S (reads (wld s)); draws := draws (wld s);
               trace := trace (wld s) |} |}.

Definition regular_next (O : oracle) (now : Z) (s : pst) (a b : Z) : pst :=
  if now <? a then set_next (VIso a) s
  else if (a <=? now) && (now <=? b) then
    set_next (VIso (Z.min (now + delay_at O (draws (wld s))) b)) (drawn s)
  else set_next VNone s.

Definition daily_next (O : oracle) (now : Z) (s : pst) (w : window) : pst :=
  if now <? start_dt w then set_next (VIso (start_dt w)) s
  else if (start_dt w <=? now) && (now <=? end_dt w) then
    set_next (VIso (Z.min (now + delay_at O (draws (wld s))) (end_dt w)))
             (drawn s)
  else
    set_next
      (VIso (if spans_midnight w && (PyTime.time now <? start_clock w)
             then PyTime.combine (PyTime.date now) (start_clock w)
             else PyTime.combine (PyTime.date now + 1) (start_clock w))) s.

(** the window of a clock pair that passed both range checks *)
Definition clock_window (now sh sm eh em : Z) : window :=
  daily_window now sh sm eh em (PyTime.hm sh sm) (PyTime.hm eh em).

Definition clock_ok (h m : Z) : Prop := 0 <= h <= 23 /\ 0 <= m <= 59.

#[global] Instance clock_ok_dec h m : Decision (clock_ok h m).
Proof. unfold clock_ok. apply _. Defined.

(** what [replace(hour=h, minute=m)] raises for an hour and a minute that
    are not a clock time: [OverflowError] when one of them does not fit a
    C [int], else [ValueError] *)
Definition clock_error (h m : Z) : exn :=
  if c_int h && c_int m then ValueError else OverflowError.

(** what reading the two clocks of a daily window raises when one of them
    is out of range: the start clock is read first *)
Definition window_error (sh sm eh em : Z) : exn :=
  if decide (clock_ok sh sm) then clock_error eh em else clock_error sh sm.

(** ** Concrete inputs used in examples *)

(** a clock that stands still at [now], [random.random()] returning its
    largest value first and 0.0 afterwards (draws of 8 minutes first and 5
    minutes afterwards), and no download in progress *)
Definition still_oracle (now : Z) : oracle :=
  {| now_at := fun _ => now;
     random_at := fun k => match k with
                           | O => PyTime.UNIT - 1
                           | S _ => 0
                           end;
     download_queue := fun _ => None |}.

(** a regular schedule with the fields [add_schedule] writes *)
Definition regular_schedule (status : string) (start_time end_time : Z)
    (repeat_ : bool) (next_check : value) : dict :=
  <["next_check" := next_check]>
  (<["status" := VStr status]>
  (Scheduler.new_schedule "1700000000000" (VStr "https://example.org/live")
     (VIso start_time) (VIso end_time) (VBool repeat_) (VBool false)
     (VStr "show") (VStr "1080p") (VStr "any") (VStr "mp4") start_time)).

(** a daily schedule with the fields [add_schedule] writes *)
Definition daily_schedule (status : string) (sh sm eh em : Z)
    (next_check : value) : dict :=
  <["next_check" := next_check]>
  (<["status" := VStr status]>
  (Scheduler.new_schedule "1700000000001" (VStr "https://example.org/live")
     (VClock sh sm) (VClock eh em) (VBool false) (VBool true)
     (VStr "show") (VStr "1080p") (VStr "any") (VStr "mp4") 0)).

Definition on (d : dict) : pst := {| cur := d; wld := world0 |}.

(** two states whose schedules have the same window fields *)
Definition same_window (s0 s : pst) : Prop :=
  cur s0 !! "start_time" = cur s !! "start_time"
  /\ cur s0 !! "end_time" = cur s !! "end_time".

(** ** Relations between the state before and after a piece of code *)

(** [c] takes every state to one related to it by [R], whatever it
    returns or raises *)
Definition steps (R : pst -> pst -> Prop) {A} (c : M A) : Prop :=
  forall s, R s (snd (c s)).

(** only the keys in [K] of the schedule may have changed *)
Definition frame (K : list string) (s s' : pst) : Prop :=
  forall k, k ∉ K -> cur s' !! k = cur s !! k.

Definition is_save (e : event) : bool :=
  match e with Save _ => true | _ => false end.

Definition no_save (evs : list event) : Prop :=
  forallb (fun e => negb (is_save e)) evs = true.

(** events were appended to the trace, none of them a [Save] *)
Definition extends (w w' : world) : Prop :=
  exists evs, trace w' = evs ++ trace w /\ no_save evs.

Definition quiet (s s' : pst) : Prop := extends (wld s) (wld s').

(** the keys a tick may write *)
Definition tick_keys : list string :=
  ["status"; "next_check"; "last_check"; "active_browser_id"; "manual_stop";
   "start_time"; "end_time"].

(** what code that writes only the keys in [K] and saves nothing does *)
Definition rel (K : list string) (s s' : pst) : Prop :=
  frame K s s' /\ quiet s s'.

(** ** A tick that no exception leaves *)

(** the two keys the loop reads outside its [try] *)
Definition keyed (d : dict) : Prop :=
  is_Some (d !! "id") /\ is_Some (d !! "status").

(** [schedule['status'] == 'completed' and not schedule.get('daily')] *)
Definition skip_cond (d : dict) : bool :=
  py_eq (default VNone (d !! "status")) (VStr "completed")
  && negb (truthy (default VNone (d !! "daily"))).

(** one iteration over a [keyed] schedule: skipped, or the body with its
    exception, if any, logged *)
Definition iterate (body : Z -> M unit) (now : Z) (s : pst) : pst :=
  if skip_cond (cur s) then s
  else match body now s with
       | (Ok _, s') => s'
       | (Raise e, s') =>
           {| cur := cur s'; wld := emit (LogError e) (wld s') |}
       end.

Fixpoint each (body : Z -> M unit) (now : Z) (l : list dict) (w : world)
  : list dict * world :=
  match l with
  | [] => ([], w)
  | d :: rest =>
      let s' := iterate body now {| cur := d; wld := w |} in
      let '(rest', w') := each body now rest (wld s') in
      (cur s' :: rest', w')
  end.

(** the two execution loops of the sources *)
Inductive tick_kind := SchedulerTick | ExecutorTick.

Definition tick_body (O : oracle) (k : tick_kind) : Z -> M unit :=
  match k with
  | SchedulerTick => Scheduler.check_one O
  | ExecutorTick => ScheduleExecutor.execute_one O
  end.

Definition tick (O : oracle) (k : tick_kind) (l : list dict) (w : world)
  : outcome unit * list dict * world :=
  match k with
  | SchedulerTick => Scheduler._check_schedules O l w
  | ExecutorTick => ScheduleExecutor.execute_schedules O l w
  end.

(** the world after the clock reading that opens a tick *)
Definition tick_world (w : world) : world :=
  {| reads := S (reads w); draws := draws w; trace := trace w |}.

(** a one-shot schedule whose [start_time] cannot be parsed, followed by a
    one-shot schedule whose window 10:00-12:00 on 2024-01-01 is open *)
Definition mixed_list : list dict :=
  [ <["start_time" := VStr "tomorrow"]>
      (regular_schedule "pending" 0 0 false VNone);
    regular_schedule "pending" (PyTime.civil 2024 1 1 10 0)
      (PyTime.civil 2024 1 1 12 0) false VNone ].

(** an event without the dictionaries it carries *)
Inductive event_kind := Spawned | Logged (e : exn) | Saved.

Definition kind_of (e : event) : event_kind :=
  match e with
  | Spawn _ => Spawned
  | LogError e => Logged e
  | Save _ => Saved
  end.

(** [[s.get(k) for s in l]] *)
Definition column (k : string) (l : list dict) : list value :=
  map (fun d => default VNone (d !! k)) l.

(** a one-shot schedule whose window 10:00-12:00 on 2024-01-01 has passed
    while its download was recorded as started *)
Definition started_one_shot : dict :=
  <["manual_stop" := VBool false]>
  (<["active_browser_id" := VStr "sched_1700000000000_1704103500"]>
   (regular_schedule "download_started" (PyTime.civil 2024 1 1 10 0)
      (PyTime.civil 2024 1 1 12 0) false VNone)).

(** the weekly schedule of the specification's example: 2024-01-01, 10:00
    to 12:00, repeating *)
Definition weekly_schedule : dict :=
  regular_schedule "active" (PyTime.civil 2024 1 1 10 0)
    (PyTime.civil 2024 1 1 12 0) true VNone.

(** a daily schedule, window 20:00-22:00, whose download was recorded as
    started and for which [manual_stop] is set *)
Definition stopped_daily : dict :=
  <["manual_stop" := VBool true]>
  (<["active_browser_id" := VStr "sched_1700000000001_1704139200"]>
   (daily_schedule "download_started" 20 0 22 0 VNone)).

(** a window that can be moved by a week: both times plus seven days are
    still [datetime]s *)
Definition next_week_ok (a b : Z) : Prop :=
  PyTime.is_datetime (a + PyTime.days 7)
  /\ PyTime.is_datetime (b + PyTime.days 7).


(** the calculator variant that [schedule.get('daily')] selects *)
Definition variant_of (d : dict) : variant :=
  if truthy (default VNone (d !! "daily")) then Daily else Regular.

(** a window that spans midnight: the end clock is earlier than the
    start clock *)
Definition spanning (sh sm eh em : Z) : Prop :=
  eh < sh \/ (eh = sh /\ em < sm).

(** ** Fields of a schedule record *)

(** the fields of the data model as the specification enumerates them
    for a created record *)
Definition spec_fields : gset string :=
  list_to_set
    ["id"; "url"; "name"; "resolution"; "framerate"; "format"; "daily";
     "repeat"; "status"; "next_check"; "last_check"; "active_browser_id";
     "manual_stop"; "created_at"].

(** the keys of the dict literal in [Scheduler.add_schedule] *)
Definition written_fields : gset string :=
  list_to_set
    ["id"; "url"; "name"; "resolution"; "framerate"; "format";
     "start_time"; "end_time"; "repeat"; "daily"; "status"; "next_check";
     "last_check"; "created_at"].

(** [start_time] and [end_time] are what the calculator selected by
    [daily] can parse *)
Definition well_timed (daily start_time end_time : value) : Prop :=
  if truthy daily then
    exists sh sm eh em,
      start_time = VClock sh sm /\ end_time = VClock eh em
      /\ clock_ok sh sm /\ clock_ok eh em
  else
    exists a b, start_time = VIso a /\ end_time = VIso b.

(** the arguments of an [add_schedule] call for a daily check from 20:00
    to 22:00 *)
Definition added (O : oracle) : outcome dict * list dict * world :=
  Scheduler.add_schedule O "1700000000002" (VStr "https://example.org/live")
    (VClock 20 0) (VClock 22 0) (VBool false) (VBool true) VNone
    (VStr "1080p") (VStr "any") (VStr "mp4") [] world0.

(** ** Removing schedules *)

Definition has_id (d : dict) : Prop := is_Some (d !! "id").

(** the schedules whose [id] differs from [schedule_id], in their order *)
Definition others (schedule_id : value) (l : list dict) : list dict :=
  filter (fun d => d !! "id" <> Some schedule_id) l.

(** two schedules named 1 and 2, the second one twice *)
Definition three_schedules : list dict :=
  [ <["id" := VStr "1"]> ∅; <["id" := VStr "2"]> ∅;
    <["url" := VStr "u"]> (<["id" := VStr "2"]> ∅) ].

Definition free_repo (f : ScheduleRepository.file)
  : ScheduleRepository.repo :=
  {| ScheduleRepository.schedules_file := f;
     ScheduleRepository.lock_held := false;
     ScheduleRepository._schedules_cache := None |}.

(** ** The launch queue: invariant and a concrete schedule of steps *)

(** the sessions that have been launched and are still tracked *)
Definition launched (s : BrowserService.state) (bid : string) : Prop :=
  BrowserService.active_browsers s !! bid = Some BrowserService.Detector.

(** what the position of the queue processor says about them *)
Definition processor_inv (s : BrowserService.state) : Prop :=
  match BrowserService.processor s with
  | BrowserService.Closing _ todo => forall b, launched s b -> b ∈ todo
  | BrowserService.ClosingDetector _ b0 todo =>
      forall b, launched s b -> b = b0 \/ b ∈ todo
  | BrowserService.Waiting _ | BrowserService.Installing _ =>
      forall b, ~ launched s b
  | BrowserService.Starting bid => forall b, launched s b -> b = bid
  | _ => True
  end.

Definition queue_inv (s : BrowserService.state) : Prop :=
  (forall b1 b2, launched s b1 -> launched s b2 -> b1 = b2)
  /\ processor_inv s.

(** request [a] is queued, launched and running; request [b] is queued,
    and the processor takes it and marks it as launching *)
Definition two_requests : list BrowserService.action :=
  [ BrowserService.Place "a"; BrowserService.Put "a";
    BrowserService.Work true;     (* get *)
    BrowserService.Work true;     (* status: launching *)
    BrowserService.Work true;     (* snapshot of the browsers to close *)
    BrowserService.Work true;     (* nothing to close *)
    BrowserService.Work true;     (* waited *)
    BrowserService.Work true;     (* detector stored *)
    BrowserService.Work true;     (* browser started *)
    BrowserService.Place "b"; BrowserService.Put "b";
    BrowserService.Work true;     (* get *)
    BrowserService.Work true ].   (* status: launching *)

(** how a session that was launched and started leaves
    [active_browsers] *)
Inductive ending :=
| ClosedByProcessor      (* [close_browser] in [_ensure_chrome_closed]:
                            [detector.close()], then the [del] *)
| RemovedByOtherThread   (* the [del] of a [close_browser] in another
                            thread *)
| Replaced.              (* [start_browser] with the same browser id: the
                            placeholder overwrites the entry, and nothing
                            closes the session *)

(** the way in which step [a], taken in state [s], untracks session [b] *)
Definition ends (b : string) (a : BrowserService.action)
    (s : BrowserService.state) : option ending :=
  match a with
  | BrowserService.Work _ =>
      match BrowserService.processor s with
      | BrowserService.ClosingDetector _ b' _ =>
          if decide (b' = b) then Some ClosedByProcessor else None
      | _ => None
      end
  | BrowserService.Remove b' =>
      if decide (b' = b) then Some RemovedByOtherThread else None
  | BrowserService.Place b' =>
      if decide (b' = b) then Some Replaced else None
  | _ => None
  end.

(** request [a] is queued, launched and running; then a second request
    with the same browser id is queued, and the processor takes it as far
    as the launch *)
Definition same_id_again : list BrowserService.action :=
  [ BrowserService.Place "a"; BrowserService.Put "a";
    BrowserService.Work true; BrowserService.Work true;
    BrowserService.Work true; BrowserService.Work true;
    BrowserService.Work true; BrowserService.Work true;
    BrowserService.Work true;
    BrowserService.Place "a"; BrowserService.Put "a";
    BrowserService.Work true;     (* get *)
    BrowserService.Work true;     (* status: launching *)
    BrowserService.Work true;     (* snapshot: no session is tracked *)
    BrowserService.Work true;     (* nothing to close *)
    BrowserService.Work true ].   (* waited *)

(** the browser id of the download of [stopped_daily] *)
Definition stopped_browser_id : string := "sched_1700000000001_1704139200".

(** ** Vocabulary of the further properties *)

(** [check_schedule] of the calculator of a variant *)
Definition check_schedule (O : oracle) (v : variant) (now : Z) : M bool :=
  match v with
  | Daily => DailyTimeCalculator.check_schedule O now
  | Regular => RegularTimeCalculator.check_schedule O now
  end.

(** the outcome of the block both calculators run inside the window
    (time_calculator.py 99-113 and 237-251) *)
Definition checked_inside (now : Z) (s : pst) : outcome bool * pst :=
  let status := default VNone (cur s !! "status") in
  let next_check := default VNone (cur s !! "next_check") in
  let s1 := {| cur := <["status" := VStr "active"]> (cur s); wld := wld s |} in
  if py_eq status (VStr "download_started") then (Ok false, s)
  else if py_eq status (VStr "pending") || negb (truthy next_check)
       then (Ok true, s1)
       else match fromisoformat next_check with
            | Ok t => (Ok (t <=? now), s1)
            | Raise e => (Raise e, s1)
            end.


(** the schedule after the assignments of lines 99-110 *)
Definition overwritten
    (url start_time end_time repeat_ daily name resolution framerate
     format : value) (d : dict) : dict :=
  <["status" := VStr "pending"]>
  (<["format" := format]>
  (<["framerate" := framerate]>
  (<["resolution" := resolution]>
  (<["daily" := daily]>
  (<["repeat" := repeat_]>
  (<["end_time" := end_time]>
  (<["start_time" := start_time]>
  (<["name" := name]>
  (<["url" := url]> d))))))))).

(** a schedule whose id is present and differs from [schedule_id] *)
Definition other_id (schedule_id : value) (d : dict) : Prop :=
  exists id, d !! "id" = Some id /\ id <> schedule_id.

(** a one-shot schedule that is completed, then a daily schedule whose
    download has started *)
Definition two_schedules : list dict :=
  [ regular_schedule "completed" (PyTime.civil 2024 1 1 10 0)
      (PyTime.civil 2024 1 1 12 0) false VNone;
    stopped_daily ].

(** a schedule whose next check can be calculated: it has an id, and its
    [start_time] and [end_time] are what the calculator selected by its
    [daily] field can parse *)
Definition schedulable (d : dict) : Prop :=
  is_Some (d !! "id")
  /\ exists st et,
      d !! "start_time" = Some st /\ d !! "end_time" = Some et
      /\ well_timed (default VNone (d !! "daily")) st et.

(** a schedule that a manual stop can move to its next slot: when it is
    a weekly one, its window can be moved by a week *)
Definition next_week_fits (d : dict) : Prop :=
  truthy (default VNone (d !! "daily")) = false ->
  truthy (default VNone (d !! "repeat")) = true ->
  forall a b,
    d !! "start_time" = Some (VIso a) -> d !! "end_time" = Some (VIso b) ->
    next_week_ok a b.



(** a schedule without a status between two complete ones *)
Definition broken_list : list dict :=
  [ regular_schedule "pending" (PyTime.civil 2024 1 1 10 0)
      (PyTime.civil 2024 1 1 12 0) false VNone;
    <["id" := VStr "7"]> ∅;
    stopped_daily ].

(** [broken_list] without the schedule that has no status *)
Definition mended_list : list dict :=
  [ regular_schedule "pending" (PyTime.civil 2024 1 1 10 0)
      (PyTime.civil 2024 1 1 12 0) false VNone;
    stopped_daily ].

(** what [load_schedules] makes of one stored schedule when it keeps the
    list: at most [next_check] differs, and a schedule that had a next
    check is as it was *)
Definition loaded (d d' : dict) : Prop :=
  (forall k, k <> "next_check" -> d' !! k = d !! k)
  /\ (truthy (default VNone (d !! "next_check")) = true -> d' = d).

(** a schedule that [load_schedules] can take in *)
Definition loadable (d : dict) : Prop :=
  truthy (default VNone (d !! "next_check")) = true \/ schedulable d.

(** ['_' in s] *)
Fixpoint has_underscore (s : string) : bool :=
  match s with
  | EmptyString => false
  | String c rest => Ascii.eqb c "_" || has_underscore rest
  end.

(** the request the queue processor has marked and not yet installed *)
Definition marked (w : BrowserService.worker) : option string :=
  match w with
  | BrowserService.Snapshot bid | BrowserService.Closing bid _
  | BrowserService.ClosingDetector bid _ _ | BrowserService.Waiting bid
  | BrowserService.Installing bid => Some bid
  | BrowserService.Idle | BrowserService.Marking _
  | BrowserService.Starting _ => None
  end.

(** a placeholder reports [launching] only for that request *)
Definition launching_inv (s : BrowserService.state) : Prop :=
  forall b,
    BrowserService.active_browsers s !! b
    = Some (BrowserService.Placeholder BrowserService.launching) ->
    marked (BrowserService.processor s) = Some b.

(** the processor's handler of lines 126-130 does not run *)
Definition no_failure (acts : list BrowserService.action) : Prop :=
  BrowserService.Fail ∉ acts.

(** the map after [close_browser] was called for each id of [todo] *)
Definition all_closed (todo : list string)
    (m : gmap string BrowserService.browser)
  : gmap string BrowserService.browser :=
  foldl (fun m b => delete b m) m todo.

(** request [a] is queued and its placeholder is closed before the queue
    processor takes it *)
Definition closed_while_queued : list BrowserService.action :=
  [ BrowserService.Place "a"; BrowserService.Put "a";
    BrowserService.Remove "a" ].

(* ================================================================= *)
(** * Properties *)

(** ** Dates and clock times *)

Lemma PyTime_time_range now : 0 <= PyTime.time now < PyTime.DAY.
Proof. apply Z.mod_pos_bound. reflexivity. Qed.

Lemma PyTime_combine_date_time now :
  PyTime.combine (PyTime.date now) (PyTime.time now) = now.
Proof.
  unfold PyTime.combine, PyTime.date, PyTime.time.
  pose proof (Z.div_mod now PyTime.DAY ltac:(discriminate)). lia.
Qed.

Lemma PyTime_hm_range h m : clock_ok h m -> 0 <= PyTime.hm h m < PyTime.DAY.
Proof. unfold clock_ok, PyTime.hm, PyTime.DAY, PyTime.MINUTE. lia. Qed.

(** the order on [time] objects is the order on (hour, minute) pairs *)
Lemma PyTime_hm_lt h1 m1 h2 m2 :
  clock_ok h1 m1 -> clock_ok h2 m2 ->
  (PyTime.hm h1 m1 < PyTime.hm h2 m2 <-> h1 < h2 \/ (h1 = h2 /\ m1 < m2)).
Proof. unfold clock_ok, PyTime.hm, PyTime.MINUTE. lia. Qed.

Lemma c_int_clock h m : clock_ok h m -> c_int h && c_int m = true.
Proof.
  unfold clock_ok, c_int. intros [[? ?] [? ?]].
  rewrite !(proj2 (Z.leb_le _ _)) by lia. reflexivity.
Qed.

Lemma time_replace_ok h m :
  clock_ok h m -> time_replace h m = Ok (PyTime.hm h m).
Proof.
  intros H. unfold time_replace. rewrite (c_int_clock h m H).
  destruct H as [[? ?] [? ?]].
  rewrite !(proj2 (Z.leb_le _ _)) by assumption. reflexivity.
Qed.

Lemma time_replace_inv h m t :
  time_replace h m = Ok t -> clock_ok h m /\ t = PyTime.hm h m.
Proof.
  unfold clock_ok, time_replace. intros H.
  destruct (negb (c_int h && c_int m)); [discriminate|].
  destruct (0 <=? h) eqn:E1, (h <=? 23) eqn:E2, (0 <=? m) eqn:E3,
    (m <=? 59) eqn:E4; simpl in H; try discriminate.
  inversion H. lia.
Qed.

(** ** The delay between two checks *)

Lemma round_half_even_bounds n d lo hi :
  0 < d -> lo * d <= n < hi * d ->
  lo <= PyTime.round_half_even n d <= hi.
Proof.
  intros Hd [Hlo Hhi]. unfold PyTime.round_half_even. cbv zeta.
  assert (lo <= n / d) by (apply Z.div_le_lower_bound; lia).
  assert (n / d < hi) by (apply Z.div_lt_upper_bound; lia).
  destruct (2 * (n mod d) <? d); [lia|].
  destruct (d <? 2 * (n mod d)); [lia|].
  destruct (Z.even (n / d)); lia.
Qed.

(** [random.random()] is at least 0.0 and less than 1.0 *)
Lemma random_random_range O k : 0 <= random_random O k < PyTime.UNIT.
Proof. apply Z.mod_pos_bound. reflexivity. Qed.

(** what [timedelta(minutes=random.uniform(5, 8))] gives is never less
    than five minutes and never more than eight *)
Lemma delay_at_ok O k : delay_ok (delay_at O k).
Proof.
  unfold delay_ok, delay_at, PyTime.timedelta_minutes, uniform, PyTime.minutes.
  pose proof (random_random_range O k) as Hr.
  apply round_half_even_bounds; [reflexivity|].
  unfold PyTime.UNIT, PyTime.MINUTE in *. lia.
Qed.

(** ** Running monadic code *)

Lemma bind_ok {A B} (c : M A) (k : A -> M B) s a s' :
  c s = (Ok a, s') -> bind c k s = k a s'.
Proof. unfold bind. intros ->. reflexivity. Qed.

Lemma bind_raise {A B} (c : M A) (k : A -> M B) s e s' :
  c s = (Raise e, s') -> bind c k s = (Raise e, s').
Proof. unfold bind. intros ->. reflexivity. Qed.

Lemma getitem_some k v s : cur s !! k = Some v -> getitem k s = (Ok v, s).
Proof. unfold getitem. intros ->. reflexivity. Qed.

Lemma getitem_none k s :
  cur s !! k = None -> getitem k s = (Raise (KeyError k), s).
Proof. unfold getitem. intros ->. reflexivity. Qed.

Lemma get_value k s : get k s = (Ok (default VNone (cur s !! k)), s).
Proof. reflexivity. Qed.

Lemma pst_eta s : {| cur := cur s; wld := wld s |} = s.
Proof. destruct s. reflexivity. Qed.

Lemma log_id_result s : log_id s = (log_result (cur s), s).
Proof.
  unfold log_id, log_result, bind, getitem, ret.
  destruct (cur s !! "id"); reflexivity.
Qed.

Lemma set_then_log v s :
  (setitem "next_check" v ;;; log_id) s = (log_result (cur s), set_next v s).
Proof.
  unfold bind at 1. cbn. rewrite log_id_result. cbn.
  unfold log_result. rewrite lookup_insert_ne by done. reflexivity.
Qed.

(** ** Resolving windows *)

Lemma resolve_regular_ok s a b :
  cur s !! "start_time" = Some (VIso a) ->
  cur s !! "end_time" = Some (VIso b) ->
  resolve_regular s = (Ok (a, b), s).
Proof.
  intros Ha Hb. unfold resolve_regular.
  rewrite (bind_ok _ _ _ _ _ (getitem_some _ _ _ Ha)). cbn.
  rewrite (bind_ok _ _ _ _ _ (getitem_some _ _ _ Hb)). reflexivity.
Qed.

Lemma resolve_regular_inv s a b s' :
  resolve_regular s = (Ok (a, b), s') ->
  s' = s /\ cur s !! "start_time" = Some (VIso a)
  /\ cur s !! "end_time" = Some (VIso b).
Proof.
  unfold resolve_regular, bind, getitem, lift, ret, fromisoformat.
  intros H. repeat case_match; simplify_eq; auto.
Qed.

Lemma resolve_daily_ok now s sh sm eh em :
  cur s !! "start_time" = Some (VClock sh sm) ->
  cur s !! "end_time" = Some (VClock eh em) ->
  clock_ok sh sm -> clock_ok eh em ->
  resolve_daily now s = (Ok (clock_window now sh sm eh em), s).
Proof.
  intros Ha Hb Hs He. unfold resolve_daily.
  rewrite (bind_ok _ _ _ _ _ (getitem_some _ _ _ Ha)).
  rewrite (bind_ok _ _ _ _ _ (getitem_some _ _ _ Hb)). cbn.
  unfold bind, lift. rewrite (time_replace_ok _ _ Hs), (time_replace_ok _ _ He).
  reflexivity.
Qed.

Lemma resolve_daily_inv now s w s' :
  resolve_daily now s = (Ok w, s') ->
  s' = s /\ exists sh sm eh em,
    cur s !! "start_time" = Some (VClock sh sm)
    /\ cur s !! "end_time" = Some (VClock eh em)
    /\ clock_ok sh sm /\ clock_ok eh em
    /\ w = clock_window now sh sm eh em.
Proof.
  unfold resolve_daily, bind, getitem, lift, ret, split_clock.
  intros H.
  destruct (cur s !! "start_time") as [v1|] eqn:Ha; [|discriminate].
  destruct (cur s !! "end_time") as [v2|] eqn:Hb; [|discriminate].
  destruct v1 as [|?|?|?|sh sm], v2 as [|?|?|?|eh em];
    cbn in H; try discriminate.
  destruct (time_replace sh sm) as [st|] eqn:Hs; try discriminate.
  destruct (time_replace eh em) as [et|] eqn:He; try discriminate.
  apply time_replace_inv in Hs as [Hs ->], He as [He ->].
  inversion H; subst. split; [reflexivity|].
  exists sh, sm, eh, em. auto.
Qed.

(** ** The two [calculate_next_check] in closed form *)

Lemma regular_calc O now s a b :
  cur s !! "start_time" = Some (VIso a) ->
  cur s !! "end_time" = Some (VIso b) ->
  RegularTimeCalculator.calculate_next_check O now s
  = (log_result (cur s), regular_next O now s a b).
Proof.
  intros Ha Hb.
  unfold RegularTimeCalculator.calculate_next_check, regular_next.
  rewrite (bind_ok _ _ _ _ _ (resolve_regular_ok _ _ _ Ha Hb)).
  destruct (now <? a); [apply set_then_log|].
  destruct ((a <=? now) && (now <=? b)); [|apply set_then_log].
  rewrite (bind_ok (random_uniform O 5 8) _ s
             (uniform 5 8 (random_random O (draws (wld s)))) (drawn s) eq_refl).
  cbv zeta. fold (delay_at O (draws (wld s))).
  rewrite set_then_log. do 3 f_equal.
  destruct (Z.gtb_spec (now + delay_at O (draws (wld s))) b); lia.
Qed.

Lemma daily_calc O now s w :
  resolve_daily now s = (Ok w, s) ->
  DailyTimeCalculator.calculate_next_check O now s
  = (log_result (cur s), daily_next O now s w).
Proof.
  intros Hw.
  unfold DailyTimeCalculator.calculate_next_check, daily_next.
  rewrite (bind_ok _ _ _ _ _ Hw).
  destruct (now <? start_dt w); [apply set_then_log|].
  destruct ((start_dt w <=? now) && (now <=? end_dt w));
    [|apply set_then_log].
  rewrite (bind_ok (random_uniform O 5 8) _ s
             (uniform 5 8 (random_random O (draws (wld s)))) (drawn s) eq_refl).
  cbv zeta. fold (delay_at O (draws (wld s))).
  rewrite set_then_log. do 3 f_equal.
  destruct (Z.gtb_spec (now + delay_at O (draws (wld s))) (end_dt w)); lia.
Qed.

Lemma resolve_fst v now s a b :
  fst (resolve v now s) = Ok (a, b) -> resolve v now s = (Ok (a, b), s).
Proof.
  destruct v; cbn.
  - unfold bind. destruct (resolve_daily now s) as [[w|e] s1] eqn:E;
      cbn; [|discriminate].
    destruct (resolve_daily_inv _ _ _ _ E) as [-> _].
    unfold ret. congruence.
  - destruct (resolve_regular s) as [[[a' b']|e] s1] eqn:E;
      cbn; [|discriminate].
    destruct (resolve_regular_inv _ _ _ _ E) as [-> _]. congruence.
Qed.

Lemma resolve_daily_of_resolve now s a b :
  resolve Daily now s = (Ok (a, b), s) ->
  exists w, resolve_daily now s = (Ok w, s) /\ start_dt w = a /\ end_dt w = b.
Proof.
  cbn. unfold bind.
  destruct (resolve_daily now s) as [[w|e] s1] eqn:E; [|discriminate].
  destruct (resolve_daily_inv _ _ _ _ E) as [-> _].
  cbn. intros H. inversion H. eauto.
Qed.

(** the state [calculate_next_check] leaves, by the position of [now] *)
Lemma calc_before O v now s a b :
  resolve v now s = (Ok (a, b), s) -> now < a ->
  snd (calculate_next_check O v now s) = set_next (VIso a) s.
Proof.
  intros H Hlt. destruct v.
  - destruct (resolve_daily_of_resolve _ _ _ _ H) as (w & Hw & <- & <-).
    cbn. rewrite (daily_calc _ _ _ _ Hw). cbn. unfold daily_next.
    rewrite (proj2 (Z.ltb_lt _ _) Hlt). reflexivity.
  - destruct (resolve_regular_inv _ _ _ _ H) as (_ & Ha & Hb).
    cbn. rewrite (regular_calc _ _ _ _ _ Ha Hb). cbn. unfold regular_next.
    rewrite (proj2 (Z.ltb_lt _ _) Hlt). reflexivity.
Qed.

Lemma calc_inside O v now s a b :
  resolve v now s = (Ok (a, b), s) -> a <= now <= b ->
  snd (calculate_next_check O v now s)
  = set_next (VIso (Z.min (now + delay_at O (draws (wld s))) b)) (drawn s).
Proof.
  intros H [H1 H2]. destruct v.
  - destruct (resolve_daily_of_resolve _ _ _ _ H) as (w & Hw & <- & <-).
    cbn. rewrite (daily_calc _ _ _ _ Hw). cbn. unfold daily_next.
    rewrite (proj2 (Z.ltb_ge _ _) H1).
    rewrite (proj2 (Z.leb_le _ _) H1), (proj2 (Z.leb_le _ _) H2).
    reflexivity.
  - destruct (resolve_regular_inv _ _ _ _ H) as (_ & Ha & Hb).
    cbn. rewrite (regular_calc _ _ _ _ _ Ha Hb). cbn. unfold regular_next.
    rewrite (proj2 (Z.ltb_ge _ _) H1).
    rewrite (proj2 (Z.leb_le _ _) H1), (proj2 (Z.leb_le _ _) H2).
    reflexivity.
Qed.

Lemma same_window_set_next val s : same_window (set_next val s) s.
Proof. split; cbn; rewrite lookup_insert_ne; done. Qed.

Lemma same_window_drawn s : same_window (drawn s) s.
Proof. split; reflexivity. Qed.

Lemma same_window_trans s1 s2 s3 :
  same_window s1 s2 -> same_window s2 s3 -> same_window s1 s3.
Proof. intros [? ?] [? ?]. split; congruence. Qed.

Lemma resolve_daily_same now s s0 w :
  resolve_daily now s = (Ok w, s) -> same_window s0 s ->
  resolve_daily now s0 = (Ok w, s0).
Proof.
  intros Hw [E1 E2].
  destruct (resolve_daily_inv _ _ _ _ Hw)
    as (_ & sh & sm & eh & em & Ha & Hb & Hs & He & ->).
  apply resolve_daily_ok; auto; congruence.
Qed.

Lemma resolve_same v now s s0 a b :
  resolve v now s = (Ok (a, b), s) -> same_window s0 s ->
  resolve v now s0 = (Ok (a, b), s0).
Proof.
  intros H Hs. destruct v.
  - destruct (resolve_daily_of_resolve _ _ _ _ H) as (w & Hw & <- & <-).
    cbn. erewrite bind_ok; [reflexivity|].
    eapply resolve_daily_same; eauto.
  - destruct (resolve_regular_inv _ _ _ _ H) as (_ & Ha & Hb).
    destruct Hs as [E1 E2]. apply resolve_regular_ok; congruence.
Qed.

(** outside the window the value written depends on the window and on
    [now] only *)
Lemma calc_outside O v now s a b :
  resolve v now s = (Ok (a, b), s) -> ~ (a <= now <= b) ->
  exists val, forall s0, same_window s0 s ->
    snd (calculate_next_check O v now s0) = set_next val s0.
Proof.
  intros H Hout. destruct v.
  - destruct (resolve_daily_of_resolve _ _ _ _ H) as (w & Hw & <- & <-).
    destruct (Z.ltb_spec now (start_dt w)) as [Hlt|Hge].
    + exists (VIso (start_dt w)). intros s0 Hs.
      cbn. rewrite (daily_calc _ _ _ _ (resolve_daily_same _ _ _ _ Hw Hs)).
      cbn. unfold daily_next.
      rewrite (proj2 (Z.ltb_lt _ _) Hlt). reflexivity.
    + eexists. intros s0 Hs.
      cbn. rewrite (daily_calc _ _ _ _ (resolve_daily_same _ _ _ _ Hw Hs)).
      cbn. unfold daily_next.
      rewrite (proj2 (Z.ltb_ge _ _) Hge).
      replace (now <=? end_dt w) with false by (symmetry; apply Z.leb_gt; lia).
      rewrite andb_false_r. reflexivity.
  - destruct (resolve_regular_inv _ _ _ _ H) as (_ & Ha & Hb).
    exists (if now <? a then VIso a else VNone). intros s0 [E1 E2].
    cbn. rewrite (regular_calc _ _ _ a b) by congruence.
    cbn. unfold regular_next.
    destruct (Z.ltb_spec now a) as [Hlt|Hge]; [reflexivity|].
    replace (now <=? b) with false by (symmetry; apply Z.leb_gt; lia).
    rewrite andb_false_r. reflexivity.
Qed.

(** ** C7: the next-check cadence *)

(** C7.  For a schedule whose window resolves to [a, b] at [now]: when
    [now] is inside the window, [calculate_next_check] sets [next_check] to
    [now] plus the delay it draws, [timedelta(minutes=random.uniform(5,
    8))], which is at least 5 and at most 8 minutes, clamped to the window
    end [b]; when [now] is strictly before the window start, it sets
    [next_check] to exactly the window start [a].  This holds for the daily
    and for the regular calculator. *)
Theorem C7_next_check_cadence (O : oracle) (v : variant) (now : Z) (s : pst)
    (a b : Z) :
  fst (resolve v now s) = Ok (a, b) ->
  let s' := snd (calculate_next_check O v now s) in
  let d := delay_at O (draws (wld s)) in
  (a <= now <= b ->
   PyTime.minutes 5 <= d <= PyTime.minutes 8
   /\ cur s' !! "next_check" = Some (isoformat (Z.min (now + d) b))
   /\ Z.min (now + d) b <= b)
  /\ (now < a -> cur s' !! "next_check" = Some (isoformat a)).
Proof.
  intros H. apply resolve_fst in H. cbv zeta. split.
  - intros Hin. rewrite (calc_inside _ _ _ _ _ _ H Hin). cbn.
    rewrite lookup_insert_eq.
    split; [exact (delay_at_ok O (draws (wld s)))|].
    split; [reflexivity|lia].
  - intros Hlt. rewrite (calc_before _ _ _ _ _ _ H Hlt). cbn.
    apply lookup_insert_eq.
Qed.

(** A regular window 10:00-12:00 on 2024-01-01, seen at 11:00 with a draw
    of 8 minutes. *)
Lemma C7_next_check_cadence_witness :
  let start := PyTime.civil 2024 1 1 10 0 in
  let end_ := PyTime.civil 2024 1 1 12 0 in
  let now := PyTime.civil 2024 1 1 11 0 in
  let s := on (regular_schedule "active" start end_ false VNone) in
  let O := still_oracle now in
  fst (resolve Regular now s) = Ok (start, end_)
  /\ (let s' := snd (calculate_next_check O Regular now s) in
      let d := delay_at O (draws (wld s)) in
      (start <= now <= end_ ->
       PyTime.minutes 5 <= d <= PyTime.minutes 8
       /\ cur s' !! "next_check" = Some (isoformat (Z.min (now + d) end_))
       /\ Z.min (now + d) end_ <= end_)
      /\ (now < start -> cur s' !! "next_check" = Some (isoformat start))).
Proof.
  cbv zeta. split; [reflexivity|].
  apply (C7_next_check_cadence
           (still_oracle (PyTime.civil 2024 1 1 11 0)) Regular
           (PyTime.civil 2024 1 1 11 0)
           (on (regular_schedule "active" (PyTime.civil 2024 1 1 10 0)
                  (PyTime.civil 2024 1 1 12 0) false VNone))
           (PyTime.civil 2024 1 1 10 0) (PyTime.civil 2024 1 1 12 0)
           eq_refl).
Defined.

(** the draws of [still_oracle]: eight minutes, then five *)
Example still_oracle_delays now :
  delay_at (still_oracle now) 0 = PyTime.minutes 8
  /\ delay_at (still_oracle now) 1 = PyTime.minutes 5.
Proof. split; reflexivity. Qed.

(** the same schedule at 11:00, 11:55 (clamped) and 09:00 (before), and a
    daily window 23:00-01:00 seen at 00:30 *)
Example next_check_samples :
  let start := PyTime.civil 2024 1 1 10 0 in
  let end_ := PyTime.civil 2024 1 1 12 0 in
  let s := on (regular_schedule "active" start end_ false VNone) in
  let at_ h m := PyTime.civil 2024 1 1 h m in
  let next now :=
    cur (snd (calculate_next_check (still_oracle now) Regular now s))
      !! "next_check" in
  let d := on (daily_schedule "active" 23 0 1 0 VNone) in
  next (at_ 11 0) = Some (isoformat (at_ 11 8))
  /\ next (at_ 11 55) = Some (isoformat end_)
  /\ next (at_ 9 0) = Some (isoformat start)
  /\ cur (snd (calculate_next_check (still_oracle (at_ 0 30)) Daily
                 (at_ 0 30) d)) !! "next_check"
     = Some (isoformat (at_ 0 38)).
Proof. vm_compute. repeat split. Qed.

(** ** C5: calculating the next check twice *)

(** C5, as stated, fails: with [now] inside the window, a first draw of 8
    minutes and a second draw of 5 minutes make the second [next_check]
    three minutes earlier than the first. *)
Lemma C5_second_result_can_be_earlier :
  ~ (forall (O : oracle) (v : variant) (now : Z) (s : pst) (a b t1 t2 : Z),
        fst (resolve v now s) = Ok (a, b) ->
        (forall k, delay_ok (delay_at O k)) ->
        let s1 := snd (calculate_next_check O v now s) in
        let s2 := snd (calculate_next_check O v now s1) in
        cur s1 !! "next_check" = Some (isoformat t1) ->
        cur s2 !! "next_check" = Some (isoformat t2) ->
        t1 <= t2).
Proof.
  intros H.
  pose (now := PyTime.civil 2024 1 1 11 0).
  specialize (H (still_oracle now) Regular now
                (on (regular_schedule "active" (PyTime.civil 2024 1 1 10 0)
                       (PyTime.civil 2024 1 1 12 0) false VNone))
                (PyTime.civil 2024 1 1 10 0) (PyTime.civil 2024 1 1 12 0)
                (PyTime.civil 2024 1 1 11 8) (PyTime.civil 2024 1 1 11 5)
                eq_refl).
  cbv zeta in H.
  assert (Hd : forall k, delay_ok (delay_at (still_oracle now) k)).
  { intros k. apply delay_at_ok. }
  specialize (H Hd eq_refl eq_refl). vm_compute in H. apply H. reflexivity.
Qed.

(** C5, amended.  Calculating [next_check] twice at the same [now]: outside
    the resolved window both calls write the same value; inside the window
    each call writes [now] plus its own draw of 5 to 8 minutes clamped to
    the window end, so neither result exceeds the window end and the two
    differ by at most three minutes, in either direction. *)
Theorem C5_repeated_next_check (O : oracle) (v : variant) (now : Z) (s : pst)
    (a b : Z) :
  fst (resolve v now s) = Ok (a, b) ->
  (forall k, delay_ok (delay_at O k)) ->
  let s1 := snd (calculate_next_check O v now s) in
  let s2 := snd (calculate_next_check O v now s1) in
  (~ (a <= now <= b) ->
   is_Some (cur s1 !! "next_check")
   /\ cur s2 !! "next_check" = cur s1 !! "next_check")
  /\ (a <= now <= b ->
      exists d1 d2, delay_ok d1 /\ delay_ok d2
        /\ cur s1 !! "next_check" = Some (isoformat (Z.min (now + d1) b))
        /\ cur s2 !! "next_check" = Some (isoformat (Z.min (now + d2) b))
        /\ Z.min (now + d1) b <= b /\ Z.min (now + d2) b <= b
        /\ Z.abs (Z.min (now + d2) b - Z.min (now + d1) b)
           <= PyTime.minutes 3).
Proof.
  intros H Hd. apply resolve_fst in H. cbv zeta. split.
  - intros Hout. destruct (calc_outside O _ _ _ _ _ H Hout) as [val Hval].
    rewrite (Hval s) by (split; reflexivity).
    rewrite (Hval (set_next val s)) by apply same_window_set_next.
    cbn. rewrite !lookup_insert_eq. split; [eexists|]; reflexivity.
  - intros Hin.
    exists (delay_at O (draws (wld s))), (delay_at O (S (draws (wld s)))).
    rewrite (calc_inside _ _ _ _ _ _ H Hin).
    set (s1 := set_next _ (drawn s)).
    assert (H1 : resolve v now s1 = (Ok (a, b), s1)).
    { apply (resolve_same _ _ _ _ _ _ H).
      eapply same_window_trans;
        [apply same_window_set_next|apply same_window_drawn]. }
    rewrite (calc_inside _ _ _ _ _ _ H1 Hin). cbn.
    rewrite !lookup_insert_eq.
    pose proof (Hd (draws (wld s))) as [? ?].
    pose proof (Hd (S (draws (wld s)))) as [? ?].
    unfold delay_ok, PyTime.minutes in *.
    repeat (split; [solve [auto | reflexivity | lia]|]). lia.
Qed.

(** the window 10:00-12:00 on 2024-01-01 seen at 11:00, draws of 8 and
    then 5 minutes *)
Lemma C5_repeated_next_check_witness :
  let start := PyTime.civil 2024 1 1 10 0 in
  let end_ := PyTime.civil 2024 1 1 12 0 in
  let now := PyTime.civil 2024 1 1 11 0 in
  let s := on (regular_schedule "active" start end_ false VNone) in
  let O := still_oracle now in
  let s1 := snd (calculate_next_check O Regular now s) in
  let s2 := snd (calculate_next_check O Regular now s1) in
  fst (resolve Regular now s) = Ok (start, end_)
  /\ (forall k, delay_ok (delay_at O k))
  /\ start <= now <= end_
  /\ exists d1 d2, delay_ok d1 /\ delay_ok d2
       /\ cur s1 !! "next_check" = Some (isoformat (Z.min (now + d1) end_))
       /\ cur s2 !! "next_check" = Some (isoformat (Z.min (now + d2) end_))
       /\ Z.min (now + d1) end_ <= end_ /\ Z.min (now + d2) end_ <= end_
       /\ Z.abs (Z.min (now + d2) end_ - Z.min (now + d1) end_)
          <= PyTime.minutes 3.
Proof.
  cbv zeta.
  assert (Hd : forall k,
             delay_ok (delay_at (still_oracle (PyTime.civil 2024 1 1 11 0)) k)).
  { intros k. apply delay_at_ok. }
  assert (Hin : PyTime.civil 2024 1 1 10 0 <= PyTime.civil 2024 1 1 11 0
                <= PyTime.civil 2024 1 1 12 0) by (vm_compute; split; discriminate).
  split; [reflexivity|]. split; [exact Hd|]. split; [exact Hin|].
  exact (proj2 (C5_repeated_next_check
                  (still_oracle (PyTime.civil 2024 1 1 11 0)) Regular
                  (PyTime.civil 2024 1 1 11 0)
                  (on (regular_schedule "active" (PyTime.civil 2024 1 1 10 0)
                         (PyTime.civil 2024 1 1 12 0) false VNone))
                  (PyTime.civil 2024 1 1 10 0) (PyTime.civil 2024 1 1 12 0)
                  eq_refl Hd) Hin).
Defined.

(** ** What a piece of code may change *)

Section Steps.

Variable R : pst -> pst -> Prop.
Hypothesis R_refl : forall s, R s s.
Hypothesis R_trans : forall s1 s2 s3, R s1 s2 -> R s2 s3 -> R s1 s3.

Lemma steps_ret {A} (a : A) : steps R (ret a).
Proof. intros s. apply R_refl. Qed.

Lemma steps_raise {A} e : steps R (@raise A e).
Proof. intros s. apply R_refl. Qed.

Lemma steps_lift {A} (o : outcome A) : steps R (lift o).
Proof. intros s. apply R_refl. Qed.

Lemma steps_getitem k : steps R (getitem k).
Proof. intros s. unfold getitem. destruct (cur s !! k); apply R_refl. Qed.

Lemma steps_get k : steps R (get k).
Proof. intros s. apply R_refl. Qed.

Lemma steps_bind {A B} (c : M A) (k : A -> M B) :
  steps R c -> (forall a, steps R (k a)) -> steps R (bind c k).
Proof.
  intros Hc Hk s. unfold bind. specialize (Hc s).
  destruct (c s) as [[a|e] s1]; cbn in *; [|assumption].
  eapply R_trans; [eassumption|apply Hk].
Qed.

Lemma steps_try {A} (c h : M A) :
  steps R c -> steps R h -> steps R (try_value_type c h).
Proof.
  intros Hc Hh s. unfold try_value_type. specialize (Hc s).
  destruct (c s) as [[a|[]] s1]; cbn in *; try assumption;
    (eapply R_trans; [eassumption|apply Hh]).
Qed.

Lemma steps_when b c : steps R c -> steps R (when b c).
Proof. intros Hc. destruct b; [assumption|apply steps_ret]. Qed.

Lemma steps_log_id : steps R log_id.
Proof. apply steps_bind; [apply steps_getitem|intros; apply steps_ret]. Qed.

Lemma steps_resolve_regular : steps R resolve_regular.
Proof.
  intros s. destruct (resolve_regular s) as [[[a b]|e] s1] eqn:E.
  - apply resolve_regular_inv in E as [-> _]. apply R_refl.
  - revert E. unfold resolve_regular, bind, getitem, lift, ret.
    repeat case_match; intros; simplify_eq; apply R_refl.
Qed.

Lemma steps_resolve_daily now : steps R (resolve_daily now).
Proof.
  intros s. destruct (resolve_daily now s) as [[w|e] s1] eqn:E.
  - apply resolve_daily_inv in E as [-> _]. apply R_refl.
  - revert E. unfold resolve_daily, bind, getitem, lift, ret.
    repeat case_match; intros; simplify_eq; apply R_refl.
Qed.

End Steps.

Lemma rel_refl K s : rel K s s.
Proof. split; [intros k _; reflexivity|]. exists []. split; reflexivity. Qed.

Lemma rel_trans K s1 s2 s3 : rel K s1 s2 -> rel K s2 s3 -> rel K s1 s3.
Proof.
  intros [F1 (e1 & E1 & Q1)] [F2 (e2 & E2 & Q2)]. split.
  - intros k Hk. rewrite (F2 k Hk). apply F1, Hk.
  - exists (e2 ++ e1). rewrite E2, E1, app_assoc. split; [reflexivity|].
    unfold no_save in *. rewrite forallb_app, Q1, Q2. reflexivity.
Qed.

Lemma rel_mono K K' s s' : K ⊆ K' -> rel K s s' -> rel K' s s'.
Proof. intros HK [F Q]. split; [|assumption]. intros k Hk. apply F. set_solver. Qed.

Lemma rel_setitem K k v : k ∈ K -> steps (rel K) (setitem k v).
Proof.
  intros Hk s. split; cbn.
  - intros k' Hk'. apply lookup_insert_ne. congruence.
  - exists []. split; reflexivity.
Qed.

Lemma rel_emit K e : is_save e = false -> steps (rel K) (emitM e).
Proof.
  intros He s. split; cbn; [intros k _; reflexivity|].
  exists [e]. unfold no_save. cbn. rewrite He. auto.
Qed.

Lemma rel_start_thread K : steps (rel K) start_thread.
Proof. intros s. unfold start_thread. apply rel_emit. reflexivity. Qed.

Lemma rel_now K O : steps (rel K) (datetime_now O).
Proof.
  intros s. split; cbn; [intros k _; reflexivity|].
  exists []. split; reflexivity.
Qed.

Lemma rel_delay K O a b : steps (rel K) (random_uniform O a b).
Proof.
  intros s. split; cbn; [intros k _; reflexivity|].
  exists []. split; reflexivity.
Qed.

(** syntax-directed proof of [steps (rel K) c] *)
Ltac steps_rel :=
  repeat first
    [ apply (steps_bind _ (rel_trans _)); [|intros ?]
    | apply (steps_ret _ (rel_refl _))
    | apply (steps_raise _ (rel_refl _))
    | apply (steps_lift _ (rel_refl _))
    | apply (steps_getitem _ (rel_refl _))
    | apply (steps_get _ (rel_refl _))
    | apply (steps_log_id _ (rel_refl _) (rel_trans _))
    | apply (steps_resolve_regular _ (rel_refl _))
    | apply (steps_resolve_daily _ (rel_refl _))
    | apply (steps_try _ (rel_trans _))
    | apply (steps_when _ (rel_refl _))
    | apply rel_setitem; first [assumption | solve [repeat constructor]]
    | apply rel_start_thread
    | apply rel_now
    | apply rel_delay
    | match goal with
      | |- steps _ (if ?b then _ else _) => destruct b
      | |- steps _ (let '(_, _) := ?w in _) => destruct w
      end
    | assumption ].

Lemma rel_daily_calc K O now :
  "next_check" ∈ K -> steps (rel K) (DailyTimeCalculator.calculate_next_check O now).
Proof. intros HK. unfold DailyTimeCalculator.calculate_next_check. steps_rel. Qed.

Lemma rel_regular_calc K O now :
  "next_check" ∈ K ->
  steps (rel K) (RegularTimeCalculator.calculate_next_check O now).
Proof.
  intros HK. unfold RegularTimeCalculator.calculate_next_check. steps_rel.
Qed.

Lemma rel_update_next_check K O :
  "next_check" ∈ K -> steps (rel K) (Scheduler._update_next_check O).
Proof.
  intros HK. unfold Scheduler._update_next_check. steps_rel.
Qed.

Lemma rel_perform_check K O :
  "next_check" ∈ K -> steps (rel K) (Scheduler._perform_check O).
Proof.
  intros HK. unfold Scheduler._perform_check. steps_rel.
Qed.

Lemma rel_check_one O now : steps (rel tick_keys) (Scheduler.check_one O now).
Proof. unfold Scheduler.check_one, tick_keys. steps_rel. Qed.

Lemma rel_execute_one O now :
  steps (rel tick_keys) (ScheduleExecutor.execute_one O now).
Proof. unfold ScheduleExecutor.execute_one, tick_keys. steps_rel. Qed.

(** ** The loop of a tick *)

Lemma extends_refl w : extends w w.
Proof. exists []. split; reflexivity. Qed.

Lemma extends_trans w1 w2 w3 : extends w1 w2 -> extends w2 w3 -> extends w1 w3.
Proof.
  intros (e1 & E1 & Q1) (e2 & E2 & Q2). exists (e2 ++ e1).
  rewrite E2, E1, app_assoc. split; [reflexivity|].
  unfold no_save in *. rewrite forallb_app, Q1, Q2. reflexivity.
Qed.

Lemma tick_is_run O k l w : tick O k l w = Tick.run O (tick_body O k) l w.
Proof. destruct k; reflexivity. Qed.

Lemma rel_tick_body O k now : steps (rel tick_keys) (tick_body O k now).
Proof. destruct k; [apply rel_check_one|apply rel_execute_one]. Qed.

Lemma id_not_tick_key : "id" ∉ tick_keys.
Proof.
  unfold tick_keys. intros H.
  repeat (apply elem_of_cons in H as [H|H]; [discriminate H|]).
  inversion H.
Qed.

Section TickLoop.

Variable body : Z -> M unit.
Hypothesis body_rel : forall now, steps (rel tick_keys) (body now).

Lemma skipped_keyed s :
  is_Some (cur s !! "status") -> Tick.skipped s = (Ok (skip_cond (cur s)), s).
Proof.
  intros [st Hst]. unfold Tick.skipped, skip_cond.
  rewrite (bind_ok _ _ _ _ _ (getitem_some _ _ _ Hst)), Hst. cbn.
  destruct (py_eq st (VStr "completed")); reflexivity.
Qed.

Lemma iteration_keyed now s :
  keyed (cur s) -> Tick.iteration body now s = (Ok tt, iterate body now s).
Proof.
  intros [[id Hid] Hst]. unfold Tick.iteration, iterate.
  rewrite (bind_ok _ _ _ _ _ (skipped_keyed _ Hst)).
  destruct (skip_cond (cur s)); [reflexivity|].
  pose proof (body_rel now s) as [F _].
  destruct (body now s) as [[[]|e] s1]; [reflexivity|]. cbn in F.
  assert (Hid1 : cur s1 !! "id" = Some id).
  { rewrite F; [assumption|]. apply id_not_tick_key. }
  rewrite (bind_ok _ _ _ _ _ (getitem_some _ _ _ Hid1)). reflexivity.
Qed.

Lemma rel_iterate now s : rel tick_keys s (iterate body now s).
Proof.
  unfold iterate. destruct (skip_cond (cur s)); [apply rel_refl|].
  pose proof (body_rel now s) as Hr.
  destruct (body now s) as [[[]|e] s1]; [exact Hr|]. cbn in Hr.
  eapply rel_trans; [exact Hr|].
  exact (rel_emit tick_keys (LogError e) eq_refl s1).
Qed.

Lemma loop_each now l w :
  Forall keyed l ->
  Tick.loop body now l w
  = (Ok tt, fst (each body now l w), snd (each body now l w)).
Proof.
  intros Hl. revert w. induction Hl as [|d rest Hd _ IH]; intros w;
    [reflexivity|].
  cbn [Tick.loop each]. rewrite iteration_keyed by exact Hd.
  rewrite IH. destruct (each body now rest _). reflexivity.
Qed.

Lemma each_length now l w : length (fst (each body now l w)) = length l.
Proof.
  revert w. induction l as [|d rest IH]; intros w; [reflexivity|].
  cbn [each]. specialize (IH (wld (iterate body now {| cur := d; wld := w |}))).
  destruct (each body now rest _). cbn in *. congruence.
Qed.

Lemma each_extends now l w : extends w (snd (each body now l w)).
Proof.
  revert w. induction l as [|d rest IH]; intros w; [apply extends_refl|].
  cbn [each].
  pose proof (rel_iterate now {| cur := d; wld := w |}) as [_ Hq].
  specialize (IH (wld (iterate body now {| cur := d; wld := w |}))).
  destruct (each body now rest _). cbn in *.
  eapply extends_trans; eassumption.
Qed.

(** the [i]-th schedule gets its iteration, in some world that extends the
    one of the start, and the trace of the tick extends what it leaves *)
Lemma each_lookup now l w i d :
  l !! i = Some d ->
  exists wi,
    fst (each body now l w) !! i
    = Some (cur (iterate body now {| cur := d; wld := wi |}))
    /\ extends w wi
    /\ extends (wld (iterate body now {| cur := d; wld := wi |}))
               (snd (each body now l w)).
Proof.
  revert w i. induction l as [|d0 rest IH]; intros w i Hi; [discriminate|].
  cbn [each].
  pose proof (rel_iterate now {| cur := d0; wld := w |}) as [_ Hq].
  pose proof (each_extends now rest
                (wld (iterate body now {| cur := d0; wld := w |}))) as Hx.
  destruct i as [|i]; cbn in Hi.
  - inversion Hi; subst d0. exists w.
    destruct (each body now rest _). cbn in *.
    split; [reflexivity|]. split; [apply extends_refl|exact Hx].
  - destruct (IH (wld (iterate body now {| cur := d0; wld := w |})) i Hi)
      as (wi & E & X1 & X2).
    destruct (each body now rest _). cbn in *.
    exists wi. split; [exact E|]. split; [|exact X2].
    eapply extends_trans; eassumption.
Qed.

End TickLoop.

(** ** C8: exceptions raised during a tick *)

(** In one tick over schedules that carry [id] and [status], in
    either execution loop: the tick ends normally; the list keeps its
    length and every schedule its [id], in place; every schedule that the
    completed-guard does not skip has the body run on it, and an exception
    of that body is logged; the whole list is saved exactly once, as the
    last event of the tick. *)
Theorem keyed_tick_survives_errors (O : oracle) (k : tick_kind) (l : list dict)
    (w : world) :
  Forall keyed l ->
  let now := now_at O (reads w) in
  exists l' w' evs,
    tick O k l w = (Ok tt, l', w')
    /\ trace w' = Save l' :: evs ++ trace w
    /\ no_save evs
    /\ length l' = length l
    /\ forall i d, l !! i = Some d ->
       exists d', l' !! i = Some d'
         /\ d' !! "id" = d !! "id"
         /\ (if skip_cond d then d' = d
             else exists wi,
                 d' = cur (snd (tick_body O k now {| cur := d; wld := wi |}))
                 /\ forall e,
                     fst (tick_body O k now {| cur := d; wld := wi |})
                     = Raise e ->
                     LogError e ∈ evs).
Proof.
  intros Hl now. rewrite tick_is_run. unfold Tick.run. fold now.
  fold (tick_world w).
  rewrite (loop_each _ (rel_tick_body O k) now l _ Hl).
  set (r := each (tick_body O k) now l (tick_world w)).
  destruct (each_extends (tick_body O k) (rel_tick_body O k) now l
              (tick_world w)) as (evs & Hevs & Hns).
  fold r in Hevs. cbn [tick_world trace] in Hevs.
  exists (fst r), (emit (Save (fst r)) (snd r)), evs.
  split; [reflexivity|]. split; [cbn; rewrite Hevs; reflexivity|].
  split; [exact Hns|]. split; [apply each_length|].
  intros i d Hi.
  destruct (each_lookup (tick_body O k) (rel_tick_body O k) now l
              (tick_world w) i d Hi) as (wi & E & X1 & X2).
  fold r in E, X2. eexists. split; [exact E|].
  pose proof (rel_iterate (tick_body O k) (rel_tick_body O k) now
                {| cur := d; wld := wi |}) as [F _].
  split; [apply F, id_not_tick_key|].
  unfold iterate in *. cbn [cur] in *.
  destruct (skip_cond d); [reflexivity|].
  pose proof (rel_tick_body O k now {| cur := d; wld := wi |}) as [_ Q].
  exists wi. destruct (tick_body O k now {| cur := d; wld := wi |})
    as [[[]|e] s1]; cbn [fst snd cur wld] in *.
  - split; [reflexivity|]. intros e He. discriminate.
  - split; [reflexivity|]. intros e' He. inversion He; subst e'.
    destruct X1 as (e0 & E0 & _), X2 as (e2 & E2 & _), Q as (e1 & E1 & _).
    cbn [emit trace tick_world wld] in *.
    rewrite E2, E1, E0 in Hevs.
    assert (evs = e2 ++ LogError e :: e1 ++ e0) as ->.
    { apply (app_inv_tail (trace w)). rewrite <- Hevs.
      rewrite <- !app_assoc. cbn. rewrite <- !app_assoc. reflexivity. }
    apply elem_of_app. right. apply list_elem_of_here.
Qed.

Lemma keyed_tick_survives_errors_witness :
  let O := still_oracle (PyTime.civil 2024 1 1 11 0) in
  let now := now_at O (reads world0) in
  Forall keyed mixed_list
  /\ exists l' w' evs,
      tick O SchedulerTick mixed_list world0 = (Ok tt, l', w')
      /\ trace w' = Save l' :: evs ++ trace world0
      /\ no_save evs
      /\ length l' = length mixed_list
      /\ forall i d, mixed_list !! i = Some d ->
         exists d', l' !! i = Some d'
           /\ d' !! "id" = d !! "id"
           /\ (if skip_cond d then d' = d
               else exists wi,
                   d' = cur (snd (tick_body O SchedulerTick now
                                    {| cur := d; wld := wi |}))
                   /\ forall e,
                       fst (tick_body O SchedulerTick now
                              {| cur := d; wld := wi |})
                       = Raise e ->
                       LogError e ∈ evs).
Proof.
  cbv zeta.
  assert (Hk : Forall keyed mixed_list).
  { repeat constructor; vm_compute; eauto. }
  split; [exact Hk|].
  exact (keyed_tick_survives_errors
           (still_oracle (PyTime.civil 2024 1 1 11 0)) SchedulerTick
           mixed_list world0 Hk).
Defined.

(** C8 at a list with a record that has no [status]: the tick of 11:00
    over [broken_list], in either execution loop.  The guard that skips
    completed schedules reads [schedule['status']] outside the [try], so
    the [KeyError] of the second record ends the tick: the third schedule
    is not evaluated and nothing is saved.  Over [mended_list], the same
    schedules without that record, the tick ends normally, moves the last
    schedule to [pending] with a next check, and saves the list. *)
Theorem C8_record_without_status_stops_the_tick (k : tick_kind) :
  let O := still_oracle (PyTime.civil 2024 1 1 11 0) in
  let r := tick O k broken_list world0 in
  let r0 := tick O k mended_list world0 in
  column "status" broken_list
  = [VStr "pending"; VNone; VStr "download_started"]
  /\ r.1.1 = Raise (KeyError "status")
  /\ column "status" r.1.2
     = [VStr "active"; VNone; VStr "download_started"]
  /\ column "next_check" r.1.2
     = [isoformat (PyTime.civil 2024 1 1 11 8); VNone; VNone]
  /\ map kind_of (trace r.2) = [Spawned]
  /\ r0.1.1 = Ok tt
  /\ column "status" r0.1.2 = [VStr "active"; VStr "pending"]
  /\ column "next_check" r0.1.2
     = [isoformat (PyTime.civil 2024 1 1 11 8);
        isoformat (PyTime.civil 2024 1 1 20 0)]
  /\ map kind_of (trace r0.2) = [Saved; Spawned].
Proof.
  cbv zeta. destruct k; repeat apply conj; vm_compute; reflexivity.
Qed.

(** the tick over [mixed_list] at 11:00: the first schedule raises
    [ValueError], which is logged, and stays in the list as it was; the
    second becomes active, gets its check thread and its next check at
    11:08; one save closes the tick *)
Example tick_over_mixed_list :
  let O := still_oracle (PyTime.civil 2024 1 1 11 0) in
  let r := tick O SchedulerTick mixed_list world0 in
  r.1.1 = Ok tt
  /\ r.1.2 !! 0%nat = mixed_list !! 0%nat
  /\ column "status" r.1.2 = [VStr "pending"; VStr "active"]
  /\ column "next_check" r.1.2
     = [VNone; isoformat (PyTime.civil 2024 1 1 11 8)]
  /\ map kind_of (trace r.2) = [Saved; Spawned; Logged ValueError].
Proof. cbv zeta. repeat apply conj; vm_compute; reflexivity. Qed.

(** ** One schedule in one tick *)

Lemma py_eq_str a b : py_eq (VStr a) (VStr b) = String.eqb a b.
Proof.
  unfold py_eq. destruct (String.eqb_spec a b) as [->|Hne].
  - apply bool_decide_eq_true_2. reflexivity.
  - apply bool_decide_eq_false_2. congruence.
Qed.

(** lookups in a dictionary built by assignments to literal keys *)
Ltac lookups :=
  repeat first
    [ rewrite lookup_insert_eq
    | rewrite lookup_insert_ne by discriminate ];
  try first [assumption | reflexivity].

(** the survey of a tick that the per-schedule statements share *)
Lemma tick_at (O : oracle) (k : tick_kind) (l : list dict) (w : world) i d :
  Forall keyed l -> l !! i = Some d ->
  exists l' w' wi,
    tick O k l w = (Ok tt, l', w')
    /\ l' !! i = Some (cur (iterate (tick_body O k) (now_at O (reads w))
                              {| cur := d; wld := wi |})).
Proof.
  intros Hl Hi. rewrite tick_is_run. unfold Tick.run. fold (tick_world w).
  rewrite (loop_each _ (rel_tick_body O k) _ l _ Hl).
  destruct (each_lookup (tick_body O k) (rel_tick_body O k)
              (now_at O (reads w)) l (tick_world w) i d Hi)
    as (wi & E & _ & _).
  do 3 eexists. split; [reflexivity|exact E].
Qed.

Lemma iterate_body body now s :
  skip_cond (cur s) = false -> cur (iterate body now s) = cur (snd (body now s)).
Proof.
  unfold iterate. intros ->. destruct (body now s) as [[[]|e] s1]; reflexivity.
Qed.

Lemma not_skipped d st :
  d !! "status" = Some (VStr st) -> st <> "completed" -> skip_cond d = false.
Proof.
  intros Hst Hne. unfold skip_cond, py_eq. rewrite Hst. cbn.
  rewrite bool_decide_eq_false_2; [reflexivity|congruence].
Qed.

(** a regular one-shot schedule past its end: the branch of lines 276-286 *)
Lemma check_one_expired O now s a b r st :
  truthy (default VNone (cur s !! "daily")) = false ->
  cur s !! "start_time" = Some (VIso a) ->
  cur s !! "end_time" = Some (VIso b) ->
  b < now ->
  cur s !! "repeat" = Some r -> truthy r = false ->
  cur s !! "status" = Some st ->
  Scheduler.check_one O now s
  = (Ok tt,
     {| cur := <["manual_stop" := VBool false]>
               (<["active_browser_id" := VNone]>
                (if py_eq st (VStr "download_started") then cur s
                 else <["status" := VStr "completed"]> (cur s)));
        wld := wld s |}).
Proof.
  intros Hd Ha Hb Hlt Hr Hrf Hst. unfold Scheduler.check_one.
  unfold bind at 1. rewrite get_value, Hd.
  rewrite (bind_ok _ _ _ _ _ (resolve_regular_ok _ _ _ Ha Hb)).
  replace (now >? b) with true by (symmetry; apply Z.gtb_lt; lia).
  rewrite (bind_ok _ _ _ _ _ (getitem_some _ _ _ Hr)), Hrf.
  rewrite (bind_ok _ _ _ _ _ (getitem_some _ _ _ Hst)).
  destruct (py_eq st (VStr "download_started")); cbn; rewrite ?pst_eta;
    reflexivity.
Qed.

Lemma execute_one_expired O now s a b r st :
  truthy (default VNone (cur s !! "daily")) = false ->
  cur s !! "start_time" = Some (VIso a) ->
  cur s !! "end_time" = Some (VIso b) ->
  b < now ->
  cur s !! "repeat" = Some r -> truthy r = false ->
  cur s !! "status" = Some st ->
  ScheduleExecutor.execute_one O now s
  = (Ok tt,
     {| cur := if py_eq st (VStr "download_started") then cur s
               else <["status" := VStr "completed"]> (cur s);
        wld := wld s |}).
Proof.
  intros Hd Ha Hb Hlt Hr Hrf Hst. unfold ScheduleExecutor.execute_one.
  unfold bind at 1. rewrite get_value, Hd.
  rewrite (bind_ok _ _ _ _ _ (resolve_regular_ok _ _ _ Ha Hb)).
  replace (now >? b) with true by (symmetry; apply Z.gtb_lt; lia).
  rewrite (bind_ok _ _ _ _ _ (getitem_some _ _ _ Hr)), Hrf.
  rewrite (bind_ok _ _ _ _ _ (getitem_some _ _ _ Hst)).
  destruct (py_eq st (VStr "download_started")); cbn; rewrite ?pst_eta;
    reflexivity.
Qed.

(** ** C4: a one-shot schedule whose window has passed *)

(** C4, as stated, fails for [download_started]: the tick of
    [Scheduler._check_schedules] at 13:00 leaves the status of a one-shot
    schedule whose window ended at 12:00 at [download_started]; it is not
    [completed]. *)
Lemma C4_download_started_is_kept :
  let O := still_oracle (PyTime.civil 2024 1 1 13 0) in
  let r := tick O SchedulerTick [started_one_shot] world0 in
  r.1.1 = Ok tt
  /\ column "status" r.1.2 = [VStr "download_started"]
  /\ column "status" r.1.2 <> [VStr "completed"].
Proof.
  cbv zeta.
  assert (E : column "status"
                (tick (still_oracle (PyTime.civil 2024 1 1 13 0))
                   SchedulerTick [started_one_shot] world0).1.2
              = [VStr "download_started"]) by (vm_compute; reflexivity).
  split; [vm_compute; reflexivity|]. split; [exact E|].
  rewrite E. discriminate.
Qed.

(** C4, amended.  For a schedule that is neither daily nor repeating, in a
    tick whose clock reading is past [end_time]: status [active] becomes
    [completed] and status [download_started] is kept.
    [Scheduler._check_schedules] clears [active_browser_id] and
    [manual_stop] in both cases; [ScheduleExecutor.execute_schedules]
    leaves the two flags as they were. *)
Theorem C4_one_shot_window_passed (O : oracle) (k : tick_kind)
    (l : list dict) (w : world) (i : nat) (d : dict) (a b : Z) (r : value)
    (st : string) :
  Forall keyed l -> l !! i = Some d ->
  truthy (default VNone (d !! "daily")) = false ->
  d !! "start_time" = Some (VIso a) ->
  d !! "end_time" = Some (VIso b) ->
  b < now_at O (reads w) ->
  d !! "repeat" = Some r -> truthy r = false ->
  d !! "status" = Some (VStr st) ->
  st = "active" \/ st = "download_started" ->
  exists l' w' d',
    tick O k l w = (Ok tt, l', w')
    /\ l' !! i = Some d'
    /\ d' !! "status"
       = Some (VStr (if String.eqb st "active" then "completed"
                     else "download_started"))
    /\ match k with
       | SchedulerTick =>
           d' !! "active_browser_id" = Some VNone
           /\ d' !! "manual_stop" = Some (VBool false)
       | ExecutorTick =>
           d' !! "active_browser_id" = d !! "active_browser_id"
           /\ d' !! "manual_stop" = d !! "manual_stop"
       end.
Proof.
  intros Hl Hi Hd Ha Hb Hlt Hr Hrf Hst Hcase.
  destruct (tick_at O k l w i d Hl Hi) as (l' & w' & wi & Et & Ei).
  assert (Hns : skip_cond d = false).
  { apply (not_skipped d st Hst). destruct Hcase; subst; discriminate. }
  rewrite iterate_body in Ei by exact Hns.
  exists l', w'. eexists. split; [exact Et|]. split; [exact Ei|].
  destruct k; cbn [tick_body].
  - rewrite (check_one_expired O _ {| cur := d; wld := wi |} a b r (VStr st))
      by assumption.
    cbn [snd cur]. rewrite py_eq_str.
    destruct Hcase; subst st; cbn; repeat split; lookups.
  - rewrite (execute_one_expired O _ {| cur := d; wld := wi |} a b r (VStr st))
      by assumption.
    cbn [snd cur]. rewrite py_eq_str.
    destruct Hcase; subst st; cbn; repeat split; lookups.
Qed.

Lemma C4_one_shot_window_passed_witness :
  let O := still_oracle (PyTime.civil 2024 1 1 13 0) in
  let d := started_one_shot in
  exists l' w' d',
    tick O SchedulerTick [d] world0 = (Ok tt, l', w')
    /\ l' !! 0%nat = Some d'
    /\ d' !! "status" = Some (VStr "download_started")
    /\ d' !! "active_browser_id" = Some VNone
    /\ d' !! "manual_stop" = Some (VBool false).
Proof.
  cbv zeta.
  assert (Hk : Forall keyed [started_one_shot]).
  { repeat constructor; vm_compute; eauto. }
  exact (C4_one_shot_window_passed
           (still_oracle (PyTime.civil 2024 1 1 13 0)) SchedulerTick
           [started_one_shot] world0 0 started_one_shot
           (PyTime.civil 2024 1 1 10 0) (PyTime.civil 2024 1 1 12 0)
           (VBool false) "download_started"
           Hk eq_refl eq_refl eq_refl eq_refl eq_refl eq_refl eq_refl
           eq_refl (or_intror eq_refl)).
Defined.

(** ** C6: the weekly reschedule *)

Lemma frame_after {A} (c : M A) K s k :
  steps (rel K) c -> k ∉ K -> cur (snd (c s)) !! k = cur s !! k.
Proof. intros Hc Hk. destruct (Hc s) as [F _]. apply F, Hk. Qed.

Lemma not_next_check k : k <> "next_check" -> k ∉ ["next_check"].
Proof.
  intros Hne H. apply elem_of_cons in H as [H|H]; [congruence|inversion H].
Qed.




Lemma datetime_add_ok t delta :
  PyTime.is_datetime (t + delta) -> datetime_add t delta = Ok (t + delta).
Proof.
  unfold PyTime.is_datetime, datetime_add. intros [H1 H2].
  rewrite (proj2 (Z.leb_le _ _) H1), (proj2 (Z.leb_le _ _) H2). reflexivity.
Qed.


Lemma reschedule_next_week_run O s a b :
  cur s !! "start_time" = Some (VIso a) ->
  cur s !! "end_time" = Some (VIso b) ->
  next_week_ok a b ->
  Scheduler._reschedule_next_week O s
  = (Scheduler._update_next_check O ;;; log_id)
      {| cur := <["manual_stop" := VBool false]>
                (<["active_browser_id" := VNone]>
                 (<["status" := VStr "pending"]>
                  (<["end_time" := isoformat (b + PyTime.days 7)]>
                   (<["start_time" := isoformat (a + PyTime.days 7)]>
                    (cur s)))));
         wld := wld s |}.
Proof.
  intros Ha Hb [Wa Wb]. unfold Scheduler._reschedule_next_week.
  rewrite (bind_ok _ _ _ _ _ (resolve_regular_ok _ _ _ Ha Hb)).
  unfold bind at 1, lift. rewrite (datetime_add_ok _ _ Wa).
  unfold bind at 1. rewrite (datetime_add_ok _ _ Wb). reflexivity.
Qed.











(** ** C1: a download that is gone while [manual_stop] is set *)

Lemma rel_check_if_due O now :
  steps (rel ["next_check"]) (Scheduler.check_if_due O now).
Proof. unfold Scheduler.check_if_due. steps_rel. Qed.

(** the auto-resume branch of lines 290-301 and 389-400 *)
Lemma in_window_resume_run O now e s :
  cur s !! "status" = Some (VStr "download_started") ->
  Scheduler._is_download_active O
    (default VNone (cur s !! "active_browser_id")) = false ->
  is_Some (cur s !! "id") ->
  Scheduler.in_window O now e s
  = Scheduler.check_if_due O now
      {| cur := <["active_browser_id" := VNone]>
                (<["status" := VStr "active"]> (cur s));
         wld := wld s |}.
Proof.
  intros Hst Hact [id Hid]. unfold Scheduler.in_window.
  rewrite (bind_ok _ _ _ _ _ (getitem_some _ _ _ Hst)).
  rewrite py_eq_str.
  change (String.eqb "download_started" "download_started") with true.
  cbv iota.
  unfold bind at 1. unfold bind at 1. rewrite get_value, Hact.
  unfold bind at 1. rewrite log_id_result. unfold log_result. rewrite Hid.
  cbn [setitem bind ret cur wld negb].
  erewrite bind_ok
    by (apply getitem_some; cbn [cur];
        rewrite lookup_insert_ne by discriminate; apply lookup_insert_eq).
  rewrite py_eq_str. change (String.eqb "active" "active") with true.
  reflexivity.
Qed.

Lemma check_one_in_window O now s a b :
  resolve (variant_of (cur s)) now s = (Ok (a, b), s) ->
  a <= now <= b ->
  Scheduler.check_one O now s = Scheduler.in_window O now b s.
Proof.
  intros H [H1 H2]. unfold Scheduler.check_one, variant_of in *.
  unfold bind at 1. rewrite get_value.
  destruct (truthy (default VNone (cur s !! "daily"))).
  - destruct (resolve_daily_of_resolve _ _ _ _ H) as (w & Hw & <- & <-).
    unfold Scheduler._check_daily_schedule.
    rewrite (bind_ok _ _ _ _ _ Hw).
    rewrite (proj2 (Z.leb_le _ _) H1), (proj2 (Z.leb_le _ _) H2).
    reflexivity.
  - cbn in H. rewrite (bind_ok _ _ _ _ _ H).
    replace (now >? b) with false
      by (symmetry; rewrite Z.gtb_ltb; apply Z.ltb_ge; lia).
    rewrite (proj2 (Z.leb_le _ _) H1), (proj2 (Z.leb_le _ _) H2).
    reflexivity.
Qed.

(** C1, as stated, fails: a daily schedule (window 20:00-22:00) in
    [download_started] with [manual_stop] set and no such download in the
    queue is, in the tick of 21:00, set back to [active]; [manual_stop]
    stays set and the next check falls at 21:08 of the same window, not at
    tomorrow's start. *)
Lemma C1_manual_stop_does_not_prevent_resume :
  let O := still_oracle (PyTime.civil 2024 1 1 21 0) in
  let r := tick O SchedulerTick [stopped_daily] world0 in
  column "manual_stop" [stopped_daily] = [VBool true]
  /\ column "status" [stopped_daily] = [VStr "download_started"]
  /\ r.1.1 = Ok tt
  /\ column "status" r.1.2 = [VStr "active"]
  /\ column "manual_stop" r.1.2 = [VBool true]
  /\ column "next_check" r.1.2 = [isoformat (PyTime.civil 2024 1 1 21 8)]
  /\ column "next_check" r.1.2 <> [isoformat (PyTime.civil 2024 1 2 20 0)].
Proof.
  cbv zeta.
  assert (E : column "next_check"
                (tick (still_oracle (PyTime.civil 2024 1 1 21 0))
                   SchedulerTick [stopped_daily] world0).1.2
              = [isoformat (PyTime.civil 2024 1 1 21 8)])
    by (vm_compute; reflexivity).
  repeat apply conj; try (vm_compute; reflexivity).
  rewrite E. vm_compute. discriminate.
Qed.

(** C1, amended.  In a tick of [Scheduler._check_schedules] whose clock
    reading lies inside the window of a schedule in [download_started]
    whose [active_browser_id] is not an active download, the schedule is
    set back to [active] and its [active_browser_id] cleared, whatever
    [manual_stop] holds: the tick does not read [manual_stop], leaves it
    as it is, and leaves [start_time] and [end_time] as they are. *)
Theorem C1_resume_whatever_manual_stop (O : oracle) (l : list dict)
    (w : world) (i : nat) (d : dict) (a b : Z) :
  Forall keyed l -> l !! i = Some d ->
  fst (resolve (variant_of d) (now_at O (reads w)) (on d)) = Ok (a, b) ->
  a <= now_at O (reads w) <= b ->
  d !! "status" = Some (VStr "download_started") ->
  Scheduler._is_download_active O
    (default VNone (d !! "active_browser_id")) = false ->
  exists l' w' d',
    tick O SchedulerTick l w = (Ok tt, l', w')
    /\ l' !! i = Some d'
    /\ d' !! "status" = Some (VStr "active")
    /\ d' !! "active_browser_id" = Some VNone
    /\ d' !! "manual_stop" = d !! "manual_stop"
    /\ d' !! "start_time" = d !! "start_time"
    /\ d' !! "end_time" = d !! "end_time".
Proof.
  intros Hl Hi Hres Hin Hst Hact.
  destruct (tick_at O SchedulerTick l w i d Hl Hi)
    as (l' & w' & wi & Et & Ei).
  assert (Hns : skip_cond d = false)
    by (apply (not_skipped d _ Hst); discriminate).
  assert (Hid : is_Some (d !! "id")).
  { rewrite Forall_forall in Hl. apply (Hl d).
    apply list_elem_of_lookup. eauto. }
  rewrite iterate_body in Ei by exact Hns.
  exists l', w'. eexists. split; [exact Et|]. split; [exact Ei|].
  cbn [tick_body].
  apply resolve_fst in Hres.
  assert (Hres' : resolve (variant_of d) (now_at O (reads w))
                    {| cur := d; wld := wi |}
                  = (Ok (a, b), {| cur := d; wld := wi |})).
  { apply (resolve_same _ _ _ _ _ _ Hres). split; reflexivity. }
  rewrite (check_one_in_window O _ {| cur := d; wld := wi |} a b Hres' Hin).
  rewrite (in_window_resume_run O _ b {| cur := d; wld := wi |} Hst Hact Hid).
  repeat split;
    (rewrite (frame_after _ _ _ _ (rel_check_if_due O _))
       by (apply not_next_check; discriminate));
    cbn [cur]; lookups.
Qed.

Lemma C1_resume_whatever_manual_stop_witness :
  let O := still_oracle (PyTime.civil 2024 1 1 21 0) in
  exists l' w' d',
    tick O SchedulerTick [stopped_daily] world0 = (Ok tt, l', w')
    /\ l' !! 0%nat = Some d'
    /\ d' !! "status" = Some (VStr "active")
    /\ d' !! "active_browser_id" = Some VNone
    /\ d' !! "manual_stop" = stopped_daily !! "manual_stop"
    /\ d' !! "start_time" = stopped_daily !! "start_time"
    /\ d' !! "end_time" = stopped_daily !! "end_time".
Proof.
  cbv zeta.
  assert (Hk : Forall keyed [stopped_daily]).
  { repeat constructor; vm_compute; eauto. }
  assert (Hin : PyTime.civil 2024 1 1 20 0 <= PyTime.civil 2024 1 1 21 0
                <= PyTime.civil 2024 1 1 22 0)
    by (vm_compute; split; discriminate).
  exact (C1_resume_whatever_manual_stop
           (still_oracle (PyTime.civil 2024 1 1 21 0))
           [stopped_daily] world0 0 stopped_daily
           (PyTime.civil 2024 1 1 20 0) (PyTime.civil 2024 1 1 22 0)
           Hk eq_refl eq_refl Hin eq_refl eq_refl).
Defined.

(** ** C3: a daily window that spans midnight *)

Lemma clock_window_early now sh sm eh em :
  spanning sh sm eh em ->
  PyTime.time now < PyTime.hm sh sm ->
  clock_window now sh sm eh em
  = {| start_dt := PyTime.combine (PyTime.date now - 1) (PyTime.hm sh sm);
       end_dt := PyTime.combine (PyTime.date now) (PyTime.hm eh em);
       spans_midnight := true;
       start_clock := PyTime.hm sh sm |}.
Proof.
  intros Hsp Hlt. unfold clock_window, daily_window.
  assert ((eh <? sh) || ((eh =? sh) && (em <? sm)) = true) as ->.
  { destruct Hsp as [H|[H1 H2]].
    - rewrite (proj2 (Z.ltb_lt _ _) H). reflexivity.
    - rewrite (proj2 (Z.eqb_eq _ _) H1), (proj2 (Z.ltb_lt _ _) H2).
      apply orb_true_r. }
  rewrite (proj2 (Z.ltb_lt _ _) Hlt). reflexivity.
Qed.

Lemma early_window_bounds now st et :
  0 <= st < PyTime.DAY ->
  PyTime.combine (PyTime.date now - 1) st <= now
  /\ (now <= PyTime.combine (PyTime.date now) et <-> PyTime.time now <= et).
Proof.
  intros Hst. pose proof (PyTime_combine_date_time now) as E.
  pose proof (PyTime_time_range now) as Ht.
  unfold PyTime.combine in *. lia.
Qed.

(** the window-passed branch of [check_schedule], lines 124-131 *)
Lemma daily_check_passed O now s w st :
  resolve_daily now s = (Ok w, s) ->
  start_dt w <= now -> end_dt w < now ->
  cur s !! "status" = Some st ->
  DailyTimeCalculator.check_schedule O now s
  = if active_or_started st then
      (DailyTimeCalculator.calculate_next_check O now ;;; ret false)
        {| cur := <["last_check" := VNone]>
                  (<["status" := VStr "pending"]> (cur s));
           wld := wld s |}
    else (Ok false, s).
Proof.
  intros Hw H1 H2 Hst. unfold DailyTimeCalculator.check_schedule.
  rewrite (bind_ok _ _ _ _ _ Hw).
  replace (now <=? end_dt w) with false by (symmetry; apply Z.leb_gt; lia).
  rewrite andb_false_r.
  replace (now <? start_dt w) with false by (symmetry; apply Z.ltb_ge; lia).
  rewrite (bind_ok _ _ _ _ _ (getitem_some _ _ _ Hst)).
  destruct (active_or_started st); reflexivity.
Qed.

(** the in-window branch of [check_schedule], lines 98-113 *)
Lemma daily_check_inside_status O now s w st :
  resolve_daily now s = (Ok w, s) ->
  start_dt w <= now <= end_dt w ->
  cur s !! "status" = Some st ->
  (st = VStr "download_started" ->
   DailyTimeCalculator.check_schedule O now s = (Ok false, s))
  /\ (st <> VStr "download_started" ->
      cur (snd (DailyTimeCalculator.check_schedule O now s)) !! "status"
      = Some (VStr "active")).
Proof.
  intros Hw [H1 H2] Hst. unfold DailyTimeCalculator.check_schedule.
  rewrite (bind_ok _ _ _ _ _ Hw).
  rewrite (proj2 (Z.leb_le _ _) H1), (proj2 (Z.leb_le _ _) H2).
  cbn [andb]. rewrite (bind_ok _ _ _ _ _ (getitem_some _ _ _ Hst)).
  split.
  - intros ->. reflexivity.
  - intros Hne. unfold py_eq at 1.
    rewrite bool_decide_eq_false_2 by exact Hne.
    rewrite (bind_ok _ _ _ _ _ (getitem_some _ _ _ Hst)).
    unfold bind at 1. cbn [setitem].
    unfold bind at 1. rewrite get_value.
    match goal with
    | |- context [if ?c then _ else _] => destruct c
    end; [cbn; apply lookup_insert_eq|].
    unfold bind, lift.
    match goal with
    | |- context [fromisoformat ?v] => destruct (fromisoformat v)
    end; cbn; apply lookup_insert_eq.
Qed.

(** C3, as stated, fails at 22:00: for the daily window 23:00-01:00 the
    window resolved at 22:00 on 2024-01-01 is 2023-12-31 23:00 through
    2024-01-01 01:00, which has passed; [now] is not before its start.
    [check_schedule] runs its window-passed branch: a pending schedule
    whose [next_check] is still yesterday's start keeps it, where the
    before-window branch would have moved it to the coming start. *)
Lemma C3_at_2200_the_window_has_passed :
  let now := PyTime.civil 2024 1 1 22 0 in
  let O := still_oracle now in
  let stale := isoformat (PyTime.civil 2023 12 31 23 0) in
  let s := on (daily_schedule "pending" 23 0 1 0 stale) in
  fst (resolve Daily now s)
  = Ok (PyTime.civil 2023 12 31 23 0, PyTime.civil 2024 1 1 1 0)
  /\ PyTime.civil 2024 1 1 1 0 < now
  /\ ~ (now < PyTime.civil 2023 12 31 23 0)
  /\ fst (DailyTimeCalculator.check_schedule O now s) = Ok false
  /\ cur (snd (DailyTimeCalculator.check_schedule O now s)) !! "next_check"
     = Some stale.
Proof.
  cbv zeta. repeat apply conj; try (vm_compute; reflexivity).
  vm_compute. discriminate.
Qed.

(** C3, amended.  For a daily schedule whose window spans midnight, seen
    at a [now] whose clock time is earlier than the start clock time, the
    window is yesterday's start through today's end.  If the clock time
    of [now] is not later than the end clock time, [now] is inside the
    window and [check_schedule] makes the schedule [active] (a schedule in
    [download_started] is left alone).  Otherwise the window has passed:
    [check_schedule] resets an [active] or [download_started] schedule to
    [pending], clears [last_check] and sets [next_check] to today's start,
    and returns [False] without touching a schedule in any other status. *)
Theorem C3_spanning_window_early_hours (O : oracle) (now : Z) (s : pst)
    (sh sm eh em : Z) (st : value) :
  cur s !! "start_time" = Some (VClock sh sm) ->
  cur s !! "end_time" = Some (VClock eh em) ->
  clock_ok sh sm -> clock_ok eh em ->
  spanning sh sm eh em ->
  PyTime.time now < PyTime.hm sh sm ->
  cur s !! "status" = Some st ->
  let a := PyTime.combine (PyTime.date now - 1) (PyTime.hm sh sm) in
  let b := PyTime.combine (PyTime.date now) (PyTime.hm eh em) in
  let today_start := PyTime.combine (PyTime.date now) (PyTime.hm sh sm) in
  let r := DailyTimeCalculator.check_schedule O now s in
  fst (resolve Daily now s) = Ok (a, b)
  /\ a <= now
  /\ (PyTime.time now <= PyTime.hm eh em ->
      now <= b
      /\ (st = VStr "download_started" -> r = (Ok false, s))
      /\ (st <> VStr "download_started" ->
          cur (snd r) !! "status" = Some (VStr "active")))
  /\ (PyTime.hm eh em < PyTime.time now ->
      b < now
      /\ (active_or_started st = false -> r = (Ok false, s))
      /\ (active_or_started st = true ->
          cur (snd r) !! "status" = Some (VStr "pending")
          /\ cur (snd r) !! "last_check" = Some VNone
          /\ cur (snd r) !! "next_check" = Some (isoformat today_start))).
Proof.
  intros Ha Hb Hs He Hsp Hlt Hst. cbv zeta.
  pose proof (resolve_daily_ok now s sh sm eh em Ha Hb Hs He) as Hw.
  rewrite (clock_window_early now sh sm eh em Hsp Hlt) in Hw.
  set (w := {| start_dt := _ |}) in Hw.
  destruct (early_window_bounds now (PyTime.hm sh sm) (PyTime.hm eh em)
              (PyTime_hm_range _ _ Hs)) as [Hge Hiff].
  split; [cbn; unfold bind; rewrite Hw; reflexivity|].
  split; [exact Hge|]. split.
  - intros Hle. apply Hiff in Hle. split; [exact Hle|].
    apply (daily_check_inside_status O now s w st Hw); [|exact Hst].
    split; assumption.
  - intros Hgt.
    assert (Hpast : PyTime.combine (PyTime.date now) (PyTime.hm eh em) < now).
    { destruct (Z.lt_ge_cases
                  (PyTime.combine (PyTime.date now) (PyTime.hm eh em)) now)
        as [H|H]; [exact H|]. apply Hiff in H. lia. }
    split; [exact Hpast|].
    rewrite (daily_check_passed O now s w st Hw Hge Hpast Hst).
    split; [intros ->; reflexivity|]. intros ->.
    set (s2 := {| cur := _; wld := wld s |}).
    assert (Hw2 : resolve_daily now s2 = (Ok w, s2)).
    { apply (resolve_daily_same now s s2 w Hw).
      split; cbn; rewrite !lookup_insert_ne by discriminate; reflexivity. }
    unfold bind. rewrite (daily_calc O now s2 w Hw2).
    assert (Hnext : daily_next O now s2 w
                    = set_next (VIso (PyTime.combine (PyTime.date now)
                                        (PyTime.hm sh sm))) s2).
    { unfold daily_next. cbn [start_dt end_dt spans_midnight start_clock w].
      replace (now <? _) with false by (symmetry; apply Z.ltb_ge; lia).
      replace (now <=? PyTime.combine (PyTime.date now) (PyTime.hm eh em))
        with false by (symmetry; apply Z.leb_gt; lia).
      rewrite andb_false_r. rewrite (proj2 (Z.ltb_lt _ _) Hlt).
      reflexivity. }
    rewrite Hnext.
    destruct (log_result (cur s2)); cbn [snd ret cur set_next s2];
      repeat split; lookups.
Qed.

(** the window 23:00-01:00 seen at 00:30 *)
Lemma C3_spanning_window_early_hours_witness :
  let now := PyTime.civil 2024 1 1 0 30 in
  let O := still_oracle now in
  let s := on (daily_schedule "pending" 23 0 1 0 VNone) in
  let r := DailyTimeCalculator.check_schedule O now s in
  fst (resolve Daily now s)
  = Ok (PyTime.civil 2023 12 31 23 0, PyTime.civil 2024 1 1 1 0)
  /\ PyTime.civil 2023 12 31 23 0 <= now
  /\ now <= PyTime.civil 2024 1 1 1 0
  /\ cur (snd r) !! "status" = Some (VStr "active").
Proof.
  cbv zeta.
  destruct (C3_spanning_window_early_hours
              (still_oracle (PyTime.civil 2024 1 1 0 30))
              (PyTime.civil 2024 1 1 0 30)
              (on (daily_schedule "pending" 23 0 1 0 VNone))
              23 0 1 0 (VStr "pending") eq_refl eq_refl
              ltac:(unfold clock_ok; lia) ltac:(unfold clock_ok; lia)
              (or_introl eq_refl) eq_refl eq_refl)
    as (H1 & H2 & H3 & _).
  destruct (H3 ltac:(vm_compute; discriminate)) as (H4 & _ & H5).
  split; [exact H1|]. split; [exact H2|]. split; [exact H4|].
  apply H5. discriminate.
Defined.

(** ** C9: the record [add_schedule] creates *)

(** membership of a literal key in a literal set of keys *)
Ltac key_in :=
  apply elem_of_list_to_set; repeat constructor.
Ltac key_not_in :=
  let H := fresh in
  intros H; apply elem_of_list_to_set in H;
  repeat (apply elem_of_cons in H as [H|H]; [discriminate H|]);
  inversion H.

Lemma dom_new_schedule id url st et rp dl nm rs fr fm ca :
  dom (Scheduler.new_schedule id url st et rp dl nm rs fr fm ca)
  = written_fields.
Proof.
  unfold Scheduler.new_schedule, written_fields.
  rewrite !dom_insert_L, dom_empty_L. cbn [list_to_set foldr].
  set_solver.
Qed.

Lemma daily_next_shape O now s w :
  exists v w', daily_next O now s w
               = {| cur := <["next_check" := v]> (cur s); wld := w' |}
               /\ trace w' = trace (wld s).
Proof.
  unfold daily_next, set_next, drawn.
  repeat match goal with
         | |- context [if ?c then _ else _] => destruct c
         end; do 2 eexists; split; reflexivity.
Qed.

Lemma regular_next_shape O now s a b :
  exists v w', regular_next O now s a b
               = {| cur := <["next_check" := v]> (cur s); wld := w' |}
               /\ trace w' = trace (wld s).
Proof.
  unfold regular_next, set_next, drawn.
  repeat match goal with
         | |- context [if ?c then _ else _] => destruct c
         end; do 2 eexists; split; reflexivity.
Qed.

(** on a schedule whose times parse, [_update_next_check] writes
    [next_check] and nothing else *)
Lemma update_next_check_sets O s st et :
  cur s !! "start_time" = Some st ->
  cur s !! "end_time" = Some et ->
  well_timed (default VNone (cur s !! "daily")) st et ->
  exists v w',
    Scheduler._update_next_check O s
    = (log_result (cur s),
       {| cur := <["next_check" := v]> (cur s); wld := w' |})
    /\ trace w' = trace (wld s).
Proof.
  intros Ha Hb Hwt. unfold Scheduler._update_next_check, well_timed in *.
  rewrite (bind_ok (datetime_now O) _ s (now_at O (reads (wld s)))
             (clocked s) eq_refl).
  unfold bind at 1. rewrite get_value. cbn [clocked cur].
  destruct (truthy (default VNone (cur s !! "daily"))).
  - destruct Hwt as (sh & sm & eh & em & -> & -> & Hs & He).
    rewrite (daily_calc O _ (clocked s) _
               (resolve_daily_ok _ (clocked s) sh sm eh em Ha Hb Hs He)).
    destruct (daily_next_shape O (now_at O (reads (wld s))) (clocked s)
                (clock_window (now_at O (reads (wld s))) sh sm eh em))
      as (v & w' & -> & Ht).
    exists v, w'. split; [reflexivity|exact Ht].
  - destruct Hwt as (a & b & -> & ->).
    rewrite (regular_calc O _ (clocked s) a b Ha Hb).
    destruct (regular_next_shape O (now_at O (reads (wld s))) (clocked s) a b)
      as (v & w' & -> & Ht).
    exists v, w'. split; [reflexivity|exact Ht].
Qed.

(** what [add_schedule] returns, appends and saves: the dict literal
    with [next_check] overwritten *)
Lemma add_schedule_closed_form (O : oracle) (id : string)
    (url start_time end_time repeat_ daily name resolution framerate
     format : value) (l : list dict) (w : world) :
  well_timed daily start_time end_time ->
  exists v w',
    let d := <["next_check" := v]>
             (Scheduler.new_schedule id url start_time end_time repeat_ daily
                name resolution framerate format (now_at O (reads w))) in
    Scheduler.add_schedule O id url start_time end_time repeat_ daily name
      resolution framerate format l w
    = (Ok d, l ++ [d], emit (Save (l ++ [d])) w')
    /\ trace w' = trace w.
Proof.
  intros Hwt. unfold Scheduler.add_schedule.
  set (w1 := {| reads := S (reads w); draws := draws w; trace := trace w |}).
  set (d0 := Scheduler.new_schedule id url start_time end_time repeat_ daily
               name resolution framerate format (now_at O (reads w))).
  destruct (update_next_check_sets O {| cur := d0; wld := w1 |}
              start_time end_time)
    as (v & w' & E & Ht).
  { unfold d0, Scheduler.new_schedule. cbn [cur]. lookups. }
  { unfold d0, Scheduler.new_schedule. cbn [cur]. lookups. }
  { replace (default VNone (cur {| cur := d0; wld := w1 |} !! "daily"))
      with daily; [exact Hwt|].
    unfold d0, Scheduler.new_schedule. cbn [cur]. lookups. }
  rewrite E. unfold log_result. cbn [cur].
  assert (Hid : d0 !! "id" = Some (VStr id))
    by (unfold d0, Scheduler.new_schedule; lookups).
  rewrite Hid. exists v, w'. split; [reflexivity|exact Ht].
Qed.

(** C9, as stated, fails: the record [add_schedule] creates has the keys
    [start_time] and [end_time], which are not among the enumerated
    fields. *)
Lemma C9_record_has_start_and_end_time :
  let O := still_oracle (PyTime.civil 2024 1 1 12 0) in
  exists d, (added O).1.1 = Ok d
    /\ ("start_time" ∈ dom d) /\ ("end_time" ∈ dom d)
    /\ ("start_time" ∉ spec_fields) /\ ("end_time" ∉ spec_fields)
    /\ ~ (dom d ⊆ spec_fields).
Proof.
  cbv zeta.
  assert (Hwt : well_timed (VBool true) (VClock 20 0) (VClock 22 0)).
  { exists 20, 0, 22, 0. unfold clock_ok. repeat split; lia. }
  destruct (add_schedule_closed_form
              (still_oracle (PyTime.civil 2024 1 1 12 0))
              "1700000000002" (VStr "https://example.org/live")
              (VClock 20 0) (VClock 22 0) (VBool false) (VBool true) VNone
              (VStr "1080p") (VStr "any") (VStr "mp4") [] world0 Hwt)
    as (v & w' & E & _).
  cbv zeta in E. eexists. unfold added. rewrite E.
  split; [reflexivity|].
  assert (I1 : "start_time" ∈ dom (<["next_check" := v]>
                 (Scheduler.new_schedule "1700000000002"
                    (VStr "https://example.org/live") (VClock 20 0)
                    (VClock 22 0) (VBool false) (VBool true) VNone
                    (VStr "1080p") (VStr "any") (VStr "mp4")
                    (now_at (still_oracle (PyTime.civil 2024 1 1 12 0))
                       (reads world0))))).
  { apply elem_of_dom. exists (VClock 20 0).
    unfold Scheduler.new_schedule. lookups. }
  assert (I2 : "end_time" ∈ dom (<["next_check" := v]>
                 (Scheduler.new_schedule "1700000000002"
                    (VStr "https://example.org/live") (VClock 20 0)
                    (VClock 22 0) (VBool false) (VBool true) VNone
                    (VStr "1080p") (VStr "any") (VStr "mp4")
                    (now_at (still_oracle (PyTime.civil 2024 1 1 12 0))
                       (reads world0))))).
  { apply elem_of_dom. exists (VClock 22 0).
    unfold Scheduler.new_schedule. lookups. }
  assert (N1 : "start_time" ∉ spec_fields) by (unfold spec_fields; key_not_in).
  assert (N2 : "end_time" ∉ spec_fields) by (unfold spec_fields; key_not_in).
  repeat split; try assumption.
  intros Hsub. exact (N1 (Hsub _ I1)).
Qed.

(** C9, amended.  For arguments whose times the selected calculator can
    parse, [add_schedule] returns a record, appended to the list and saved
    with it, whose keys are exactly [id], [url], [name], [resolution],
    [framerate], [format], [start_time], [end_time], [repeat], [daily],
    [status], [next_check], [last_check] and [created_at]; the status is
    [pending] and [last_check] is [None].  [active_browser_id] and
    [manual_stop] are absent, and [schedule.get] reads them as [None]. *)
Theorem C9_add_schedule_record (O : oracle) (id : string)
    (url start_time end_time repeat_ daily name resolution framerate
     format : value) (l : list dict) (w : world) :
  well_timed daily start_time end_time ->
  exists d w',
    Scheduler.add_schedule O id url start_time end_time repeat_ daily name
      resolution framerate format l w
    = (Ok d, l ++ [d], w')
    /\ trace w' = Save (l ++ [d]) :: trace w
    /\ dom d = written_fields
    /\ d !! "id" = Some (VStr id)
    /\ d !! "status" = Some (VStr "pending")
    /\ d !! "last_check" = Some VNone
    /\ d !! "start_time" = Some start_time
    /\ d !! "end_time" = Some end_time
    /\ fst (get "active_browser_id" {| cur := d; wld := w' |}) = Ok VNone
    /\ fst (get "manual_stop" {| cur := d; wld := w' |}) = Ok VNone.
Proof.
  intros Hwt.
  destruct (add_schedule_closed_form O id url start_time end_time repeat_
              daily name resolution framerate format l w Hwt)
    as (v & w' & E & Ht).
  cbv zeta in E.
  set (d0 := Scheduler.new_schedule id url start_time end_time repeat_ daily
               name resolution framerate format (now_at O (reads w))) in *.
  assert (Hdom : dom d0 = written_fields) by apply dom_new_schedule.
  assert (Hdom' : dom (<["next_check" := v]> d0) = written_fields).
  { rewrite dom_insert_lookup_L; [exact Hdom|].
    exists VNone. unfold d0, Scheduler.new_schedule. lookups. }
  assert (Habsent : forall k, k ∉ written_fields ->
                    (<["next_check" := v]> d0) !! k = None).
  { intros k Hk. apply not_elem_of_dom. rewrite Hdom'. exact Hk. }
  do 2 eexists. split; [exact E|].
  split; [cbn [emit trace]; rewrite Ht; reflexivity|].
  split; [exact Hdom'|].
  repeat split; try (unfold d0, Scheduler.new_schedule; lookups);
    unfold get; cbn [fst cur]; rewrite Habsent; try reflexivity;
    unfold written_fields; key_not_in.
Qed.

Lemma C9_add_schedule_record_witness :
  let O := still_oracle (PyTime.civil 2024 1 1 12 0) in
  well_timed (VBool true) (VClock 20 0) (VClock 22 0)
  /\ exists d w',
      added O = (Ok d, [] ++ [d], w')
      /\ trace w' = Save ([] ++ [d]) :: trace world0
      /\ dom d = written_fields
      /\ d !! "id" = Some (VStr "1700000000002")
      /\ d !! "status" = Some (VStr "pending")
      /\ d !! "last_check" = Some VNone
      /\ d !! "start_time" = Some (VClock 20 0)
      /\ d !! "end_time" = Some (VClock 22 0)
      /\ fst (get "active_browser_id" {| cur := d; wld := w' |}) = Ok VNone
      /\ fst (get "manual_stop" {| cur := d; wld := w' |}) = Ok VNone.
Proof.
  cbv zeta.
  assert (Hwt : well_timed (VBool true) (VClock 20 0) (VClock 22 0)).
  { exists 20, 0, 22, 0. unfold clock_ok. repeat split; lia. }
  split; [exact Hwt|].
  exact (C9_add_schedule_record (still_oracle (PyTime.civil 2024 1 1 12 0))
           "1700000000002" (VStr "https://example.org/live")
           (VClock 20 0) (VClock 22 0) (VBool false) (VBool true) VNone
           (VStr "1080p") (VStr "any") (VStr "mp4") [] world0 Hwt).
Defined.

(** ** C10: the two [remove_schedule] *)

Lemma without_id_others schedule_id l :
  Forall has_id l -> without_id schedule_id l = Ok (others schedule_id l).
Proof.
  intros Hl. induction Hl as [|d rest [id Hid] _ IH]; [reflexivity|].
  cbn [without_id]. rewrite Hid, IH. unfold others. rewrite filter_cons.
  unfold py_eq. rewrite Hid.
  destruct (decide (Some id <> Some schedule_id)) as [Hne|Heq].
  - rewrite bool_decide_eq_false_2 by congruence. reflexivity.
  - rewrite bool_decide_eq_true_2; [reflexivity|].
    destruct (decide (id = schedule_id)) as [E|Hn]; [exact E|].
    exfalso. apply Heq. congruence.
Qed.

Lemma others_all schedule_id l :
  (forall d, d ∈ l -> d !! "id" <> Some schedule_id) ->
  others schedule_id l = l.
Proof.
  intros H. induction l as [|d rest IH]; [reflexivity|].
  unfold others in *. rewrite filter_cons_True.
  - rewrite IH; [reflexivity|]. intros d' Hd'. apply H. by right.
  - apply H. by left.
Qed.

(** C10.  [Scheduler.remove_schedule] returns [True] for every
    [schedule_id], also when no schedule has that id (the list is then
    unchanged); the list it leaves and saves holds the schedules with
    another id, all of them and in their order.
    [ScheduleRepository.remove_schedule] returns [False] when no stored
    schedule has the id, and leaves the repository as it was. *)
Theorem C10_remove_schedule (schedule_id : value) (l : list dict) (w : world)
    (r : ScheduleRepository.repo) :
  Forall has_id l ->
  Scheduler.remove_schedule schedule_id l w
  = (Ok true, others schedule_id l, emit (Save (others schedule_id l)) w)
  /\ others schedule_id l `sublist_of` l
  /\ (forall d, d ∈ others schedule_id l
                <-> d !! "id" <> Some schedule_id /\ d ∈ l)
  /\ ((forall d, d ∈ l -> d !! "id" <> Some schedule_id) ->
      others schedule_id l = l)
  /\ (ScheduleRepository.lock_held r = false ->
      Forall has_id (ScheduleRepository._load_for_modification r) ->
      (forall d, d ∈ ScheduleRepository._load_for_modification r ->
                 d !! "id" <> Some schedule_id) ->
      ScheduleRepository.remove_schedule schedule_id r = (ScheduleRepository.Returns false, r)).
Proof.
  intros Hl. split.
  { unfold Scheduler.remove_schedule.
    rewrite (without_id_others _ _ Hl). reflexivity. }
  split; [apply sublist_filter|].
  split.
  { intros d. unfold others.
    exact (list_elem_of_filter (fun d => d !! "id" <> Some schedule_id) l d). }
  split; [exact (others_all schedule_id l)|].
  intros Hfree Hstored Hnone.
  unfold ScheduleRepository.remove_schedule. rewrite Hfree.
  change (ScheduleRepository._load_for_modification
            (ScheduleRepository.set_lock true r))
    with (ScheduleRepository._load_for_modification r).
  rewrite (without_id_others _ _ Hstored), (others_all _ _ Hnone).
  rewrite Nat.ltb_irrefl.
  destruct r as [f lk c]. cbn in Hfree. subst lk. reflexivity.
Qed.

(** removing id 3, which no schedule has, from [three_schedules] and from
    a repository that stores them *)
Lemma C10_remove_schedule_witness :
  let r := free_repo (ScheduleRepository.Content three_schedules) in
  Forall has_id three_schedules
  /\ Scheduler.remove_schedule (VStr "3") three_schedules world0
     = (Ok true, three_schedules, emit (Save three_schedules) world0)
  /\ ScheduleRepository.remove_schedule (VStr "3") r
     = (ScheduleRepository.Returns false, r).
Proof.
  cbv zeta.
  assert (Hk : Forall has_id three_schedules).
  { repeat constructor; vm_compute; eauto. }
  assert (Hnone : forall d, d ∈ three_schedules -> d !! "id" <> Some (VStr "3")).
  { intros d Hd. unfold three_schedules in Hd.
    repeat (apply elem_of_cons in Hd as [->|Hd]; [vm_compute; discriminate|]).
    inversion Hd. }
  destruct (C10_remove_schedule (VStr "3") three_schedules world0
              (free_repo (ScheduleRepository.Content three_schedules)) Hk)
    as (H1 & _ & _ & H4 & H5).
  split; [exact Hk|]. split.
  - rewrite H1, (H4 Hnone). reflexivity.
  - apply H5; [reflexivity|exact Hk|exact Hnone].
Defined.

(** removing id 2 drops both schedules named 2 and keeps the first; the
    repository, whose [save_schedules] takes the lock that
    [remove_schedule] already holds, does not return when the id is
    found *)
Example remove_found :
  let r := free_repo (ScheduleRepository.Content three_schedules) in
  (Scheduler.remove_schedule (VStr "2") three_schedules world0).1
  = (Ok true, [<["id" := VStr "1"]> ∅])
  /\ (ScheduleRepository.remove_schedule (VStr "2") r).1
     = ScheduleRepository.Blocks.
Proof. cbv zeta. split; vm_compute; reflexivity. Qed.

(** ** C2: the launch queue *)

Import BrowserService.

Lemma launched_with_worker wk s b : launched (with_worker wk s) b <-> launched s b.
Proof. reflexivity. Qed.

Lemma launched_delete s k b :
  launched (with_browsers (delete k (active_browsers s)) s) b ->
  launched s b /\ b <> k.
Proof.
  unfold launched. cbn. intros H.
  destruct (decide (k = b)) as [->|Hne].
  - rewrite lookup_delete_eq in H. discriminate.
  - rewrite lookup_delete_ne in H by exact Hne. auto.
Qed.

Lemma launched_placeholder s k st b :
  launched (with_browsers (<[k := Placeholder st]> (active_browsers s)) s) b ->
  launched s b /\ b <> k.
Proof.
  unfold launched. cbn. intros H.
  destruct (decide (k = b)) as [->|Hne].
  - rewrite lookup_insert_eq in H. discriminate.
  - rewrite lookup_insert_ne in H by exact Hne. auto.
Qed.

Lemma launched_snapshot s b :
  launched s b -> b ∈ browsers_to_close (active_browsers s).
Proof.
  unfold launched, browsers_to_close. intros H.
  apply list_elem_of_filter. split; [exact H|].
  apply list_elem_of_fmap. exists (b, Detector). split; [reflexivity|].
  apply elem_of_map_to_list. exact H.
Qed.

(** a step that changes only the browsers, and only by losing launched
    sessions, keeps the invariant *)
Lemma queue_inv_shrink s m :
  queue_inv s ->
  (forall b, launched (with_browsers m s) b -> launched s b) ->
  queue_inv (with_browsers m s).
Proof.
  intros [Ha Hb] Hsub. split.
  - intros b1 b2 H1 H2. apply Ha; apply Hsub; assumption.
  - unfold processor_inv in *. cbn [with_browsers processor].
    destruct (processor s); auto; intros b H; apply (Hb b), Hsub, H.
Qed.

Lemma queue_inv_work ok s : queue_inv s -> queue_inv (work ok s).
Proof.
  intros Hinv. pose proof Hinv as [Ha Hb].
  unfold work. unfold processor_inv in Hb.
  destruct (processor s) as [|bid|bid|bid todo|bid b0 todo|bid|bid|bid] eqn:Ep.
  - (* Idle *)
    destruct (browser_queue s); [exact Hinv|].
    split; [exact Ha|exact I].
  - (* Marking *)
    split; [|exact I]. intros b1 b2 H1 H2.
    apply launched_with_worker in H1, H2.
    destruct (active_browsers s !! bid) as [[st|]|];
      try (apply Ha; assumption).
    apply launched_placeholder in H1 as [H1 _], H2 as [H2 _].
    apply Ha; assumption.
  - (* Snapshot *)
    split; [exact Ha|]. unfold processor_inv. cbn.
    intros b H. apply launched_snapshot, H.
  - (* Closing *)
    destruct todo as [|b todo].
    + split; [exact Ha|]. unfold processor_inv. cbn.
      intros b H. specialize (Hb b H). inversion Hb.
    + destruct (active_browsers s !! b) as [[st|]|] eqn:Eb.
      * split.
        { intros b1 b2 H1 H2. apply launched_delete in H1 as [H1 _].
          apply launched_delete in H2 as [H2 _]. apply Ha; assumption. }
        unfold processor_inv. cbn [with_worker with_browsers processor].
        intros b' H. apply launched_delete in H as [H Hne].
        specialize (Hb b' H). apply elem_of_cons in Hb as [->|Hb];
          [congruence|exact Hb].
      * split; [exact Ha|]. unfold processor_inv. cbn.
        intros b' H. specialize (Hb b' H).
        apply elem_of_cons in Hb. exact Hb.
      * split; [exact Ha|]. unfold processor_inv. cbn.
        intros b' H. specialize (Hb b' H).
        apply elem_of_cons in Hb as [->|Hb]; [|exact Hb].
        unfold launched in H. cbn in H. congruence.
  - (* ClosingDetector *)
    split.
    { intros b1 b2 H1 H2. apply launched_delete in H1 as [H1 _].
      apply launched_delete in H2 as [H2 _]. apply Ha; assumption. }
    unfold processor_inv. cbn [with_worker with_browsers processor].
    intros b' H. apply launched_delete in H as [H Hne].
    destruct (Hb b' H) as [->|Hin]; [congruence|exact Hin].
  - (* Waiting *)
    split; [exact Ha|]. unfold processor_inv. cbn. exact Hb.
  - (* Installing *)
    assert (Hnew : forall b,
               launched (with_worker (Starting bid)
                           (with_browsers (<[bid := Detector]> (active_browsers s)) s)) b ->
               b = bid).
    { unfold launched. cbn. intros b H.
      destruct (decide (bid = b)) as [->|Hne]; [reflexivity|].
      rewrite lookup_insert_ne in H by exact Hne. destruct (Hb b H). }
    split.
    + intros b1 b2 H1 H2. rewrite (Hnew b1 H1), (Hnew b2 H2). reflexivity.
    + exact Hnew.
  - (* Starting *)
    destruct ok.
    + split; [exact Ha|exact I].
    + split; [|exact I]. intros b1 b2 H1 H2.
      apply launched_delete in H1 as [H1 _].
      apply launched_delete in H2 as [H2 _]. apply Ha; assumption.
Qed.

Lemma queue_inv_step a s : queue_inv s -> queue_inv (step a s).
Proof.
  intros Hinv. destruct a as [bid|bid|bid|ok|]; cbn [step].
  - apply queue_inv_shrink; [exact Hinv|].
    intros b H. apply launched_placeholder in H as [H _]. exact H.
  - destruct Hinv as [Ha Hb]. split; [exact Ha|exact Hb].
  - apply queue_inv_shrink; [exact Hinv|].
    intros b H. apply launched_delete in H as [H _]. exact H.
  - apply queue_inv_work, Hinv.
  - destruct Hinv as [Ha _]. split; [exact Ha|exact I].
Qed.

Lemma queue_inv_run acts s : queue_inv s -> queue_inv (run acts s).
Proof.
  revert s. induction acts as [|a acts IH]; intros s Hs; [exact Hs|].
  cbn. apply IH, queue_inv_step, Hs.
Qed.

Lemma queue_inv_init : queue_inv init.
Proof.
  split; [|exact I]. intros b1 b2 H. unfold launched in H. cbn in H.
  rewrite lookup_empty in H. discriminate.
Qed.

Lemma running_launched s b :
  get_browser_status s b = Some Rrunning <-> launched s b.
Proof.
  unfold get_browser_status, launched.
  destruct (active_browsers s !! b) as [[[]|]|]; split; intros H;
    congruence.
Qed.

Lemma launched_insert_other s k v b :
  k <> b ->
  (launched (with_browsers (<[k := v]> (active_browsers s)) s) b
   <-> launched s b).
Proof.
  intros Hne. unfold launched. cbn. rewrite lookup_insert_ne by exact Hne.
  reflexivity.
Qed.

Lemma launched_delete_other s k b :
  k <> b ->
  (launched (with_browsers (delete k (active_browsers s)) s) b
   <-> launched s b).
Proof.
  intros Hne. unfold launched. cbn. rewrite lookup_delete_ne by exact Hne.
  reflexivity.
Qed.

Lemma not_launched_deleted s b :
  ~ launched (with_browsers (delete b (active_browsers s)) s) b.
Proof. unfold launched. cbn. rewrite lookup_delete_eq. discriminate. Qed.

(** a step keeps a started session, or ends it in one of the three ways *)
Lemma ends_or_kept b a s :
  queue_inv s -> launched s b -> processor s <> Starting b ->
  (launched (step a s) b /\ processor (step a s) <> Starting b)
  \/ (exists e, ends b a s = Some e /\ ~ launched (step a s) b).
Proof.
  intros [_ Hinv] Hb Hp. unfold processor_inv in Hinv.
  destruct a as [k|k|k|ok|]; cbn [step ends].
  - (* Place *)
    destruct (decide (k = b)) as [->|Hne].
    + right. exists Replaced. split; [reflexivity|].
      unfold launched. cbn. rewrite lookup_insert_eq. discriminate.
    + left. split; [apply launched_insert_other; assumption|exact Hp].
  - (* Put *) left. split; [exact Hb|exact Hp].
  - (* Remove *)
    destruct (decide (k = b)) as [->|Hne].
    + right. exists RemovedByOtherThread.
      split; [reflexivity|apply not_launched_deleted].
    + left. split; [apply launched_delete_other; assumption|exact Hp].
  - (* Work *)
    unfold work.
    destruct (processor s) as [|bid|bid|bid todo|bid b0 todo|bid|bid|bid]
      eqn:Ep.
    + left. destruct (browser_queue s); split;
        try exact Hb; try (rewrite Ep); cbn; discriminate.
    + left. split; [|cbn; discriminate].
      apply launched_with_worker.
      destruct (active_browsers s !! bid) as [[st|]|] eqn:Eb;
        try exact Hb.
      apply launched_insert_other; [|exact Hb].
      intros ->. unfold launched in Hb. congruence.
    + left. split; [exact Hb|cbn; discriminate].
    + left. destruct todo as [|b1 todo]; [split; [exact Hb|cbn; discriminate]|].
      destruct (active_browsers s !! b1) as [[st|]|] eqn:Eb;
        (split; [|cbn; discriminate]); try exact Hb.
      apply launched_with_worker, launched_delete_other; [|exact Hb].
      intros ->. unfold launched in Hb. congruence.
    + destruct (decide (b0 = b)) as [->|Hne].
      * right. exists ClosedByProcessor. split; [reflexivity|].
        intros H. apply launched_with_worker in H.
        exact (not_launched_deleted s b H).
      * left. split; [|cbn; discriminate].
        apply launched_with_worker, launched_delete_other; assumption.
    + left. split; [exact Hb|cbn; discriminate].
    + destruct (Hinv b Hb).
    + left. assert (bid <> b) by congruence.
      destruct ok; (split; [|cbn; discriminate]); [exact Hb|].
      apply launched_with_worker, launched_delete_other; assumption.
  - (* Fail *) left. split; [exact Hb|cbn; discriminate].
Qed.

(** a started session that is no longer tracked after a schedule of steps
    was ended by one of them *)
Lemma session_ends b post : forall s,
  queue_inv s -> launched s b -> processor s <> Starting b ->
  ~ launched (run post s) b ->
  exists mid a rest e,
    post = mid ++ a :: rest
    /\ launched (run mid s) b
    /\ ends b a (run mid s) = Some e
    /\ ~ launched (run (mid ++ [a]) s) b.
Proof.
  induction post as [|a post IH]; intros s Hinv Hb Hp Hend.
  - destruct (Hend Hb).
  - destruct (ends_or_kept b a s Hinv Hb Hp) as [[Hb' Hp']|(e & He & Hn)].
    + destruct (IH (step a s) (queue_inv_step a s Hinv) Hb' Hp' Hend)
        as (mid & a' & rest & e & -> & H1 & H2 & H3).
      exists (a :: mid), a', rest, e. split; [reflexivity|].
      split; [exact H1|]. split; [exact H2|exact H3].
    + exists [], a, post, e. split; [reflexivity|].
      split; [exact Hb|]. split; [exact He|exact Hn].
Qed.

Lemma run_app a1 a2 s : run (a1 ++ a2) s = run a2 (run a1 s).
Proof. unfold run. apply foldl_app. Qed.

(** C2, as stated, fails for the [launching] status: after
    [two_requests], session [a] is running and request [b] already
    reports [launching], because the processor marks a request as
    launching before it closes the sessions of the previous ones. *)
Lemma C2_launching_while_previous_runs :
  let s := run two_requests init in
  get_browser_status s "a" = Some Rrunning
  /\ get_browser_status s "b" = Some Rlaunching
  /\ in_flight s "a" /\ in_flight s "b" /\ "a" <> "b"
  /\ ~ (forall b1 b2, in_flight s b1 -> in_flight s b2 -> b1 = b2).
Proof.
  cbv zeta.
  assert (Ea : get_browser_status (run two_requests init) "a" = Some Rrunning)
    by (vm_compute; reflexivity).
  assert (Eb : get_browser_status (run two_requests init) "b"
               = Some Rlaunching) by (vm_compute; reflexivity).
  assert (Ia : in_flight (run two_requests init) "a") by (right; exact Ea).
  assert (Ib : in_flight (run two_requests init) "b") by (left; exact Eb).
  repeat split; try assumption; try discriminate.
  intros H. specialize (H "a" "b" Ia Ib). discriminate.
Qed.

(** C2, amended.  After any schedule of steps of the queue processor and
    of the threads that submit and close sessions, starting from the empty
    service: at most one session is launched (tracked as a
    [StreamDetector], reported as running); whenever the processor is
    about to launch a request (to store its [StreamDetector] and start its
    browser), no launched session is tracked any more; and every session
    that was launched and started before has been untracked by a step in
    between that is one of three: the processor closed it
    ([close_browser] in [_ensure_chrome_closed]), another thread removed
    it, or a new request for the same browser id replaced its entry.  A
    request may report [launching] while the previous session is still
    running. *)
Theorem C2_single_launched_session (acts : list action) :
  let s := run acts init in
  (forall b1 b2,
      get_browser_status s b1 = Some Rrunning ->
      get_browser_status s b2 = Some Rrunning -> b1 = b2)
  /\ (forall bid, processor s = Installing bid ->
                  forall b, get_browser_status s b <> Some Rrunning)
  /\ (forall bid pre post b,
        acts = pre ++ post ->
        processor s = Installing bid ->
        launched (run pre init) b ->
        processor (run pre init) <> Starting b ->
        exists mid a rest e,
          post = mid ++ a :: rest
          /\ launched (run (pre ++ mid) init) b
          /\ ends b a (run (pre ++ mid) init) = Some e
          /\ ~ launched (run (pre ++ mid ++ [a]) init) b).
Proof.
  cbv zeta. destruct (queue_inv_run acts init queue_inv_init) as [Ha Hb].
  split; [|split].
  - intros b1 b2 H1 H2. apply Ha; apply running_launched; assumption.
  - intros bid Hp b H. unfold processor_inv in Hb. rewrite Hp in Hb.
    apply (Hb b), running_launched, H.
  - intros bid pre post b -> Hp Hl Hs.
    rewrite run_app in Hp, Hb. unfold processor_inv in Hb. rewrite Hp in Hb.
    destruct (session_ends b post (run pre init)
                (queue_inv_run pre init queue_inv_init) Hl Hs (Hb b))
      as (mid & a & rest & e & -> & H1 & H2 & H3).
    exists mid, a, rest, e. rewrite !run_app. rewrite run_app in H3.
    split; [reflexivity|]. split; [exact H1|]. split; [exact H2|exact H3].
Qed.

(** the second request of [two_requests], five steps later (snapshot,
    close [a], remove it, loop end, wait): the processor is about to
    launch [b] and [a] is gone *)
Example second_request_launches_alone :
  let s := run (two_requests
                  ++ [Work true; Work true; Work true; Work true; Work true])
               init in
  processor s = Installing "b"
  /\ get_browser_status s "a" = None
  /\ get_browser_status s "b" = Some Rlaunching.
Proof. cbv zeta. repeat apply conj; vm_compute; reflexivity. Qed.

(** [same_id_again]: the running session [a] is replaced by the
    placeholder of the second request, and the processor reaches the
    launch of that request without having closed a session *)
Example a_request_for_a_running_id_replaces_it :
  let before := run (take 9 same_id_again) init in
  launched before "a"
  /\ processor before = Idle
  /\ ends "a" (Place "a") before = Some Replaced
  /\ ~ launched (step (Place "a") before) "a"
  /\ processor (run same_id_again init) = Installing "a"
  /\ Forall (fun n => forall bid b todo,
                processor (run (take n same_id_again) init)
                <> ClosingDetector bid b todo)
       (seq 0 17).
Proof.
  cbv zeta. repeat apply conj; try (vm_compute; reflexivity).
  - vm_compute. discriminate.
  - repeat constructor; intros bid b todo; vm_compute; discriminate.
Qed.

(** ** Where a manual stop is served: [move_to_next_slot] *)

(** a daily window is shorter than a day and starts at the start clock *)
Lemma clock_window_shape now sh sm eh em :
  clock_ok sh sm -> clock_ok eh em ->
  let w := clock_window now sh sm eh em in
  end_dt w < start_dt w + PyTime.DAY
  /\ exists day, start_dt w = PyTime.combine day (PyTime.hm sh sm).
Proof.
  intros Hs He. cbv zeta.
  pose proof (PyTime_hm_range _ _ Hs) as Rs.
  pose proof (PyTime_hm_range _ _ He) as Re.
  unfold clock_window, daily_window.
  destruct ((eh <? sh) || ((eh =? sh) && (em <? sm))) eqn:Esp.
  - assert (Hlt : PyTime.hm eh em < PyTime.hm sh sm).
    { apply (PyTime_hm_lt _ _ _ _ He Hs).
      apply orb_true_iff in Esp as [H|H].
      - left. apply Z.ltb_lt, H.
      - apply andb_true_iff in H as [H1 H2]. right.
        split; [apply Z.eqb_eq, H1|apply Z.ltb_lt, H2]. }
    destruct (PyTime.time now <? PyTime.hm sh sm); cbn;
      (split; [unfold PyTime.combine, PyTime.days; lia|eexists; reflexivity]).
  - cbn. split; [unfold PyTime.combine; lia|eexists; reflexivity].
Qed.

(** a daily schedule found by [move_to_next_slot]: pending, flags
    cleared, next check at tomorrow's start *)
Lemma move_slot_daily O s sh sm :
  truthy (default VNone (cur s !! "daily")) = true ->
  cur s !! "start_time" = Some (VClock sh sm) ->
  clock_ok sh sm ->
  Scheduler.move_slot O s
  = (Ok tt,
     {| cur := <["next_check" :=
                   isoformat (PyTime.combine
                                (PyTime.date (now_at O (reads (wld s))) + 1)
                                (PyTime.hm sh sm))]>
               (<["manual_stop" := VBool false]>
                (<["active_browser_id" := VNone]>
                 (<["status" := VStr "pending"]> (cur s))));
        wld := wld (clocked s) |}).
Proof.
  intros Hd Ha Hs. unfold Scheduler.move_slot.
  do 3 (unfold bind at 1; cbn [setitem cur wld]).
  unfold bind at 1. rewrite get_value. cbn [cur].
  rewrite !lookup_insert_ne by discriminate. rewrite Hd.
  erewrite bind_ok
    by (apply getitem_some; cbn [cur];
        rewrite !lookup_insert_ne by discriminate; exact Ha).
  unfold bind, lift. cbn [split_clock datetime_now fst snd cur wld].
  rewrite (time_replace_ok _ _ Hs). reflexivity.
Qed.

(** the guard of lines 303-315 and 402-414: a schedule that is pending
    with its next check beyond the window end is left as it is *)
Lemma in_window_guarded O now b s t :
  cur s !! "status" = Some (VStr "pending") ->
  cur s !! "next_check" = Some (VIso t) ->
  now <= b -> b < t ->
  Scheduler.in_window O now b s = (Ok tt, s).
Proof.
  intros Hst Hnc H1 H2.
  assert (E1 : (t <=? b) = false) by (apply Z.leb_gt; lia).
  assert (E2 : (t <=? now) = false) by (apply Z.leb_gt; lia).
  assert (P1 : py_eq (VStr "pending") (VStr "download_started") = false)
    by (rewrite py_eq_str; reflexivity).
  assert (P2 : py_eq (VStr "pending") (VStr "active") = false)
    by (rewrite py_eq_str; reflexivity).
  unfold Scheduler.in_window, Scheduler.check_if_due, try_value_type, bind,
    getitem, get, lift, when, ret.
  repeat (progress
            (rewrite ?Hst, ?Hnc, ?P1, ?P2, ?E1, ?E2;
             cbn [negb default from_option id truthy fromisoformat];
             cbv beta iota)).
  reflexivity.
Qed.

Lemma before_window_guarded O now s t :
  cur s !! "status" = Some (VStr "pending") ->
  cur s !! "next_check" = Some (VIso t) ->
  now <= t ->
  Scheduler.before_window O now s = (Ok tt, s).
Proof.
  intros Hst Hnc H1. unfold Scheduler.before_window.
  unfold bind at 1. cbn [setitem].
  rewrite (insert_id _ _ _ Hst). rewrite pst_eta.
  assert (E1 : (t <? now) = false) by (apply Z.ltb_ge; lia).
  unfold try_value_type, bind, get, lift, when, ret.
  repeat (progress
            (rewrite ?Hnc, ?E1;
             cbn [negb default from_option id truthy fromisoformat];
             cbv beta iota)).
  reflexivity.
Qed.

(** after a manual stop of a daily schedule, no tick before the next
    check (tomorrow's start) changes the schedule or starts a check *)
Lemma stopped_daily_stays_pending O now s sh sm eh em day :
  truthy (default VNone (cur s !! "daily")) = true ->
  cur s !! "start_time" = Some (VClock sh sm) ->
  cur s !! "end_time" = Some (VClock eh em) ->
  clock_ok sh sm -> clock_ok eh em ->
  cur s !! "status" = Some (VStr "pending") ->
  cur s !! "next_check"
  = Some (isoformat (PyTime.combine day (PyTime.hm sh sm))) ->
  now < PyTime.combine day (PyTime.hm sh sm) ->
  Scheduler.check_one O now s = (Ok tt, s).
Proof.
  intros Hd Ha Hb Hs He Hst Hnc Hlt. unfold Scheduler.check_one.
  unfold bind at 1. rewrite get_value, Hd.
  unfold Scheduler._check_daily_schedule.
  rewrite (bind_ok _ _ _ _ _ (resolve_daily_ok now s sh sm eh em Ha Hb Hs He)).
  destruct (clock_window_shape now sh sm eh em Hs He) as [Hlen [d0 Hstart]].
  set (w := clock_window now sh sm eh em) in *.
  destruct (Z.leb_spec (start_dt w) now) as [H1|H1].
  - destruct (Z.leb_spec now (end_dt w)) as [H2|H2]; cbn [andb].
    + apply (in_window_guarded O now (end_dt w) s _ Hst Hnc H2).
      rewrite Hstart in *.
      unfold PyTime.combine, PyTime.DAY, PyTime.MINUTE in *. lia.
    + replace (now <? start_dt w) with false
        by (symmetry; apply Z.ltb_ge; lia).
      rewrite (bind_ok _ _ _ _ _ (getitem_some _ _ _ Hst)).
      reflexivity.
  - cbn [andb]. rewrite (proj2 (Z.ltb_lt _ _) H1).
    apply (before_window_guarded O now s _ Hst Hnc). lia.
Qed.

Lemma move_loop_found O sid browser_id l1 d l2 w :
  Forall (fun x => exists id, x !! "id" = Some id /\ id <> VStr sid) l1 ->
  d !! "id" = Some (VStr sid) ->
  d !! "active_browser_id" = Some (VStr browser_id) ->
  Scheduler.move_loop O sid browser_id (l1 ++ d :: l2) w
  = match Scheduler.move_slot O {| cur := d; wld := w |} with
    | (Ok _, s') => (Ok true, l1 ++ cur s' :: l2, wld s')
    | (Raise e, s') => (Raise e, l1 ++ cur s' :: l2, wld s')
    end.
Proof.
  intros Hl1 Hid Hb. induction Hl1 as [|x l1 (id & Hx & Hne) _ IH].
  - cbn [app Scheduler.move_loop]. rewrite Hid, Hb. cbn [default from_option id].
    unfold py_eq. rewrite !bool_decide_eq_true_2 by reflexivity.
    cbn [andb]. destruct (Scheduler.move_slot O _) as [[[]|e] s']; reflexivity.
  - cbn [app Scheduler.move_loop]. rewrite Hx.
    unfold py_eq at 1. rewrite bool_decide_eq_false_2 by exact Hne.
    cbn [andb]. rewrite IH.
    destruct (Scheduler.move_slot O _) as [[[]|e] s']; reflexivity.
Qed.

(** [move_to_next_slot] on the daily schedule that owns the browser id:
    the schedule becomes pending, both flags are cleared, the next check
    is tomorrow's start, and the list is saved *)
Lemma move_to_next_slot_daily O browser_id sid p0 ps l1 d l2 w sh sm :
  String.prefix "sched_" browser_id = true ->
  split_on "_"%char browser_id = p0 :: sid :: ps ->
  Forall (fun x => exists id, x !! "id" = Some id /\ id <> VStr sid) l1 ->
  d !! "id" = Some (VStr sid) ->
  d !! "active_browser_id" = Some (VStr browser_id) ->
  truthy (default VNone (d !! "daily")) = true ->
  d !! "start_time" = Some (VClock sh sm) ->
  clock_ok sh sm ->
  let d' :=
    <["next_check" :=
        isoformat (PyTime.combine (PyTime.date (now_at O (reads w)) + 1)
                                  (PyTime.hm sh sm))]>
    (<["manual_stop" := VBool false]>
     (<["active_browser_id" := VNone]>
      (<["status" := VStr "pending"]> d))) in
  Scheduler.move_to_next_slot O browser_id (l1 ++ d :: l2) w
  = (Ok true, l1 ++ d' :: l2, emit (Save (l1 ++ d' :: l2)) (tick_world w)).
Proof.
  intros Hp Hsplit Hl1 Hid Hb Hd Ha Hs. cbv zeta.
  unfold Scheduler.move_to_next_slot. rewrite Hp, Hsplit. cbn [negb].
  rewrite (move_loop_found O sid browser_id l1 d l2 w Hl1 Hid Hb).
  rewrite (move_slot_daily O {| cur := d; wld := w |} sh sm Hd Ha Hs).
  reflexivity.
Qed.

(** the download of [stopped_daily] is stopped by hand at 21:00 and the
    loop ticks afterwards: the schedule is pending with its next check at
    20:00 on the next day, and the tick starts no check *)
Example stop_then_tick :
  let O := still_oracle (PyTime.civil 2024 1 1 21 0) in
  let r1 := Scheduler.move_to_next_slot O stopped_browser_id [stopped_daily]
              world0 in
  let r2 := tick O SchedulerTick r1.1.2 r1.2 in
  r1.1.1 = Ok true
  /\ column "status" r1.1.2 = [VStr "pending"]
  /\ column "manual_stop" r1.1.2 = [VBool false]
  /\ column "next_check" r1.1.2 = [isoformat (PyTime.civil 2024 1 2 20 0)]
  /\ r2.1.1 = Ok tt
  /\ column "status" r2.1.2 = [VStr "pending"]
  /\ column "next_check" r2.1.2 = [isoformat (PyTime.civil 2024 1 2 20 0)]
  /\ map kind_of (trace r2.2) = [Saved; Saved].
Proof. cbv zeta. repeat apply conj; vm_compute; reflexivity. Qed.
(** ** More on the time calculators *)

Lemma PyTime_time_combine d t :
  0 <= t < PyTime.DAY -> PyTime.time (PyTime.combine d t) = t.
Proof.
  intros H. unfold PyTime.time, PyTime.combine.
  rewrite Z.add_comm, Z.mod_add by (unfold PyTime.DAY, PyTime.MINUTE; lia).
  apply Z.mod_small, H.
Qed.

Lemma PyTime_now_bounds now :
  PyTime.date now * PyTime.DAY <= now < (PyTime.date now + 1) * PyTime.DAY.
Proof.
  pose proof (PyTime_combine_date_time now) as E.
  pose proof (PyTime_time_range now) as R.
  unfold PyTime.combine in E. lia.
Qed.

Lemma resolve_daily_fst now s w :
  fst (resolve_daily now s) = Ok w ->
  exists sh sm eh em,
    cur s !! "start_time" = Some (VClock sh sm)
    /\ cur s !! "end_time" = Some (VClock eh em)
    /\ clock_ok sh sm /\ clock_ok eh em
    /\ w = clock_window now sh sm eh em
    /\ resolve_daily now s = (Ok w, s).
Proof.
  intros H. destruct (resolve_daily now s) as [r s'] eqn:E. cbn in H. subst r.
  destruct (resolve_daily_inv _ _ _ _ E) as (-> & sh & sm & eh & em & A & B & C & D & F).
  exists sh, sm, eh, em. repeat split; try assumption; apply C || apply D.
Qed.

Lemma spanning_bool sh sm eh em :
  clock_ok sh sm -> clock_ok eh em ->
  ((eh <? sh) || ((eh =? sh) && (em <? sm)) = true <-> spanning sh sm eh em)
  /\ (spanning sh sm eh em <-> PyTime.hm eh em < PyTime.hm sh sm).
Proof.
  intros Hs He. split.
  - unfold spanning. rewrite orb_true_iff, andb_true_iff, Z.ltb_lt, Z.eqb_eq, Z.ltb_lt.
    reflexivity.
  - unfold spanning. symmetry. apply (PyTime_hm_lt _ _ _ _ He Hs).
Qed.

(** the three shapes of a daily window *)
Lemma clock_window_cases now sh sm eh em :
  clock_ok sh sm -> clock_ok eh em ->
  let w := clock_window now sh sm eh em in
  let today := PyTime.date now in
  let st := PyTime.hm sh sm in
  let et := PyTime.hm eh em in
  (~ spanning sh sm eh em /\ st <= et
   /\ start_dt w = PyTime.combine today st
   /\ end_dt w = PyTime.combine today et
   /\ spans_midnight w = false)
  \/ (spanning sh sm eh em /\ et < st /\ PyTime.time now < st
      /\ start_dt w = PyTime.combine (today - 1) st
      /\ end_dt w = PyTime.combine today et
      /\ spans_midnight w = true)
  \/ (spanning sh sm eh em /\ et < st /\ st <= PyTime.time now
      /\ start_dt w = PyTime.combine today st
      /\ end_dt w = PyTime.combine (today + 1) et
      /\ spans_midnight w = true).
Proof.
  intros Hs He. cbv zeta.
  destruct (spanning_bool sh sm eh em Hs He) as [B1 B2].
  unfold clock_window, daily_window.
  destruct ((eh <? sh) || ((eh =? sh) && (em <? sm))) eqn:Esp.
  - assert (Hsp : spanning sh sm eh em) by (apply B1; reflexivity).
    pose proof (proj1 B2 Hsp) as Hlt.
    destruct (Z.ltb_spec (PyTime.time now) (PyTime.hm sh sm)) as [H|H]; cbn.
    + right. left. repeat split; try assumption.
    + right. right. repeat split; try assumption.
      unfold PyTime.combine, PyTime.days. lia.
  - left. assert (Hn : ~ spanning sh sm eh em).
    { intros Hsp. apply B1 in Hsp. congruence. }
    cbn. repeat split; try assumption.
    destruct (Z.le_gt_cases (PyTime.hm sh sm) (PyTime.hm eh em)) as [|C];
      [assumption|]. exfalso. apply Hn, B2. lia.
Qed.

(** X1: the window that a daily schedule resolves to at [now] is well
    formed: its start is not after its end, it is shorter than 24 hours,
    its start and its end fall on the clock times of [start_time] and
    [end_time], and it lies within 24 hours of [now] on either side. *)
Theorem daily_window_is_well_formed (now : Z) (s : pst) (w : window) :
  fst (resolve_daily now s) = Ok w ->
  exists sh sm eh em,
    cur s !! "start_time" = Some (VClock sh sm)
    /\ cur s !! "end_time" = Some (VClock eh em)
    /\ start_dt w <= end_dt w < start_dt w + PyTime.days 1
    /\ PyTime.time (start_dt w) = PyTime.hm sh sm
    /\ PyTime.time (end_dt w) = PyTime.hm eh em
    /\ now - PyTime.days 1 < start_dt w
    /\ end_dt w < now + PyTime.days 1.
Proof.
  intros H.
  destruct (resolve_daily_fst _ _ _ H) as (sh & sm & eh & em & A & B & Hs & He & -> & _).
  exists sh, sm, eh, em. split; [exact A|]. split; [exact B|].
  pose proof (PyTime_hm_range _ _ Hs) as Rs.
  pose proof (PyTime_hm_range _ _ He) as Re.
  pose proof (PyTime_now_bounds now) as Rn.
  pose proof (PyTime_time_range now) as Rt.
  pose proof (PyTime_combine_date_time now) as En.
  destruct (clock_window_cases now sh sm eh em Hs He)
    as [(_ & L & -> & -> & _)|[(_ & L & T & -> & -> & _)|(_ & L & T & -> & -> & _)]];
    rewrite !PyTime_time_combine by assumption;
    unfold PyTime.combine, PyTime.days in *; repeat split; lia.
Qed.

Lemma daily_window_is_well_formed_witness :
  let now := PyTime.civil 2024 1 1 0 30 in
  let s := on (daily_schedule "pending" 23 0 1 0 VNone) in
  exists sh sm eh em,
    cur s !! "start_time" = Some (VClock sh sm)
    /\ cur s !! "end_time" = Some (VClock eh em)
    /\ start_dt (clock_window now 23 0 1 0)
       <= end_dt (clock_window now 23 0 1 0)
       < start_dt (clock_window now 23 0 1 0) + PyTime.days 1
    /\ PyTime.time (start_dt (clock_window now 23 0 1 0)) = PyTime.hm sh sm
    /\ PyTime.time (end_dt (clock_window now 23 0 1 0)) = PyTime.hm eh em
    /\ now - PyTime.days 1 < start_dt (clock_window now 23 0 1 0)
    /\ end_dt (clock_window now 23 0 1 0) < now + PyTime.days 1.
Proof.
  exact (daily_window_is_well_formed (PyTime.civil 2024 1 1 0 30)
           (on (daily_schedule "pending" 23 0 1 0 VNone))
           (clock_window (PyTime.civil 2024 1 1 0 30) 23 0 1 0) eq_refl).
Defined.

(** the window of a daily schedule with two valid clock strings *)
Lemma resolve_daily_clock now s sh sm eh em :
  cur s !! "start_time" = Some (VClock sh sm) ->
  cur s !! "end_time" = Some (VClock eh em) ->
  clock_ok sh sm -> clock_ok eh em ->
  resolve Daily now s
  = (Ok (start_dt (clock_window now sh sm eh em),
         end_dt (clock_window now sh sm eh em)), s).
Proof.
  intros A B Hs He. unfold resolve.
  rewrite (bind_ok _ _ _ _ _ (resolve_daily_ok now s sh sm eh em A B Hs He)).
  reflexivity.
Qed.

(** X2: a daily window is open at [now] exactly when the clock time of
    [now] lies between the start and the end clock, for a same-day window,
    and at or after the start clock or at or before the end clock, for a
    window that spans midnight.  The window is still to come only for a
    same-day window and a clock time before its start: a window that spans
    midnight has always started. *)
Theorem daily_window_open_iff (now : Z) (s : pst) (sh sm eh em a b : Z) :
  cur s !! "start_time" = Some (VClock sh sm) ->
  cur s !! "end_time" = Some (VClock eh em) ->
  fst (resolve Daily now s) = Ok (a, b) ->
  let clock := PyTime.time now in
  let st := PyTime.hm sh sm in
  let et := PyTime.hm eh em in
  (a <= now <= b
   <-> if (eh <? sh) || ((eh =? sh) && (em <? sm))
       then st <= clock \/ clock <= et
       else st <= clock <= et)
  /\ (now < a <-> clock < st /\ st <= et).
Proof.
  intros A B H. cbv zeta.
  apply resolve_fst in H.
  destruct (resolve_daily_of_resolve now s a b H) as (w & Ew & <- & <-).
  destruct (resolve_daily_inv _ _ _ _ Ew) as (_ & sh' & sm' & eh' & em' & A' & B' & Hs & He & ->).
  rewrite A in A'. rewrite B in B'. injection A' as <- <-. injection B' as <- <-.
  pose proof (PyTime_hm_range _ _ Hs) as Rs.
  pose proof (PyTime_hm_range _ _ He) as Re.
  pose proof (PyTime_time_range now) as Rt.
  pose proof (PyTime_combine_date_time now) as En.
  destruct (spanning_bool sh sm eh em Hs He) as [B1 B2].
  destruct (clock_window_cases now sh sm eh em Hs He)
    as [(N & L & -> & -> & _)|[(N & L & T & -> & -> & _)|(N & L & T & -> & -> & _)]].
  - replace ((eh <? sh) || ((eh =? sh) && (em <? sm))) with false
      by (symmetry; apply not_true_is_false; intros C; apply N, B1, C).
    unfold PyTime.combine in *. split; split; lia.
  - rewrite (proj2 B1 N). unfold PyTime.combine in *. split; split; lia.
  - rewrite (proj2 B1 N). unfold PyTime.combine in *. split; split; lia.
Qed.

Lemma daily_window_open_iff_witness :
  let now := PyTime.civil 2024 1 1 22 0 in
  let s := on (daily_schedule "pending" 23 0 1 0 VNone) in
  let a := PyTime.civil 2023 12 31 23 0 in
  let b := PyTime.civil 2024 1 1 1 0 in
  (a <= now <= b
   <-> PyTime.hm 23 0 <= PyTime.time now \/ PyTime.time now <= PyTime.hm 1 0)
  /\ (now < a <-> PyTime.time now < PyTime.hm 23 0 /\ PyTime.hm 23 0 <= PyTime.hm 1 0).
Proof.
  exact (daily_window_open_iff (PyTime.civil 2024 1 1 22 0)
           (on (daily_schedule "pending" 23 0 1 0 VNone)) 23 0 1 0
           (PyTime.civil 2023 12 31 23 0) (PyTime.civil 2024 1 1 1 0)
           eq_refl eq_refl eq_refl).
Defined.

(** after its window a daily schedule is given the start of the next
    one, which is one day after the start of the window that passed *)
Lemma daily_calc_after (O : oracle) (now : Z) (s : pst) (a b : Z) :
  resolve Daily now s = (Ok (a, b), s) ->
  b < now ->
  snd (calculate_next_check O Daily now s)
  = set_next (VIso (a + PyTime.days 1)) s
  /\ a <= now < a + PyTime.days 1.
Proof.
  intros H Hb.
  destruct (resolve_daily_of_resolve now s a b H) as (w & Ew & <- & <-).
  destruct (resolve_daily_inv _ _ _ _ Ew) as (_ & sh & sm & eh & em & A & B & Hs & He & ->).
  unfold calculate_next_check. rewrite (daily_calc O now s _ Ew). cbn [snd].
  pose proof (PyTime_hm_range _ _ Hs) as Rs.
  pose proof (PyTime_hm_range _ _ He) as Re.
  pose proof (PyTime_time_range now) as Rt.
  pose proof (PyTime_combine_date_time now) as En.
  unfold daily_next.
  set (w := clock_window now sh sm eh em) in *.
  assert (Hw : start_clock w = PyTime.hm sh sm).
  { unfold w, clock_window, daily_window.
    repeat match goal with |- context [if ?c then _ else _] => destruct c end;
      reflexivity. }
  assert (Hnext :
    (if spans_midnight w && (PyTime.time now <? start_clock w)
     then PyTime.combine (PyTime.date now) (start_clock w)
     else PyTime.combine (PyTime.date now + 1) (start_clock w))
    = start_dt w + PyTime.days 1
    /\ start_dt w <= now /\ now < start_dt w + PyTime.days 1).
  { rewrite Hw.
    destruct (clock_window_cases now sh sm eh em Hs He)
      as [(N & L & E1 & E2 & E3)|[(N & L & T & E1 & E2 & E3)|(N & L & T & E1 & E2 & E3)]];
      fold w in E1, E2, E3; rewrite E1, E3; rewrite E2 in Hb; cbn [andb].
    - unfold PyTime.combine, PyTime.days in *. repeat split; lia.
    - rewrite (proj2 (Z.ltb_lt _ _) T).
      unfold PyTime.combine, PyTime.days in *. repeat split; lia.
    - exfalso. unfold PyTime.combine in *. lia. }
  destruct Hnext as (Hnext & Hstart & Hfuture).
  replace (now <? start_dt w) with false by (symmetry; apply Z.ltb_ge; lia).
  replace (now <=? end_dt w) with false by (symmetry; apply Z.leb_gt; lia).
  rewrite andb_false_r. rewrite Hnext. split; [reflexivity|lia].
Qed.

(** X3: when the window of a daily schedule has passed,
    [calculate_next_check] sets [next_check] to the start of that window
    plus one day, which is after [now] and at most 24 hours ahead; it draws
    nothing and changes no other field. *)
Theorem daily_next_check_after_window (O : oracle) (now : Z) (s : pst)
    (a b : Z) :
  fst (resolve Daily now s) = Ok (a, b) ->
  b < now ->
  let s' := snd (calculate_next_check O Daily now s) in
  cur s' !! "next_check" = Some (isoformat (a + PyTime.days 1))
  /\ now < a + PyTime.days 1 <= now + PyTime.days 1
  /\ wld s' = wld s
  /\ forall k, k <> "next_check" -> cur s' !! k = cur s !! k.
Proof.
  intros H Hb. cbv zeta. apply resolve_fst in H.
  destruct (daily_calc_after O now s a b H Hb) as [-> R].
  unfold set_next. cbn [cur wld].
  split; [apply lookup_insert_eq|].
  split; [lia|]. split; [reflexivity|].
  intros k Hk. apply lookup_insert_ne. congruence.
Qed.

Lemma daily_next_check_after_window_witness :
  let now := PyTime.civil 2024 1 1 22 30 in
  let s := on (daily_schedule "active" 20 0 22 0 VNone) in
  let s' := snd (calculate_next_check (still_oracle now) Daily now s) in
  cur s' !! "next_check" = Some (isoformat (PyTime.civil 2024 1 2 20 0))
  /\ now < PyTime.civil 2024 1 2 20 0 <= now + PyTime.days 1.
Proof.
  pose proof (daily_next_check_after_window
                (still_oracle (PyTime.civil 2024 1 1 22 30))
                (PyTime.civil 2024 1 1 22 30)
                (on (daily_schedule "active" 20 0 22 0 VNone))
                (PyTime.civil 2024 1 1 20 0) (PyTime.civil 2024 1 1 22 0)
                eq_refl eq_refl) as H.
  cbv zeta in H. destruct H as (H1 & H2 & _). split; [exact H1|exact H2].
Defined.

(** X4: [calculate_next_check] never sets a next check in the past: with a
    draw that is not negative, what it writes is a time at or after [now],
    or [None], and [None] only for a regular schedule whose window has
    passed. *)
Theorem next_check_is_not_in_the_past (O : oracle) (v : variant) (now : Z)
    (s : pst) (a b : Z) :
  fst (resolve v now s) = Ok (a, b) ->
  0 <= delay_at O (draws (wld s)) ->
  let s' := snd (calculate_next_check O v now s) in
  (v = Regular /\ b < now /\ cur s' !! "next_check" = Some VNone)
  \/ (exists t, cur s' !! "next_check" = Some (isoformat t) /\ now <= t).
Proof.
  intros H Hd. cbv zeta.
  pose proof (resolve_fst _ _ _ _ _ H) as E.
  destruct (Z.lt_ge_cases now a) as [C1|C1].
  - right. exists a. rewrite (calc_before O v now s a b E C1).
    split; [apply lookup_insert_eq|lia].
  - destruct (Z.le_gt_cases now b) as [C2|C2].
    + right. eexists. rewrite (calc_inside O v now s a b E (conj C1 C2)).
      split; [apply lookup_insert_eq|]. lia.
    + destruct v.
      * right. exists (a + PyTime.days 1).
        destruct (daily_calc_after O now s a b E C2) as [-> R].
        split; [apply lookup_insert_eq|lia].
      * left. split; [reflexivity|]. split; [lia|].
        apply resolve_regular_inv in E as (_ & A & B).
        unfold calculate_next_check. rewrite (regular_calc O now s a b A B).
        cbn [snd]. unfold regular_next.
        replace (now <? a) with false by (symmetry; apply Z.ltb_ge; lia).
        replace (now <=? b) with false by (symmetry; apply Z.leb_gt; lia).
        rewrite andb_false_r. apply lookup_insert_eq.
Qed.

Lemma next_check_is_not_in_the_past_witness :
  let now := PyTime.civil 2024 1 1 11 55 in
  let s := on (regular_schedule "active" (PyTime.civil 2024 1 1 10 0)
                 (PyTime.civil 2024 1 1 12 0) false VNone) in
  let s' := snd (calculate_next_check (still_oracle now) Regular now s) in
  (Regular = Regular /\ PyTime.civil 2024 1 1 12 0 < now
   /\ cur s' !! "next_check" = Some VNone)
  \/ (exists t, cur s' !! "next_check" = Some (isoformat t) /\ now <= t).
Proof.
  apply (next_check_is_not_in_the_past
           (still_oracle (PyTime.civil 2024 1 1 11 55)) Regular
           (PyTime.civil 2024 1 1 11 55)
           (on (regular_schedule "active" (PyTime.civil 2024 1 1 10 0)
                  (PyTime.civil 2024 1 1 12 0) false VNone))
           (PyTime.civil 2024 1 1 10 0) (PyTime.civil 2024 1 1 12 0) eq_refl).
  vm_compute. discriminate.
Defined.

Lemma calc_result O v now s a b :
  resolve v now s = (Ok (a, b), s) ->
  fst (calculate_next_check O v now s) = log_result (cur s).
Proof.
  intros H. destruct v.
  - destruct (resolve_daily_of_resolve now s a b H) as (w & Ew & _).
    unfold calculate_next_check. rewrite (daily_calc O now s w Ew). reflexivity.
  - apply resolve_regular_inv in H as (_ & A & B).
    unfold calculate_next_check. rewrite (regular_calc O now s a b A B).
    reflexivity.
Qed.

Lemma check_schedule_inside O v now s a b st :
  resolve v now s = (Ok (a, b), s) ->
  a <= now <= b ->
  cur s !! "status" = Some st ->
  check_schedule O v now s = checked_inside now s.
Proof.
  intros H [H1 H2] Hst.
  assert (C1 : (a <=? now) = true) by (apply Z.leb_le; lia).
  assert (C2 : (now <=? b) = true) by (apply Z.leb_le; lia).
  assert (C3 : (now >? b) = false) by (rewrite Z.gtb_ltb; apply Z.ltb_ge; lia).
  assert (Blk :
    (status <- getitem "status" ;;
     if py_eq status (VStr "download_started") then ret false
     else
       status <- getitem "status" ;;
       let was_pending := py_eq status (VStr "pending") in
       setitem "status" (VStr "active") ;;;
       next_check <- get "next_check" ;;
       if was_pending || negb (truthy next_check) then ret true
       else
         t <- lift (fromisoformat next_check) ;;
         ret (t <=? now)) s = checked_inside now s).
  { unfold checked_inside. rewrite Hst. cbn [default from_option id].
    rewrite (bind_ok _ _ _ _ _ (getitem_some _ _ _ Hst)).
    destruct (py_eq st (VStr "download_started")); [reflexivity|].
    rewrite (bind_ok _ _ _ _ _ (getitem_some _ _ _ Hst)).
    cbv zeta. unfold bind at 1. cbn [setitem].
    unfold bind at 1. rewrite get_value. cbn [cur].
    rewrite lookup_insert_ne by discriminate.
    destruct (py_eq st (VStr "pending") || negb (truthy _)); [reflexivity|].
    unfold bind, lift, ret. destruct (fromisoformat _); reflexivity. }
  destruct v.
  - destruct (resolve_daily_of_resolve now s a b H) as (w & Ew & <- & <-).
    unfold check_schedule, DailyTimeCalculator.check_schedule.
    rewrite (bind_ok _ _ _ _ _ Ew). rewrite C1, C2. cbn [andb]. exact Blk.
  - unfold check_schedule, RegularTimeCalculator.check_schedule.
    unfold resolve in H. rewrite (bind_ok _ _ _ _ _ H).
    cbv beta iota. rewrite C3, C1, C2. cbn [andb]. exact Blk.
Qed.

Lemma bind_ret_false {A} (c : M A) s : fst ((c ;;; ret false) s) <> Ok true.
Proof.
  unfold bind, ret. destruct (c s) as [[x|e] s']; cbn; discriminate.
Qed.

Lemma check_schedule_outside O v now s a b :
  resolve v now s = (Ok (a, b), s) ->
  ~ (a <= now <= b) ->
  fst (check_schedule O v now s) <> Ok true.
Proof.
  intros H Hout.
  assert (C : (a <=? now) && (now <=? b) = false).
  { apply andb_false_iff. rewrite !Z.leb_gt. lia. }
  destruct v.
  - destruct (resolve_daily_of_resolve now s a b H) as (w & Ew & <- & <-).
    unfold check_schedule, DailyTimeCalculator.check_schedule.
    rewrite (bind_ok _ _ _ _ _ Ew). rewrite C.
    destruct (now <? start_dt w).
    + unfold bind at 1. cbn [setitem]. unfold bind at 1. rewrite get_value.
      apply bind_ret_false.
    + unfold bind at 1. destruct (getitem "status" s) as [[x|e] s'];
        [|cbn; discriminate].
      apply bind_ret_false.
  - unfold check_schedule, RegularTimeCalculator.check_schedule.
    unfold resolve in H. rewrite (bind_ok _ _ _ _ _ H). cbv beta iota.
    destruct (now >? b); [cbn; discriminate|]. rewrite C.
    destruct (now <? a); [|cbn; discriminate].
    unfold bind at 1. cbn [setitem]. unfold bind at 1. rewrite get_value.
    apply bind_ret_false.
Qed.

(** X5: [check_schedule] of a calculator answers [True] exactly when [now]
    is inside the window, the status is not ['download_started'], and the
    schedule was pending, has no next check, or its next check has come;
    the only change it then makes is the status ['active']. *)
Theorem check_schedule_true_iff (O : oracle) (v : variant) (now : Z)
    (s : pst) (a b : Z) (st : value) :
  fst (resolve v now s) = Ok (a, b) ->
  cur s !! "status" = Some st ->
  let next_check := default VNone (cur s !! "next_check") in
  let r := check_schedule O v now s in
  (fst r = Ok true
   <-> a <= now <= b
       /\ st <> VStr "download_started"
       /\ (st = VStr "pending" \/ truthy next_check = false
           \/ exists t, next_check = VIso t /\ t <= now))
  /\ (fst r = Ok true ->
      snd r = {| cur := <["status" := VStr "active"]> (cur s);
                 wld := wld s |}).
Proof.
  intros H Hst. cbv zeta. apply resolve_fst in H.
  destruct (Z.le_gt_cases a now) as [H1|H1];
    [destruct (Z.le_gt_cases now b) as [H2|H2]|].
  2,3: (pose proof (check_schedule_outside O v now s a b H ltac:(lia)) as N;
        split; [split; [intros C; contradiction|intros [C _]; lia]
               |intros C; contradiction]).
  rewrite (check_schedule_inside O v now s a b st H (conj H1 H2) Hst).
  unfold checked_inside. rewrite Hst. cbn [default from_option id].
  unfold py_eq.
  destruct (decide (st = VStr "download_started")) as [D|D].
  { rewrite bool_decide_eq_true_2 by exact D. cbn [fst snd].
    split; [split; [discriminate|intros (_ & C & _); contradiction]
           |discriminate]. }
  rewrite (bool_decide_eq_false_2 _ D).
  destruct (decide (st = VStr "pending")) as [P|P].
  { rewrite (bool_decide_eq_true_2 _ P). cbn [orb fst snd].
    split; [split; [intros _; repeat split; auto; lia|reflexivity]
           |reflexivity]. }
  rewrite (bool_decide_eq_false_2 _ P). cbn [orb].
  destruct (truthy (default VNone (cur s !! "next_check"))) eqn:T; cbn [negb].
  2: { cbn [fst snd]. split; [split; [intros _; repeat split; auto; lia
                                     |reflexivity]|reflexivity]. }
  destruct (default VNone (cur s !! "next_check")) as [|x|x|t|h m] eqn:Enc;
    cbn [fromisoformat fst snd].
  1,2,3,5: (split; [split; [discriminate|]|discriminate];
            intros (_ & _ & [C|[C|(t & C & _)]]);
            [contradiction|discriminate|discriminate]).
  split; [|reflexivity].
  split.
  - intros C. injection C as C. apply Z.leb_le in C.
    repeat split; auto. right. right. exists t. split; [reflexivity|exact C].
  - intros (_ & _ & [C|[C|(t' & C & L)]]); [contradiction|discriminate|].
    injection C as ->. f_equal. apply Z.leb_le, L.
Qed.

Lemma check_schedule_true_iff_witness :
  let now := PyTime.civil 2024 1 1 11 0 in
  let a := PyTime.civil 2024 1 1 10 0 in
  let b := PyTime.civil 2024 1 1 12 0 in
  let s := on (regular_schedule "pending" a b false (isoformat b)) in
  let r := check_schedule (still_oracle now) Regular now s in
  (fst r = Ok true
   <-> a <= now <= b
       /\ VStr "pending" <> VStr "download_started"
       /\ (VStr "pending" = VStr "pending"
           \/ truthy (default VNone (cur s !! "next_check")) = false
           \/ exists t, default VNone (cur s !! "next_check") = VIso t
                        /\ t <= now))
  /\ (fst r = Ok true ->
      snd r = {| cur := <["status" := VStr "active"]> (cur s);
                 wld := wld s |}).
Proof.
  exact (check_schedule_true_iff (still_oracle (PyTime.civil 2024 1 1 11 0))
           Regular (PyTime.civil 2024 1 1 11 0)
           (on (regular_schedule "pending" (PyTime.civil 2024 1 1 10 0)
                  (PyTime.civil 2024 1 1 12 0) false
                  (isoformat (PyTime.civil 2024 1 1 12 0))))
           (PyTime.civil 2024 1 1 10 0) (PyTime.civil 2024 1 1 12 0)
           (VStr "pending") eq_refl eq_refl).
Defined.

Lemma log_result_id d : is_Some (d !! "id") -> log_result d = Ok tt.
Proof. intros [x E]. unfold log_result. rewrite E. reflexivity. Qed.

Lemma same_window_status v s :
  same_window {| cur := <["status" := v]> (cur s); wld := wld s |} s.
Proof. split; cbn [cur]; apply lookup_insert_ne; discriminate. Qed.

(** a calculator run before the window: the next check is the start *)
Lemma calc_before_run O v now s a b :
  resolve v now s = (Ok (a, b), s) -> now < a ->
  is_Some (cur s !! "id") ->
  calculate_next_check O v now s = (Ok tt, set_next (VIso a) s).
Proof.
  intros H Hlt Hid.
  rewrite (surjective_pairing (calculate_next_check O v now s)).
  rewrite (calc_result O v now s a b H), (calc_before O v now s a b H Hlt).
  rewrite (log_result_id _ Hid). reflexivity.
Qed.

(** X6: before the window of a schedule that has an id and whose next
    check is missing or readable, [check_schedule] answers [False] and
    leaves the schedule pending with its next check at the start of the
    window; nothing else changes. *)
Theorem check_schedule_before_window (O : oracle) (v : variant) (now : Z)
    (s : pst) (a b : Z) :
  fst (resolve v now s) = Ok (a, b) ->
  now < a -> a <= b ->
  is_Some (cur s !! "id") ->
  (truthy (default VNone (cur s !! "next_check")) = false
   \/ exists t, cur s !! "next_check" = Some (VIso t)) ->
  check_schedule O v now s
  = (Ok false,
     {| cur := <["next_check" := isoformat a]>
               (<["status" := VStr "pending"]> (cur s));
        wld := wld s |}).
Proof.
  intros H Hlt Hab Hid Hnc. apply resolve_fst in H.
  set (s1 := {| cur := <["status" := VStr "pending"]> (cur s); wld := wld s |}).
  assert (H1 : resolve v now s1 = (Ok (a, b), s1))
    by (apply (resolve_same v now s s1 a b H), same_window_status).
  assert (Hid1 : is_Some (cur s1 !! "id"))
    by (cbn [s1 cur]; rewrite lookup_insert_ne by discriminate; exact Hid).
  pose proof (calc_before_run O v now s1 a b H1 Hlt Hid1) as Hcalc.
  assert (C : (a <=? now) && (now <=? b) = false)
    by (apply andb_false_iff; left; apply Z.leb_gt; lia).
  assert (Blk :
    (setitem "status" (VStr "pending") ;;;
     next_check <- get "next_check" ;;
     (if negb (truthy next_check) then calculate_next_check O v now
      else
        t <- lift (fromisoformat next_check) ;;
        when (negb (t =? a)) (calculate_next_check O v now)) ;;;
     ret false) s
    = (Ok false, set_next (VIso a) s1)).
  { unfold bind at 1. cbn [setitem]. fold s1.
    unfold bind at 1. rewrite get_value.
    replace (cur s1 !! "next_check") with (cur s !! "next_check")
      by (cbn [s1 cur]; rewrite lookup_insert_ne by discriminate; reflexivity).
    destruct Hnc as [F|[t Et]].
    - rewrite F. cbn [negb]. unfold bind. rewrite Hcalc. reflexivity.
    - rewrite Et. cbn [default from_option id truthy negb].
      unfold bind at 1. unfold bind at 1. cbn [lift fromisoformat].
      destruct (Z.eqb_spec t a) as [->|Ne]; cbn [negb when].
      + cbn [ret]. f_equal. unfold set_next. f_equal.
        symmetry. apply insert_id. cbn [s1 cur].
        rewrite lookup_insert_ne by discriminate. exact Et.
      + rewrite Hcalc. reflexivity. }
  destruct v.
  - destruct (resolve_daily_of_resolve now s a b H) as (w & Ew & <- & <-).
    unfold check_schedule, DailyTimeCalculator.check_schedule.
    rewrite (bind_ok _ _ _ _ _ Ew). rewrite C.
    rewrite (proj2 (Z.ltb_lt _ _) Hlt). exact Blk.
  - unfold check_schedule, RegularTimeCalculator.check_schedule.
    unfold resolve in H. rewrite (bind_ok _ _ _ _ _ H). cbv beta iota.
    replace (now >? b) with false.
    2: { symmetry. rewrite Z.gtb_ltb. apply Z.ltb_ge.
         lia. }
    rewrite C. rewrite (proj2 (Z.ltb_lt _ _) Hlt). exact Blk.
Qed.

Lemma check_schedule_before_window_witness :
  let now := PyTime.civil 2024 1 1 9 0 in
  let a := PyTime.civil 2024 1 1 10 0 in
  let b := PyTime.civil 2024 1 1 12 0 in
  let s := on (regular_schedule "active" a b false VNone) in
  check_schedule (still_oracle now) Regular now s
  = (Ok false,
     {| cur := <["next_check" := isoformat a]>
               (<["status" := VStr "pending"]> (cur s));
        wld := wld s |}).
Proof.
  apply (check_schedule_before_window
           (still_oracle (PyTime.civil 2024 1 1 9 0)) Regular
           (PyTime.civil 2024 1 1 9 0)
           (on (regular_schedule "active" (PyTime.civil 2024 1 1 10 0)
                  (PyTime.civil 2024 1 1 12 0) false VNone))
           (PyTime.civil 2024 1 1 10 0) (PyTime.civil 2024 1 1 12 0)
           eq_refl eq_refl).
  - vm_compute. discriminate.
  - eexists. reflexivity.
  - left. reflexivity.
Defined.

(** X7: after the window, [DailyTimeCalculator.check_schedule] answers
    [False]; an active or download_started schedule becomes pending, its
    [last_check] is cleared and its next check is the start of the window
    that passed plus one day; any other schedule is left as it is. *)
Theorem daily_check_after_window (O : oracle) (now : Z) (s : pst)
    (a b : Z) (st : value) :
  fst (resolve Daily now s) = Ok (a, b) ->
  b < now ->
  cur s !! "status" = Some st ->
  is_Some (cur s !! "id") ->
  DailyTimeCalculator.check_schedule O now s
  = (Ok false,
     if active_or_started st
     then {| cur := <["next_check" := isoformat (a + PyTime.days 1)]>
                    (<["last_check" := VNone]>
                     (<["status" := VStr "pending"]> (cur s)));
             wld := wld s |}
     else s).
Proof.
  intros H Hb Hst Hid. apply resolve_fst in H.
  destruct (daily_calc_after O now s a b H Hb) as [_ [Ha _]].
  destruct (resolve_daily_of_resolve now s a b H) as (w & Ew & <- & <-).
  rewrite (daily_check_passed O now s w st Ew Ha Hb Hst).
  destruct (active_or_started st); [|reflexivity].
  set (s1 := {| cur := <["last_check" := VNone]>
                       (<["status" := VStr "pending"]> (cur s));
                wld := wld s |}).
  assert (H1 : resolve Daily now s1 = (Ok (start_dt w, end_dt w), s1)).
  { apply (resolve_same Daily now s s1 _ _ H).
    split; cbn [s1 cur]; rewrite !lookup_insert_ne by discriminate;
      reflexivity. }
  assert (Hid1 : is_Some (cur s1 !! "id"))
    by (cbn [s1 cur]; rewrite !lookup_insert_ne by discriminate; exact Hid).
  pose proof (calc_result O Daily now s1 _ _ H1) as R.
  destruct (daily_calc_after O now s1 _ _ H1 Hb) as [S _].
  unfold calculate_next_check in R, S. unfold bind.
  destruct (DailyTimeCalculator.calculate_next_check O now s1) as [r s2].
  cbn [fst snd] in R, S. subst r s2. rewrite (log_result_id _ Hid1).
  reflexivity.
Qed.

Lemma daily_check_after_window_witness :
  let now := PyTime.civil 2024 1 1 22 30 in
  let s := on (daily_schedule "download_started" 20 0 22 0 VNone) in
  DailyTimeCalculator.check_schedule (still_oracle now) now s
  = (Ok false,
     {| cur := <["next_check" := isoformat (PyTime.civil 2024 1 1 20 0
                                            + PyTime.days 1)]>
               (<["last_check" := VNone]>
                (<["status" := VStr "pending"]> (cur s)));
        wld := wld s |}).
Proof.
  apply (daily_check_after_window
           (still_oracle (PyTime.civil 2024 1 1 22 30))
           (PyTime.civil 2024 1 1 22 30)
           (on (daily_schedule "download_started" 20 0 22 0 VNone))
           (PyTime.civil 2024 1 1 20 0) (PyTime.civil 2024 1 1 22 0)
           (VStr "download_started") eq_refl eq_refl eq_refl).
  eexists. reflexivity.
Defined.

(** ** The two loops inside the window *)

(** the executor's body: it asks the calculator of the schedule's variant *)
Lemma execute_one_open O now s a b :
  resolve (variant_of (cur s)) now s = (Ok (a, b), s) ->
  now <= b ->
  ScheduleExecutor.execute_one O now s
  = (should_execute <- check_schedule O (variant_of (cur s)) now ;;
     when should_execute (ScheduleExecutor._perform_check O)) s.
Proof.
  intros H Hb. unfold ScheduleExecutor.execute_one.
  unfold bind at 1. rewrite get_value.
  unfold variant_of in *.
  destruct (truthy (default VNone (cur s !! "daily"))); [reflexivity|].
  unfold resolve in H. rewrite (bind_ok _ _ _ _ _ H). cbv beta iota.
  replace (now >? b) with false
    by (symmetry; rewrite Z.gtb_ltb; apply Z.ltb_ge; lia).
  reflexivity.
Qed.

(** X8: inside the window a schedule whose status is ['download_started']
    is left exactly as it is and no check is started: by the executor's
    loop always, by the scheduler's loop as long as the recorded download
    is still active. *)
Theorem download_in_progress_is_left_alone (O : oracle) (k : tick_kind)
    (now : Z) (s : pst) (a b : Z) :
  fst (resolve (variant_of (cur s)) now s) = Ok (a, b) ->
  a <= now <= b ->
  cur s !! "status" = Some (VStr "download_started") ->
  (k = SchedulerTick ->
   Scheduler._is_download_active O
     (default VNone (cur s !! "active_browser_id")) = true) ->
  tick_body O k now s = (Ok tt, s).
Proof.
  intros H Hin Hst Hact. apply resolve_fst in H. destruct k; cbn [tick_body].
  - rewrite (check_one_in_window O now s a b H Hin).
    unfold Scheduler.in_window.
    rewrite (bind_ok _ _ _ _ _ (getitem_some _ _ _ Hst)).
    rewrite py_eq_str. cbn [String.eqb Ascii.eqb Bool.eqb andb].
    change (String.eqb "download_started" "download_started") with true.
    cbv iota.
    unfold bind at 1. unfold bind at 1. rewrite get_value.
    rewrite (Hact eq_refl). reflexivity.
  - rewrite (execute_one_open O now s a b H (proj2 Hin)).
    unfold bind.
    rewrite (check_schedule_inside O _ now s a b _ H Hin Hst).
    unfold checked_inside. rewrite Hst. cbn [default from_option id].
    rewrite py_eq_str.
    change (String.eqb "download_started" "download_started") with true.
    reflexivity.
Qed.

Lemma download_in_progress_is_left_alone_witness :
  let now := PyTime.civil 2024 1 1 21 0 in
  tick_body (still_oracle now) ExecutorTick now (on stopped_daily)
  = (Ok tt, on stopped_daily).
Proof.
  apply (download_in_progress_is_left_alone
           (still_oracle (PyTime.civil 2024 1 1 21 0)) ExecutorTick
           (PyTime.civil 2024 1 1 21 0) (on stopped_daily)
           (PyTime.civil 2024 1 1 20 0) (PyTime.civil 2024 1 1 22 0)
           eq_refl).
  - split; vm_compute; discriminate.
  - reflexivity.
  - discriminate.
Defined.

Lemma resolved_well_timed now s a b :
  resolve (variant_of (cur s)) now s = (Ok (a, b), s) ->
  exists st et,
    cur s !! "start_time" = Some st /\ cur s !! "end_time" = Some et
    /\ well_timed (default VNone (cur s !! "daily")) st et.
Proof.
  unfold variant_of, well_timed. intros H.
  destruct (truthy (default VNone (cur s !! "daily"))).
  - destruct (resolve_daily_of_resolve now s a b H) as (w & Ew & _).
    destruct (resolve_daily_inv _ _ _ _ Ew)
      as (_ & sh & sm & eh & em & A & B & Hs & He & _).
    exists (VClock sh sm), (VClock eh em). repeat split; try assumption.
    exists sh, sm, eh, em. repeat split; assumption || apply Hs || apply He.
  - apply resolve_regular_inv in H as (_ & A & B).
    exists (VIso a), (VIso b). repeat split; try assumption.
    exists a, b. split; reflexivity.
Qed.

(** X9: a pending schedule inside its window whose next check is still to
    come, and not beyond the window end: the scheduler's loop makes it
    active and starts nothing; the executor's loop makes it active and
    starts a browser check at once. *)
Theorem loops_differ_at_window_start (O : oracle) (now : Z) (s : pst)
    (a b t : Z) :
  fst (resolve (variant_of (cur s)) now s) = Ok (a, b) ->
  a <= now <= b ->
  cur s !! "status" = Some (VStr "pending") ->
  cur s !! "next_check" = Some (VIso t) ->
  now < t <= b ->
  is_Some (cur s !! "name") -> is_Some (cur s !! "url") ->
  is_Some (cur s !! "id") ->
  let active := <["status" := VStr "active"]> (cur s) in
  Scheduler.check_one O now s = (Ok tt, {| cur := active; wld := wld s |})
  /\ exists s',
      ScheduleExecutor.execute_one O now s = (Ok tt, s')
      /\ trace (wld s') = Spawn active :: trace (wld s)
      /\ cur s' !! "status" = Some (VStr "active").
Proof.
  intros H Hin Hst Hnc Ht [nm Hnm] [u Hu] Hid. cbv zeta.
  apply resolve_fst in H. split.
  - rewrite (check_one_in_window O now s a b H Hin).
    assert (E1 : (t <=? b) = true) by (apply Z.leb_le; lia).
    assert (E2 : (t <=? now) = false) by (apply Z.leb_gt; lia).
    assert (P1 : py_eq (VStr "pending") (VStr "download_started") = false)
      by (rewrite py_eq_str; reflexivity).
    assert (P2 : py_eq (VStr "pending") (VStr "active") = false)
      by (rewrite py_eq_str; reflexivity).
    assert (P3 : py_eq (VStr "active") (VStr "active") = true)
      by (rewrite py_eq_str; reflexivity).
    unfold Scheduler.in_window, Scheduler.check_if_due, try_value_type, bind,
      getitem, get, lift, when, ret, setitem.
    repeat (progress
              (rewrite ?Hst, ?Hnc, ?P1, ?P2, ?E1, ?E2;
               cbn [negb default from_option id truthy fromisoformat cur wld];
               cbv beta iota)).
    rewrite lookup_insert_ne by discriminate. rewrite Hnc.
    cbn [negb default from_option id truthy fromisoformat]. cbv beta iota.
    rewrite E2. reflexivity.
  - rewrite (execute_one_open O now s a b H (proj2 Hin)).
    unfold bind at 1.
    rewrite (check_schedule_inside O _ now s a b _ H Hin Hst).
    unfold checked_inside. rewrite Hst. cbn [default from_option id].
    rewrite !py_eq_str.
    change (String.eqb "pending" "download_started") with false.
    change (String.eqb "pending" "pending") with true.
    cbn [orb when].
    set (s1 := {| cur := <["status" := VStr "active"]> (cur s);
                  wld := wld s |}).
    unfold ScheduleExecutor._perform_check.
    assert (N1 : cur s1 !! "name" = Some nm)
      by (cbn [s1 cur]; rewrite lookup_insert_ne by discriminate; exact Hnm).
    assert (U1 : cur s1 !! "url" = Some u)
      by (cbn [s1 cur]; rewrite lookup_insert_ne by discriminate; exact Hu).
    rewrite (bind_ok _ _ _ _ _ (getitem_some _ _ _ N1)).
    rewrite (bind_ok _ _ _ _ _ (getitem_some _ _ _ U1)).
    unfold bind. cbn [start_thread emitM].
    set (s2 := {| cur := cur s1; wld := emit (Spawn (cur s1)) (wld s1) |}).
    destruct (resolved_well_timed now s a b H) as (st & et & A & B & W).
    destruct (update_next_check_sets O s2 st et) as (v & w' & E & Tr).
    { cbn [s2 s1 cur]. rewrite lookup_insert_ne by discriminate. exact A. }
    { cbn [s2 s1 cur]. rewrite lookup_insert_ne by discriminate. exact B. }
    { cbn [s2 s1 cur]. rewrite lookup_insert_ne by discriminate. exact W. }
    change (ScheduleExecutor._update_next_check O s2)
      with (Scheduler._update_next_check O s2).
    rewrite E. rewrite log_result_id
      by (cbn [s2 s1 cur]; rewrite lookup_insert_ne by discriminate;
          exact Hid).
    eexists. split; [reflexivity|]. cbn [cur wld]. split.
    + rewrite Tr. reflexivity.
    + rewrite lookup_insert_ne by discriminate. apply lookup_insert_eq.
Qed.

Lemma loops_differ_at_window_start_witness :
  let now := PyTime.civil 2024 1 1 10 0 in
  let a := PyTime.civil 2024 1 1 10 0 in
  let b := PyTime.civil 2024 1 1 12 0 in
  let s := on (regular_schedule "pending" a b false
                 (isoformat (PyTime.civil 2024 1 1 10 5))) in
  let O := still_oracle now in
  let active := <["status" := VStr "active"]> (cur s) in
  Scheduler.check_one O now s = (Ok tt, {| cur := active; wld := wld s |})
  /\ exists s',
      ScheduleExecutor.execute_one O now s = (Ok tt, s')
      /\ trace (wld s') = Spawn active :: trace (wld s)
      /\ cur s' !! "status" = Some (VStr "active").
Proof.
  apply (loops_differ_at_window_start
           (still_oracle (PyTime.civil 2024 1 1 10 0))
           (PyTime.civil 2024 1 1 10 0)
           (on (regular_schedule "pending" (PyTime.civil 2024 1 1 10 0)
                  (PyTime.civil 2024 1 1 12 0) false
                  (isoformat (PyTime.civil 2024 1 1 10 5))))
           (PyTime.civil 2024 1 1 10 0) (PyTime.civil 2024 1 1 12 0)
           (PyTime.civil 2024 1 1 10 5) eq_refl).
  - split; vm_compute; discriminate.
  - reflexivity.
  - reflexivity.
  - split; [reflexivity|vm_compute; discriminate].
  - eexists; reflexivity.
  - eexists; reflexivity.
  - eexists; reflexivity.
Defined.

(** X10: the scheduler's loop on a daily schedule whose window has passed:
    an active or download_started schedule becomes pending, [last_check],
    [active_browser_id] and [manual_stop] are cleared, and the next check
    is the start of the next window as the clock reading of
    [_update_next_check] sees it; any other schedule is left as it is. *)
Theorem scheduler_daily_reset_after_window (O : oracle) (now : Z) (s : pst)
    (a b a2 b2 : Z) (st : value) :
  truthy (default VNone (cur s !! "daily")) = true ->
  fst (resolve Daily now s) = Ok (a, b) ->
  b < now ->
  let now2 := now_at O (reads (wld s)) in
  fst (resolve Daily now2 s) = Ok (a2, b2) ->
  b2 < now2 ->
  cur s !! "status" = Some st ->
  is_Some (cur s !! "id") ->
  Scheduler.check_one O now s
  = (Ok tt,
     if active_or_started st
     then {| cur := <["next_check" := isoformat (a2 + PyTime.days 1)]>
                    (<["manual_stop" := VBool false]>
                     (<["active_browser_id" := VNone]>
                      (<["last_check" := VNone]>
                       (<["status" := VStr "pending"]> (cur s)))));
             wld := wld (clocked s) |}
     else s).
Proof.
  intros Hd H Hb now2 H2 Hb2 Hst Hid.
  apply resolve_fst in H. apply resolve_fst in H2.
  destruct (daily_calc_after O now s a b H Hb) as [_ [Ha _]].
  destruct (resolve_daily_of_resolve now s a b H) as (w & Ew & <- & <-).
  unfold Scheduler.check_one. unfold bind at 1. rewrite get_value, Hd.
  unfold Scheduler._check_daily_schedule.
  rewrite (bind_ok _ _ _ _ _ Ew).
  replace (now <=? end_dt w) with false by (symmetry; apply Z.leb_gt; lia).
  rewrite andb_false_r.
  replace (now <? start_dt w) with false by (symmetry; apply Z.ltb_ge; lia).
  rewrite (bind_ok _ _ _ _ _ (getitem_some _ _ _ Hst)).
  destruct (active_or_started st); [|reflexivity].
  cbn [when].
  do 4 (unfold bind at 1; cbn [setitem cur wld]).
  set (d1 := <["manual_stop" := VBool false]> _).
  set (s1 := {| cur := d1; wld := wld s |}).
  assert (Hd1 : truthy (default VNone (cur s1 !! "daily")) = true)
    by (cbn [s1 cur]; unfold d1; rewrite !lookup_insert_ne by discriminate;
        exact Hd).
  assert (Hid1 : is_Some (cur s1 !! "id"))
    by (cbn [s1 cur]; unfold d1; rewrite !lookup_insert_ne by discriminate;
        exact Hid).
  unfold Scheduler._update_next_check.
  unfold bind at 1. cbn [datetime_now]. cbn [s1 wld cur]. fold now2.
  unfold bind at 1. rewrite get_value. cbn [cur].
  change (truthy (default VNone (d1 !! "daily")))
    with (truthy (default VNone (cur s1 !! "daily"))).
  rewrite Hd1.
  set (s2 := {| cur := d1; wld := _ |}).
  assert (R2 : resolve Daily now2 s2 = (Ok (a2, b2), s2)).
  { apply (resolve_same Daily now2 s s2 _ _ H2).
    split; cbn [s2 cur]; unfold d1; rewrite !lookup_insert_ne by discriminate;
      reflexivity. }
  pose proof (calc_result O Daily now2 s2 _ _ R2) as R.
  destruct (daily_calc_after O now2 s2 _ _ R2 Hb2) as [S _].
  unfold calculate_next_check in R, S.
  destruct (DailyTimeCalculator.calculate_next_check O now2 s2) as [r s3].
  cbn [fst snd] in R, S. subst r s3.
  change (cur s2) with (cur s1). rewrite (log_result_id _ Hid1). reflexivity.
Qed.

Lemma scheduler_daily_reset_after_window_witness :
  let now := PyTime.civil 2024 1 1 22 30 in
  let s := on stopped_daily in
  Scheduler.check_one (still_oracle now) now s
  = (Ok tt,
     {| cur := <["next_check" := isoformat (PyTime.civil 2024 1 1 20 0
                                            + PyTime.days 1)]>
               (<["manual_stop" := VBool false]>
                (<["active_browser_id" := VNone]>
                 (<["last_check" := VNone]>
                  (<["status" := VStr "pending"]> (cur s)))));
        wld := wld (clocked s) |}).
Proof.
  apply (scheduler_daily_reset_after_window
           (still_oracle (PyTime.civil 2024 1 1 22 30))
           (PyTime.civil 2024 1 1 22 30) (on stopped_daily)
           (PyTime.civil 2024 1 1 20 0) (PyTime.civil 2024 1 1 22 0)
           (PyTime.civil 2024 1 1 20 0) (PyTime.civil 2024 1 1 22 0)
           (VStr "download_started") eq_refl eq_refl eq_refl eq_refl eq_refl
           eq_refl).
  eexists. reflexivity.
Defined.

(** ** Updating a schedule *)

Section UpdateSchedule.

Variable O : oracle.
Variables (schedule_id url start_time end_time repeat_ daily name
           resolution framerate format : value).

Lemma update_fields_run s :
  Scheduler.update_fields O url start_time end_time repeat_ daily name
    resolution framerate format s
  = Scheduler._update_next_check O
      {| cur := overwritten url start_time end_time repeat_ daily name
                  resolution framerate format (cur s);
         wld := wld s |}.
Proof. reflexivity. Qed.

Lemma update_loop_skip l1 l w :
  Forall (other_id schedule_id) l1 ->
  Scheduler.update_loop O schedule_id url start_time end_time repeat_ daily
    name resolution framerate format (l1 ++ l) w
  = let '(r, l', w') :=
      Scheduler.update_loop O schedule_id url start_time end_time repeat_
        daily name resolution framerate format l w in
    (r, l1 ++ l', w').
Proof.
  intros H. induction H as [|x l1 (id & Hx & Hne) _ IH].
  - cbn [app].
    destruct (Scheduler.update_loop _ _ _ _ _ _ _ _ _ _ _ l w) as [[r l'] w'].
    reflexivity.
  - cbn [app Scheduler.update_loop].
    rewrite Hx. unfold py_eq. rewrite (bool_decide_eq_false_2 _ Hne).
    rewrite IH.
    destruct (Scheduler.update_loop _ _ _ _ _ _ _ _ _ _ _ l w) as [[r l'] w'].
    reflexivity.
Qed.

Lemma update_loop_found d l2 w :
  d !! "id" = Some schedule_id ->
  Scheduler.update_loop O schedule_id url start_time end_time repeat_ daily
    name resolution framerate format (d :: l2) w
  = match Scheduler._update_next_check O
            {| cur := overwritten url start_time end_time repeat_ daily name
                        resolution framerate format d;
               wld := w |} with
    | (Ok _, s') => (Ok (Some (cur s')), cur s' :: l2, wld s')
    | (Raise e, s') => (Raise e, cur s' :: l2, wld s')
    end.
Proof.
  intros Hid. cbn [Scheduler.update_loop].
  rewrite Hid. unfold py_eq. rewrite bool_decide_eq_true_2 by reflexivity.
  reflexivity.
Qed.



(** X12: [update_schedule] returns [None] when no schedule has the id:
    nothing changes and nothing is saved. *)
Theorem update_schedule_absent (l : list dict) (w : world) :
  Forall (other_id schedule_id) l ->
  Scheduler.update_schedule O schedule_id url start_time end_time repeat_
    daily name resolution framerate format l w
  = (Ok None, l, w).
Proof.
  intros H. unfold Scheduler.update_schedule.
  rewrite <- (app_nil_r l) at 1.
  rewrite (update_loop_skip l [] w H). cbn [Scheduler.update_loop].
  rewrite app_nil_r. reflexivity.
Qed.

(** X13: [update_schedule] of a schedule that is not daily, with a start
    time that [fromisoformat] cannot read, raises that exception after the
    fields were overwritten: the list holds the new fields and the status
    pending, and nothing is saved. *)
Theorem update_schedule_unreadable_times (l1 : list dict) (d : dict)
    (l2 : list dict) (w : world) (e : exn) :
  Forall (other_id schedule_id) l1 ->
  d !! "id" = Some schedule_id ->
  truthy daily = false ->
  fromisoformat start_time = Raise e ->
  let d' := overwritten url start_time end_time repeat_ daily name
              resolution framerate format d in
  Scheduler.update_schedule O schedule_id url start_time end_time repeat_
    daily name resolution framerate format (l1 ++ d :: l2) w
  = (Raise e, l1 ++ d' :: l2, tick_world w)
  /\ d' !! "status" = Some (VStr "pending")
  /\ d' !! "start_time" = Some start_time
  /\ d' !! "url" = Some url.
Proof.
  intros Hl1 Hid Hd He. cbv zeta.
  split; [|unfold overwritten; repeat split; lookups].
  unfold Scheduler.update_schedule.
  rewrite (update_loop_skip l1 (d :: l2) w Hl1).
  rewrite (update_loop_found d l2 w Hid).
  set (d1 := overwritten _ _ _ _ _ _ _ _ _ d).
  unfold Scheduler._update_next_check.
  unfold bind at 1. cbn [datetime_now cur wld].
  unfold bind at 1. rewrite get_value. cbn [cur].
  replace (d1 !! "daily") with (Some daily) by (unfold d1, overwritten; lookups).
  cbn [default from_option id]. rewrite Hd.
  unfold RegularTimeCalculator.calculate_next_check, resolve_regular.
  unfold bind at 1. unfold bind at 1.
  erewrite getitem_some by (cbn [cur]; unfold d1, overwritten; lookups).
  unfold bind at 1. unfold lift. rewrite He. reflexivity.
Qed.

End UpdateSchedule.


Lemma update_schedule_absent_witness :
  Scheduler.update_schedule (still_oracle 0) (VStr "7") (VStr "u")
    (VClock 8 0) (VClock 9 0) (VBool false) (VBool true) VNone (VStr "720p")
    (VStr "any") (VStr "mkv") two_schedules world0
  = (Ok None, two_schedules, world0).
Proof.
  apply (update_schedule_absent (still_oracle 0) (VStr "7")).
  repeat constructor; eexists; (split; [reflexivity|discriminate]).
Defined.

Lemma update_schedule_unreadable_times_witness :
  let d := hd stopped_daily two_schedules in
  let d' := overwritten (VStr "u") (VStr "soon") (VStr "later") (VBool false)
              (VBool false) VNone (VStr "720p") (VStr "any") (VStr "mkv") d in
  Scheduler.update_schedule (still_oracle 0) (VStr "1700000000000") (VStr "u")
    (VStr "soon") (VStr "later") (VBool false) (VBool false) VNone
    (VStr "720p") (VStr "any") (VStr "mkv") ([] ++ d :: [stopped_daily]) world0
  = (Raise ValueError, [] ++ d' :: [stopped_daily], tick_world world0)
  /\ d' !! "status" = Some (VStr "pending")
  /\ d' !! "start_time" = Some (VStr "soon")
  /\ d' !! "url" = Some (VStr "u").
Proof.
  exact (update_schedule_unreadable_times (still_oracle 0)
           (VStr "1700000000000") (VStr "u") (VStr "soon") (VStr "later")
           (VBool false) (VBool false) VNone (VStr "720p") (VStr "any")
           (VStr "mkv") [] (hd stopped_daily two_schedules) [stopped_daily]
           world0 ValueError (List.Forall_nil _) eq_refl eq_refl eq_refl).
Defined.

(** ** Resetting all schedules *)

(** a concrete schedule is [schedulable]: its fields are looked up by
    evaluation *)
Ltac schedulable_by st et :=
  split; [eexists; vm_compute; reflexivity|];
  exists st, et;
  split; [vm_compute; reflexivity|];
  split; [vm_compute; reflexivity|];
  unfold well_timed;
  match goal with
  | |- context [truthy ?v] =>
      let b := eval vm_compute in (truthy v) in
      replace (truthy v) with b by (vm_compute; reflexivity)
  end.

Lemma update_next_check_schedulable O d w :
  schedulable d ->
  exists v w',
    Scheduler._update_next_check O {| cur := d; wld := w |}
    = (Ok tt, {| cur := <["next_check" := v]> d; wld := w' |})
    /\ trace w' = trace w.
Proof.
  intros (Hid & st & et & A & B & W).
  destruct (update_next_check_sets O {| cur := d; wld := w |} st et A B W)
    as (v & w' & E & Tr).
  exists v, w'. cbn [cur wld] in *. rewrite E, (log_result_id _ Hid).
  split; [reflexivity|exact Tr].
Qed.





(** ** A tick that raises *)

Section TickAbort.

Variable body : Z -> M unit.
Hypothesis body_rel : forall now, steps (rel tick_keys) (body now).

(** one iteration, whatever the schedule holds *)
Lemma iteration_run now s :
  Tick.iteration body now s
  = match cur s !! "status" with
    | None => (Raise (KeyError "status"), s)
    | Some _ =>
        if skip_cond (cur s) then (Ok tt, s)
        else match body now s with
             | (Ok _, s1) => (Ok tt, s1)
             | (Raise e, s1) =>
                 match cur s1 !! "id" with
                 | Some _ =>
                     (Ok tt, {| cur := cur s1;
                                wld := emit (LogError e) (wld s1) |})
                 | None => (Raise (KeyError "id"), s1)
                 end
             end
    end.
Proof.
  unfold Tick.iteration.
  destruct (cur s !! "status") as [st|] eqn:Hst.
  - rewrite (bind_ok _ _ _ _ _ (skipped_keyed s (mk_is_Some _ _ Hst))).
    destruct (skip_cond (cur s)); [reflexivity|].
    destruct (body now s) as [[[]|e] s1]; [reflexivity|].
    destruct (cur s1 !! "id") as [i|] eqn:Hi.
    + rewrite (bind_ok _ _ _ _ _ (getitem_some _ _ _ Hi)). reflexivity.
    + rewrite (bind_raise _ _ _ _ _ (getitem_none _ _ Hi)). reflexivity.
  - unfold Tick.skipped.
    rewrite (bind_raise _ _ _ _ _
               (bind_raise _ _ _ _ _ (getitem_none _ _ Hst))).
    reflexivity.
Qed.

(** an exception leaves the loop only from the guard or from the handler's
    own [schedule['id']]; the schedules after that one are not reached *)
Lemma loop_raise now l : forall w e l' w',
  Tick.loop body now l w = (Raise e, l', w') ->
  exists l1 l1' d d' l2,
    l = l1 ++ d :: l2 /\ l' = l1' ++ d' :: l2 /\ length l1' = length l1
    /\ ((e = KeyError "status" /\ d !! "status" = None /\ d' = d)
        \/ (e = KeyError "id" /\ d !! "id" = None))
    /\ extends w w'.
Proof.
  induction l as [|d rest IH]; intros w e l' w' H; [discriminate|].
  cbn [Tick.loop] in H.
  set (s := {| cur := d; wld := w |}) in *.
  assert (Hit :
    (exists s1, Tick.iteration body now s = (Ok tt, s1)
                /\ extends w (wld s1))
    \/ (Tick.iteration body now s = (Raise (KeyError "status"), s)
        /\ d !! "status" = None)
    \/ (exists s1, Tick.iteration body now s = (Raise (KeyError "id"), s1)
                   /\ d !! "id" = None /\ extends w (wld s1))).
  { rewrite iteration_run. cbn [s cur].
    destruct (d !! "status") as [st|] eqn:Hst.
    - destruct (skip_cond d).
      + left. exists s. split; [reflexivity|apply extends_refl].
      + pose proof (body_rel now s) as [F Q].
        destruct (body now s) as [[[]|e0] s1]; cbn [snd] in F, Q.
        * left. exists s1. split; [reflexivity|exact Q].
        * destruct (cur s1 !! "id") as [i|] eqn:Hi.
          -- left. eexists. split; [reflexivity|]. cbn [wld].
             eapply extends_trans; [exact Q|].
             exists [LogError e0]. split; reflexivity.
          -- right. right. exists s1. split; [reflexivity|].
             split; [|exact Q].
             rewrite <- Hi. symmetry. apply F, id_not_tick_key.
    - right. left. split; reflexivity. }
  destruct Hit as [(s1 & E & X)|[(E & Hst)|(s1 & E & Hid & X)]]; rewrite E in H.
  - destruct (Tick.loop body now rest (wld s1)) as [[r rest'] w1] eqn:Er.
    injection H as -> <- <-.
    destruct (IH _ _ _ _ Er) as (l1 & l1' & d0 & d0' & l2 & -> & -> & Hlen & C & X').
    exists (d :: l1), (cur s1 :: l1'), d0, d0', l2.
    repeat split; try assumption; cbn [length]; try congruence.
    eapply extends_trans; eassumption.
  - injection H as <- <- <-. exists [], [], d, d, rest.
    repeat split. + left. repeat split. exact Hst. + apply extends_refl.
  - injection H as <- <- <-. exists [], [], d, (cur s1), rest.
    repeat split. + right. split; [reflexivity|exact Hid]. + exact X.
Qed.

End TickAbort.

(** X15: a tick that an exception leaves raised [KeyError] for the
    ['status'] or the ['id'] of one schedule; the schedules after that one
    are as they were, the list is not saved, and the scheduler's loop
    thread logs the exception and goes on. *)
Theorem aborted_tick_saves_nothing (O : oracle) (k : tick_kind)
    (l : list dict) (w : world) (e : exn) (l' : list dict) (w' : world) :
  tick O k l w = (Raise e, l', w') ->
  (exists l1 l1' d d' l2,
      l = l1 ++ d :: l2 /\ l' = l1' ++ d' :: l2 /\ length l1' = length l1
      /\ ((e = KeyError "status" /\ d !! "status" = None /\ d' = d)
          \/ (e = KeyError "id" /\ d !! "id" = None)))
  /\ extends (tick_world w) w'
  /\ (k = SchedulerTick ->
      Scheduler._run_loop_pass O l w = (l', emit (LogError e) w')).
Proof.
  intros H. pose proof H as H0. rewrite tick_is_run in H. unfold Tick.run in H.
  fold (tick_world w) in H.
  destruct (Tick.loop (tick_body O k) (now_at O (reads w)) l (tick_world w))
    as [[[[]|e0] l0] w0] eqn:E; [discriminate|].
  injection H as -> -> ->.
  destruct (loop_raise (tick_body O k) (rel_tick_body O k) _ _ _ _ _ _ E)
    as (l1 & l1' & d & d' & l2 & A & B & C & D & X).
  split; [exists l1, l1', d, d', l2; repeat split; assumption|].
  split; [exact X|].
  intros ->. unfold Scheduler._run_loop_pass.
  change (Scheduler._check_schedules O l w) with (tick O SchedulerTick l w).
  rewrite H0. reflexivity.
Qed.

Lemma aborted_tick_saves_nothing_witness :
  let O := still_oracle (PyTime.civil 2024 1 1 11 0) in
  let e := KeyError "status" in
  let l' := (tick O SchedulerTick broken_list world0).1.2 in
  let w' := (tick O SchedulerTick broken_list world0).2 in
  (exists l1 l1' d d' l2,
      broken_list = l1 ++ d :: l2 /\ l' = l1' ++ d' :: l2
      /\ length l1' = length l1
      /\ ((e = KeyError "status" /\ d !! "status" = None /\ d' = d)
          \/ (e = KeyError "id" /\ d !! "id" = None)))
  /\ extends (tick_world world0) w'
  /\ (SchedulerTick = SchedulerTick ->
      Scheduler._run_loop_pass O broken_list world0
      = (l', emit (LogError e) w')).
Proof.
  cbv zeta.
  assert (H : (tick (still_oracle (PyTime.civil 2024 1 1 11 0)) SchedulerTick
                 broken_list world0).1.1 = Raise (KeyError "status"))
    by (vm_compute; reflexivity).
  apply (aborted_tick_saves_nothing
           (still_oracle (PyTime.civil 2024 1 1 11 0)) SchedulerTick
           broken_list world0 (KeyError "status")).
  destruct (tick _ _ _ _) as [[r l'] w']. cbn in H. subst r. reflexivity.
Defined.

(** the tick over [broken_list] at 11:00: the first schedule is checked,
    the second stops the tick, the third is not reached, and nothing is
    saved *)
Example tick_over_broken_list :
  let O := still_oracle (PyTime.civil 2024 1 1 11 0) in
  let r := tick O SchedulerTick broken_list world0 in
  r.1.1 = Raise (KeyError "status")
  /\ column "status" r.1.2
     = [VStr "active"; VNone; VStr "download_started"]
  /\ map kind_of (trace r.2) = [Spawned]
  /\ map kind_of (trace (Scheduler._run_loop_pass O broken_list world0).2)
     = [Logged (KeyError "status"); Spawned].
Proof. cbv zeta. repeat apply conj; vm_compute; reflexivity. Qed.

(** ** Loading the schedules *)

Lemma rel_ensure_next_check O :
  steps (rel ["next_check"]) (Scheduler.ensure_next_check O).
Proof.
  unfold Scheduler.ensure_next_check. steps_rel.
Qed.

Lemma ensure_next_check_kept O s :
  truthy (default VNone (cur s !! "next_check")) = true ->
  Scheduler.ensure_next_check O s = (Ok tt, s).
Proof.
  intros H. unfold Scheduler.ensure_next_check, bind.
  rewrite get_value, H. reflexivity.
Qed.

Lemma load_loop_extends O l : forall w,
  extends w (Scheduler.load_loop O l w).2.
Proof.
  induction l as [|d l IH]; intros w; [apply extends_refl|].
  cbn [Scheduler.load_loop].
  pose proof (rel_ensure_next_check O {| cur := d; wld := w |}) as [_ Q].
  destruct (Scheduler.ensure_next_check O _) as [[[]|e] s1]; cbn [snd] in Q.
  - specialize (IH (wld s1)).
    destruct (Scheduler.load_loop O l (wld s1)) as [[r l'] w']. cbn in *.
    eapply extends_trans; eassumption.
  - exact Q.
Qed.

Lemma load_loop_ok O l : forall w l' w',
  Scheduler.load_loop O l w = (Ok tt, l', w') -> Forall2 loaded l l'.
Proof.
  induction l as [|d l IH]; intros w l' w' H.
  - injection H as <- <-. constructor.
  - cbn [Scheduler.load_loop] in H.
    pose proof (rel_ensure_next_check O {| cur := d; wld := w |}) as [F _].
    pose proof (ensure_next_check_kept O {| cur := d; wld := w |}) as K.
    destruct (Scheduler.ensure_next_check O _) as [[[]|e] s1]; cbn [snd] in F;
      [|discriminate].
    destruct (Scheduler.load_loop O l (wld s1)) as [[r l0] w0] eqn:E.
    injection H as -> <- <-. constructor; [|exact (IH _ _ _ E)].
    split.
    + intros k Hk. apply F. intros C. apply list_elem_of_singleton in C.
      contradiction.
    + intros T. specialize (K T). injection K as ->. reflexivity.
Qed.

(** X16: [load_schedules] never saves, and the list it leaves is empty or
    has the stored schedules in their order, each one differing at most in
    [next_check] and unchanged when it had one. *)
Theorem load_schedules_keeps_all_or_nothing (O : oracle)
    (f : Scheduler.schedules_file) (w : world) :
  let r := Scheduler.load_schedules O f w in
  extends w r.2
  /\ (r.1 = []
      \/ exists l, f = Scheduler.Stored l /\ length r.1 = length l
           /\ forall i d, l !! i = Some d ->
              exists d', r.1 !! i = Some d' /\ loaded d d').
Proof.
  cbv zeta. destruct f as [|e|l]; cbn [Scheduler.load_schedules fst snd].
  - split; [apply extends_refl|left; reflexivity].
  - split; [exists [LogError e]; split; reflexivity|left; reflexivity].
  - pose proof (load_loop_extends O l w) as X.
    pose proof (load_loop_ok O l w) as K.
    destruct (Scheduler.load_loop O l w) as [[[[]|e] l'] w']; cbn [fst snd] in *.
    + split; [exact X|]. right. exists l. split; [reflexivity|].
      specialize (K l' w' eq_refl).
      split; [symmetry; apply (Forall2_length _ _ _ K)|].
      intros i d Hi.
      destruct (Forall2_lookup_l _ _ _ _ _ K Hi) as (d' & Hi' & Rd).
      exists d'. split; assumption.
    + split; [|left; reflexivity].
      eapply extends_trans; [exact X|].
      exists [LogError e]. split; reflexivity.
Qed.

Lemma load_loop_loadable O l1 : forall l w,
  Forall loadable l1 ->
  exists l1' w1,
    Scheduler.load_loop O (l1 ++ l) w
    = (let '(r, l', w') := Scheduler.load_loop O l w1 in (r, l1' ++ l', w'))
    /\ trace w1 = trace w.
Proof.
  induction l1 as [|x l1 IH]; intros l w H.
  - exists [], w. cbn [app].
    destruct (Scheduler.load_loop O l w) as [[r l'] w']. split; reflexivity.
  - apply Forall_cons in H as [Hx Hl].
    assert (E : exists x' w0,
      Scheduler.ensure_next_check O {| cur := x; wld := w |}
      = (Ok tt, {| cur := x'; wld := w0 |}) /\ trace w0 = trace w).
    { destruct Hx as [T|S].
      - exists x, w. split; [apply ensure_next_check_kept, T|reflexivity].
      - destruct (truthy (default VNone (x !! "next_check"))) eqn:T.
        + exists x, w. split; [apply ensure_next_check_kept, T|reflexivity].
        + destruct (update_next_check_schedulable O x w S) as (v & w0 & E & Tr).
          exists (<["next_check" := v]> x), w0. split; [|exact Tr].
          unfold Scheduler.ensure_next_check, bind. rewrite get_value.
          cbn [cur]. rewrite T. exact E. }
    destruct E as (x' & w0 & E & Tr).
    destruct (IH l w0 Hl) as (l1' & w1 & E1 & Tr1).
    exists (x' :: l1'), w1. cbn [app Scheduler.load_loop]. rewrite E.
    cbn [cur wld]. rewrite E1.
    destruct (Scheduler.load_loop O l w1) as [[r l'] w'].
    split; [reflexivity|congruence].
Qed.

(** X17: one stored schedule without next check and without [start_time]
    makes [load_schedules] drop every schedule: the list is empty and the
    [KeyError] is logged. *)
Theorem load_schedules_one_bad_record (O : oracle) (l1 : list dict)
    (d : dict) (l2 : list dict) (w : world) :
  Forall loadable l1 ->
  truthy (default VNone (d !! "next_check")) = false ->
  d !! "start_time" = None ->
  exists w',
    Scheduler.load_schedules O (Scheduler.Stored (l1 ++ d :: l2)) w = ([], w')
    /\ trace w' = LogError (KeyError "start_time") :: trace w.
Proof.
  intros Hl1 Hnc Hst.
  destruct (load_loop_loadable O l1 (d :: l2) w Hl1) as (l1' & w1 & E & Tr).
  unfold Scheduler.load_schedules. rewrite E. cbn [Scheduler.load_loop].
  assert (R : Scheduler.ensure_next_check O {| cur := d; wld := w1 |}
              = (Raise (KeyError "start_time"),
                 {| cur := d; wld := tick_world w1 |})).
  { unfold Scheduler.ensure_next_check. unfold bind at 1.
    rewrite get_value. cbn [cur]. rewrite Hnc. cbn [negb when].
    unfold Scheduler._update_next_check. unfold bind at 1.
    cbn [datetime_now cur wld]. unfold bind at 1. rewrite get_value.
    fold (tick_world w1). cbn [cur].
    pose proof (getitem_none "start_time"
                  {| cur := d; wld := tick_world w1 |} Hst) as G.
    destruct (truthy (default VNone (d !! "daily"))).
    - unfold DailyTimeCalculator.calculate_next_check, resolve_daily.
      rewrite (bind_raise _ _ _ _ _ (bind_raise _ _ _ _ _ G)).
      reflexivity.
    - unfold RegularTimeCalculator.calculate_next_check, resolve_regular.
      rewrite (bind_raise _ _ _ _ _ (bind_raise _ _ _ _ _ G)).
      reflexivity. }
  rewrite R. cbn [cur wld]. eexists. split; [reflexivity|].
  cbn [emit trace tick_world]. rewrite Tr. reflexivity.
Qed.

Lemma load_schedules_one_bad_record_witness :
  exists w',
    Scheduler.load_schedules (still_oracle 0)
      (Scheduler.Stored ([stopped_daily] ++ <["id" := VStr "7"]> ∅ :: []))
      world0 = ([], w')
    /\ trace w' = LogError (KeyError "start_time") :: trace world0.
Proof.
  apply (load_schedules_one_bad_record (still_oracle 0) [stopped_daily]
           (<["id" := VStr "7"]> ∅) [] world0).
  - constructor; [right|constructor].
    schedulable_by (VClock 20 0) (VClock 22 0).
    exists 20, 0, 22, 0. repeat split; lia.
  - reflexivity.
  - reflexivity.
Defined.

(** ** Browser ids and manual stops *)

Lemma split_on_plain p rest :
  has_underscore p = false ->
  split_on "_" (p +:+ String "_" rest) = p :: split_on "_" rest.
Proof.
  induction p as [|c p IH]; intros H.
  - reflexivity.
  - cbn [has_underscore] in H. apply orb_false_iff in H as [Hc Hp].
    change (String c p +:+ String "_" rest)
      with (String c (p +:+ String "_" rest)).
    cbn [split_on]. rewrite Hc, (IH Hp). reflexivity.
Qed.

Lemma split_browser_id id stamp :
  has_underscore id = false ->
  String.prefix "sched_" (Scheduler.browser_id_of id stamp) = true
  /\ split_on "_" (Scheduler.browser_id_of id stamp)
     = "sched" :: id :: split_on "_" stamp.
Proof.
  intros H. split.
  - destruct id; reflexivity.
  - change (Scheduler.browser_id_of id stamp)
      with ("sched" +:+ String "_" (id +:+ String "_" stamp)).
    rewrite split_on_plain by reflexivity.
    rewrite (split_on_plain id stamp H). reflexivity.
Qed.

Lemma started_loop_found schedule_id browser_id l1 d l2 :
  Forall (other_id schedule_id) l1 ->
  d !! "id" = Some schedule_id ->
  Scheduler.started_loop schedule_id browser_id (l1 ++ d :: l2)
  = (Ok true,
     l1 ++ <["active_browser_id" := VStr browser_id]>
             (<["status" := VStr "download_started"]> d) :: l2).
Proof.
  intros H Hid. induction H as [|x l1 (i & Hx & Hne) _ IH].
  - cbn [app Scheduler.started_loop]. rewrite Hid. unfold py_eq.
    rewrite bool_decide_eq_true_2 by reflexivity. reflexivity.
  - cbn [app Scheduler.started_loop]. rewrite Hx. unfold py_eq.
    rewrite (bool_decide_eq_false_2 _ Hne). rewrite IH. reflexivity.
Qed.

(** the slot move of a schedule whose times can be read *)
Lemma move_slot_run O d w :
  schedulable d -> next_week_fits d ->
  exists d' w',
    Scheduler.move_slot O {| cur := d; wld := w |}
    = (Ok tt, {| cur := d'; wld := w' |})
    /\ trace w' = trace w
    /\ d' !! "status"
       = Some (VStr (if truthy (default VNone (d !! "daily"))
                        || truthy (default VNone (d !! "repeat"))
                     then "pending" else "completed"))
    /\ d' !! "active_browser_id" = Some VNone
    /\ d' !! "manual_stop" = Some (VBool false)
    /\ d' !! "id" = d !! "id".
Proof.
  intros (Hid & st & et & A & B & W) Hw. unfold well_timed in W.
  destruct (truthy (default VNone (d !! "daily"))) eqn:Hd.
  - destruct W as (sh & sm & eh & em & -> & -> & Hs & He).
    rewrite (move_slot_daily O {| cur := d; wld := w |} sh sm Hd A Hs).
    eexists _, _. split; [reflexivity|]. cbn [clocked wld cur trace].
    split; [reflexivity|]. cbn [orb]. repeat split; lookups.
  - destruct W as (a & b & -> & ->). cbn [orb].
    unfold Scheduler.move_slot.
    do 3 (unfold bind at 1; cbn [setitem cur wld]).
    unfold bind at 1. rewrite get_value. cbn [cur].
    rewrite !lookup_insert_ne by discriminate. rewrite Hd.
    unfold bind at 1. rewrite get_value. cbn [cur].
    rewrite !lookup_insert_ne by discriminate.
    set (d0 := <["manual_stop" := VBool false]>
               (<["active_browser_id" := VNone]>
                (<["status" := VStr "pending"]> d))).
    destruct (truthy (default VNone (d !! "repeat"))) eqn:Hr.
    + rewrite (reschedule_next_week_run O {| cur := d0; wld := w |} a b)
        by (first [exact (Hw Hd Hr a b A B) | cbn [cur]; unfold d0; lookups]).
      cbn [cur wld].
      set (d1 := <["manual_stop" := VBool false]> _).
      destruct (update_next_check_schedulable O d1 w) as (v & w' & E & Tr).
      { split; [unfold d1, d0; rewrite !lookup_insert_ne by discriminate;
                exact Hid|].
        exists (isoformat (a + PyTime.days 7)), (isoformat (b + PyTime.days 7)).
        unfold d1, d0. split; [lookups|]. split; [lookups|].
        rewrite !lookup_insert_ne by discriminate.
        unfold well_timed. rewrite Hd.
        eexists _, _. split; reflexivity. }
      unfold bind. rewrite E.
      rewrite log_id_result. cbn [cur].
      rewrite log_result_id
        by (unfold d1, d0; rewrite !lookup_insert_ne by discriminate;
            exact Hid).
      eexists _, _. split; [reflexivity|]. split; [exact Tr|].
      unfold d1, d0. repeat split; lookups.
    + unfold bind at 1. cbn [setitem cur wld].
      set (d1 := <["status" := VStr "completed"]> d0).
      destruct (update_next_check_schedulable O d1 w) as (v & w' & E & Tr).
      { split; [unfold d1, d0; rewrite !lookup_insert_ne by discriminate;
                exact Hid|].
        exists (VIso a), (VIso b). unfold d1, d0.
        rewrite !lookup_insert_ne by discriminate.
        unfold well_timed. rewrite Hd.
        repeat split; try assumption. eexists _, _. split; reflexivity. }
      rewrite E. eexists _, _. split; [reflexivity|]. split; [exact Tr|].
      unfold d1, d0. repeat split; lookups.
Qed.

(** X18: the browser id that the check task builds from a schedule id
    without underscore leads [move_to_next_slot] back to that schedule:
    after the task recorded the download, the stop returns [True], the
    schedule is pending (daily or weekly) or completed (one-shot), both
    flags are cleared, and the list is saved.  For a weekly schedule this
    needs a window that can be moved by a week: both times plus seven days
    are still [datetime]s. *)
Theorem stop_finds_the_schedule_of_the_download (O : oracle)
    (id stamp : string) (l1 : list dict) (d : dict) (l2 : list dict)
    (w w2 : world) :
  has_underscore id = false ->
  Forall (other_id (VStr id)) l1 ->
  d !! "id" = Some (VStr id) ->
  schedulable d ->
  next_week_fits d ->
  let browser_id := Scheduler.browser_id_of id stamp in
  exists d1 d2 w',
    Scheduler.mark_download_started (VStr id) browser_id (l1 ++ d :: l2) w
    = (Ok tt, l1 ++ d1 :: l2, emit (Save (l1 ++ d1 :: l2)) w)
    /\ d1 !! "status" = Some (VStr "download_started")
    /\ d1 !! "active_browser_id" = Some (VStr browser_id)
    /\ Scheduler.move_to_next_slot O browser_id (l1 ++ d1 :: l2) w2
       = (Ok true, l1 ++ d2 :: l2, w')
    /\ trace w' = Save (l1 ++ d2 :: l2) :: trace w2
    /\ d2 !! "status"
       = Some (VStr (if truthy (default VNone (d !! "daily"))
                        || truthy (default VNone (d !! "repeat"))
                     then "pending" else "completed"))
    /\ d2 !! "active_browser_id" = Some VNone
    /\ d2 !! "manual_stop" = Some (VBool false).
Proof.
  intros Hu Hl1 Hid Hs Hw. cbv zeta.
  set (bid := Scheduler.browser_id_of id stamp).
  set (d1 := <["active_browser_id" := VStr bid]>
             (<["status" := VStr "download_started"]> d)).
  assert (Hs1 : schedulable d1).
  { destruct Hs as (I & st & et & A & B & W). split.
    - unfold d1. rewrite !lookup_insert_ne by discriminate. exact I.
    - exists st, et. unfold d1. rewrite !lookup_insert_ne by discriminate.
      repeat split; assumption. }
  assert (Hw1 : next_week_fits d1).
  { unfold next_week_fits, d1. rewrite !lookup_insert_ne by discriminate.
    exact Hw. }
  destruct (move_slot_run O d1 w2 Hs1 Hw1)
    as (d2 & w' & E & Tr & St & Ab & Ms & _).
  exists d1, d2, (emit (Save (l1 ++ d2 :: l2)) w').
  unfold Scheduler.mark_download_started.
  rewrite (started_loop_found (VStr id) bid l1 d l2 Hl1 Hid). fold d1.
  split; [reflexivity|]. split; [unfold d1; lookups|].
  split; [unfold d1; lookups|].
  destruct (split_browser_id id stamp Hu) as [Hp Hsp]. fold bid in Hp, Hsp.
  unfold Scheduler.move_to_next_slot. rewrite Hp, Hsp. cbn [negb].
  rewrite (move_loop_found O id bid l1 d1 l2 w2 Hl1)
    by (unfold d1; lookups; exact Hid).
  rewrite E. cbn [cur wld].
  split; [reflexivity|]. split; [cbn [emit trace]; rewrite Tr; reflexivity|].
  unfold d1 in St. rewrite !lookup_insert_ne in St by discriminate.
  repeat split; assumption.
Qed.

Lemma stop_finds_the_schedule_of_the_download_witness :
  let O := still_oracle (PyTime.civil 2024 1 1 11 0) in
  let d := weekly_schedule in
  let browser_id := Scheduler.browser_id_of "1700000000000" "1704106800" in
  exists d1 d2 w',
    Scheduler.mark_download_started (VStr "1700000000000") browser_id
      ([] ++ d :: []) world0
    = (Ok tt, [] ++ d1 :: [], emit (Save ([] ++ d1 :: [])) world0)
    /\ d1 !! "status" = Some (VStr "download_started")
    /\ d1 !! "active_browser_id" = Some (VStr browser_id)
    /\ Scheduler.move_to_next_slot O browser_id ([] ++ d1 :: []) world0
       = (Ok true, [] ++ d2 :: [], w')
    /\ trace w' = Save ([] ++ d2 :: []) :: trace world0
    /\ d2 !! "status" = Some (VStr "pending")
    /\ d2 !! "active_browser_id" = Some VNone
    /\ d2 !! "manual_stop" = Some (VBool false).
Proof.
  apply (stop_finds_the_schedule_of_the_download
           (still_oracle (PyTime.civil 2024 1 1 11 0))
           "1700000000000" "1704106800" [] weekly_schedule [] world0 world0
           eq_refl (List.Forall_nil _) eq_refl).
  - schedulable_by (VIso (PyTime.civil 2024 1 1 10 0))
      (VIso (PyTime.civil 2024 1 1 12 0)).
    eexists _, _. split; reflexivity.
  - intros _ _ a b Ha Hb. vm_compute in Ha, Hb.
    injection Ha as <-. injection Hb as <-.
    split; split; vm_compute; discriminate.
Defined.

Lemma move_loop_none O sid browser_id l w :
  Forall (fun x => exists i, x !! "id" = Some i
                     /\ (i <> VStr sid
                         \/ x !! "active_browser_id"
                            <> Some (VStr browser_id))) l ->
  Scheduler.move_loop O sid browser_id l w = (Ok false, l, w).
Proof.
  intros H. induction H as [|x l (i & Hx & Hne) _ IH]; [reflexivity|].
  cbn [Scheduler.move_loop]. rewrite Hx.
  assert (C : py_eq i (VStr sid)
              && py_eq (default VNone (x !! "active_browser_id"))
                       (VStr browser_id) = false).
  { unfold py_eq. destruct Hne as [N|N].
    - rewrite (bool_decide_eq_false_2 _ N). reflexivity.
    - apply andb_false_iff. right. apply bool_decide_eq_false_2.
      intros E. apply N. destruct (x !! "active_browser_id"); cbn in E;
        [congruence|discriminate]. }
  rewrite C, IH. reflexivity.
Qed.

(** X19: [move_to_next_slot] for a browser id that no schedule holds as
    its [active_browser_id] returns [False]; no schedule changes and
    nothing is saved. *)
Theorem stop_of_unrecorded_download_changes_nothing (O : oracle)
    (browser_id : string) (l : list dict) (w : world) :
  Forall has_id l ->
  (forall x, x ∈ l ->
             x !! "active_browser_id" <> Some (VStr browser_id)) ->
  Scheduler.move_to_next_slot O browser_id l w = (Ok false, l, w).
Proof.
  intros Hid Hab. unfold Scheduler.move_to_next_slot.
  destruct (String.prefix "sched_" browser_id); [|reflexivity]. cbn [negb].
  destruct (split_on "_" browser_id) as [|p0 [|sid ps]]; try reflexivity.
  rewrite move_loop_none; [reflexivity|].
  apply Forall_forall. intros x Hx.
  destruct (proj1 (Forall_forall _ _) Hid x Hx) as [i Hi].
  exists i. split; [exact Hi|]. right. apply Hab, Hx.
Qed.

Lemma stop_of_unrecorded_download_changes_nothing_witness :
  Scheduler.move_to_next_slot (still_oracle 0)
    "sched_1700000000001_1704100000" [stopped_daily] world0
  = (Ok false, [stopped_daily], world0).
Proof.
  apply (stop_of_unrecorded_download_changes_nothing (still_oracle 0)
           "sched_1700000000001_1704100000" [stopped_daily] world0).
  - repeat constructor. eexists. reflexivity.
  - intros x Hx. apply list_elem_of_singleton in Hx. subst x. discriminate.
Defined.

Lemma append_cons c p r : String c p +:+ r = String c (p +:+ r).
Proof. reflexivity. Qed.

Lemma append_assoc_cons p q r :
  (p +:+ q) +:+ r = p +:+ (q +:+ r).
Proof.
  induction p as [|c p IH]; [reflexivity|].
  rewrite !append_cons, IH. reflexivity.
Qed.

(** the part of an id before its first underscore *)
Lemma first_underscore id :
  has_underscore id = true ->
  exists p q, id = p +:+ String "_" q /\ has_underscore p = false.
Proof.
  induction id as [|c id IH]; intros H; [discriminate|].
  cbn [has_underscore] in H.
  destruct (Ascii.eqb_spec c "_") as [->|Hc].
  - exists "", id. split; reflexivity.
  - cbn [orb] in H. destruct (IH H) as (p & q & -> & Hp).
    exists (String c p), q. split; [reflexivity|].
    cbn [has_underscore]. rewrite Hp.
    destruct (Ascii.eqb_spec c "_"); [contradiction|reflexivity].
Qed.

Lemma append_longer p q : p +:+ String "_" q <> p.
Proof.
  induction p as [|c p IH]; [discriminate|].
  rewrite append_cons. intros E. injection E as E. exact (IH E).
Qed.

(** X20: a schedule whose id contains an underscore is never found by
    [move_to_next_slot]: the id is cut at its first underscore, and the
    stop of its own download returns [False] and changes nothing. *)
Theorem stop_never_finds_an_id_with_underscore (O : oracle)
    (id stamp : string) (l : list dict) (w : world) :
  has_underscore id = true ->
  Forall has_id l ->
  (forall x, x ∈ l ->
     x !! "active_browser_id"
     = Some (VStr (Scheduler.browser_id_of id stamp)) ->
     x !! "id" = Some (VStr id)) ->
  Scheduler.move_to_next_slot O (Scheduler.browser_id_of id stamp) l w
  = (Ok false, l, w).
Proof.
  intros Hu Hid Hab.
  destruct (first_underscore id Hu) as (p & q & E & Hp).
  assert (Hsp : split_on "_" (Scheduler.browser_id_of id stamp)
                = "sched" :: p :: split_on "_" (q +:+ String "_" stamp)).
  { change (Scheduler.browser_id_of id stamp)
      with ("sched" +:+ String "_" (id +:+ String "_" stamp)).
    rewrite split_on_plain by reflexivity. rewrite E.
    rewrite append_assoc_cons, append_cons.
    rewrite (split_on_plain p _ Hp). reflexivity. }
  unfold Scheduler.move_to_next_slot. rewrite Hsp.
  destruct (negb _); [reflexivity|].
  rewrite move_loop_none; [reflexivity|].
  apply Forall_forall. intros x Hx.
  destruct (proj1 (Forall_forall _ _) Hid x Hx) as [i Hi].
  exists i. split; [exact Hi|].
  destruct (decide (x !! "active_browser_id"
                    = Some (VStr (Scheduler.browser_id_of id stamp))))
    as [A|A]; [|right; exact A].
  left. rewrite (Hab x Hx A) in Hi. injection Hi as <-.
  intros C. injection C as C. rewrite E in C. exact (append_longer p q C).
Qed.

Lemma stop_never_finds_an_id_with_underscore_witness :
  let d := <["active_browser_id" :=
               VStr (Scheduler.browser_id_of "a_1" "1704139200")]>
           (<["id" := VStr "a_1"]> stopped_daily) in
  Scheduler.move_to_next_slot (still_oracle 0)
    (Scheduler.browser_id_of "a_1" "1704139200") [d] world0
  = (Ok false, [d], world0).
Proof.
  apply (stop_never_finds_an_id_with_underscore (still_oracle 0) "a_1"
           "1704139200" _ world0 eq_refl).
  - repeat constructor. eexists. reflexivity.
  - intros x Hx _. apply list_elem_of_singleton in Hx. subst x. reflexivity.
Defined.

(** X21: after [move_to_next_slot] a daily schedule is pending with its
    next check at tomorrow's start, and no tick of the scheduler before
    that time changes it or starts a check. *)
Theorem manual_stop_rests_a_daily_schedule (O : oracle) (id stamp : string)
    (l1 : list dict) (d : dict) (l2 : list dict) (w : world)
    (sh sm eh em : Z) :
  has_underscore id = false ->
  Forall (other_id (VStr id)) l1 ->
  d !! "id" = Some (VStr id) ->
  d !! "active_browser_id"
  = Some (VStr (Scheduler.browser_id_of id stamp)) ->
  truthy (default VNone (d !! "daily")) = true ->
  d !! "start_time" = Some (VClock sh sm) ->
  d !! "end_time" = Some (VClock eh em) ->
  clock_ok sh sm -> clock_ok eh em ->
  let tomorrow_start :=
    PyTime.combine (PyTime.date (now_at O (reads w)) + 1) (PyTime.hm sh sm) in
  let d' :=
    <["next_check" := isoformat tomorrow_start]>
    (<["manual_stop" := VBool false]>
     (<["active_browser_id" := VNone]>
      (<["status" := VStr "pending"]> d))) in
  Scheduler.move_to_next_slot O (Scheduler.browser_id_of id stamp)
    (l1 ++ d :: l2) w
  = (Ok true, l1 ++ d' :: l2, emit (Save (l1 ++ d' :: l2)) (tick_world w))
  /\ forall now w0,
       now < tomorrow_start ->
       Scheduler.check_one O now {| cur := d'; wld := w0 |}
       = (Ok tt, {| cur := d'; wld := w0 |}).
Proof.
  intros Hu Hl1 Hid Hab Hd A B Hs He. cbv zeta.
  destruct (split_browser_id id stamp Hu) as [Hp Hsp]. split.
  - unfold Scheduler.move_to_next_slot. rewrite Hp, Hsp. cbn [negb].
    rewrite (move_loop_found O id _ l1 d l2 w Hl1 Hid Hab).
    rewrite (move_slot_daily O {| cur := d; wld := w |} sh sm Hd A Hs).
    reflexivity.
  - intros now w0 Hlt.
    apply (stopped_daily_stays_pending O now _ sh sm eh em
             (PyTime.date (now_at O (reads w)) + 1));
      cbn [cur]; try assumption; lookups.
Qed.

Lemma manual_stop_rests_a_daily_schedule_witness :
  let O := still_oracle (PyTime.civil 2024 1 1 21 0) in
  let d := stopped_daily in
  let tomorrow_start := PyTime.civil 2024 1 2 20 0 in
  let d' :=
    <["next_check" := isoformat tomorrow_start]>
    (<["manual_stop" := VBool false]>
     (<["active_browser_id" := VNone]>
      (<["status" := VStr "pending"]> d))) in
  Scheduler.move_to_next_slot O
    (Scheduler.browser_id_of "1700000000001" "1704139200") ([] ++ d :: [])
    world0
  = (Ok true, [] ++ d' :: [], emit (Save ([] ++ d' :: [])) (tick_world world0))
  /\ forall now w0,
       now < tomorrow_start ->
       Scheduler.check_one O now {| cur := d'; wld := w0 |}
       = (Ok tt, {| cur := d'; wld := w0 |}).
Proof.
  apply (manual_stop_rests_a_daily_schedule
           (still_oracle (PyTime.civil 2024 1 1 21 0))
           "1700000000001" "1704139200" [] stopped_daily [] world0
           20 0 22 0 eq_refl (List.Forall_nil _) eq_refl eq_refl eq_refl
           eq_refl eq_refl); repeat split; lia.
Defined.

(** ** The repository *)

(** X22: called with the lock free, none of [add_schedule],
    [update_schedule] and [remove_schedule] of the repository changes the
    schedules file or reports success: [add_schedule] blocks,
    [update_schedule] never returns a schedule, [remove_schedule] never
    returns [True]; when they return [None] or [False] the repository is
    as before. *)
Theorem repository_writers_never_write (r : ScheduleRepository.repo)
    (schedule : dict) (schedule_id : value) (updates : dict) :
  ScheduleRepository.lock_held r = false ->
  let added := ScheduleRepository.add_schedule schedule r in
  let updated := ScheduleRepository.update_schedule schedule_id updates r in
  let removed := ScheduleRepository.remove_schedule schedule_id r in
  added.1 = ScheduleRepository.Blocks
  /\ (forall found, updated.1 <> ScheduleRepository.Returns (Some found))
  /\ removed.1 <> ScheduleRepository.Returns true
  /\ ScheduleRepository.schedules_file added.2
     = ScheduleRepository.schedules_file r
  /\ ScheduleRepository.schedules_file updated.2
     = ScheduleRepository.schedules_file r
  /\ ScheduleRepository.schedules_file removed.2
     = ScheduleRepository.schedules_file r
  /\ (updated.1 = ScheduleRepository.Returns None -> updated.2 = r)
  /\ (removed.1 = ScheduleRepository.Returns false -> removed.2 = r).
Proof.
  intros Hl. cbv zeta.
  assert (Hr : ScheduleRepository.set_lock false
                 (ScheduleRepository.set_lock true r) = r).
  { destruct r as [f lk c]. cbn in Hl. subst lk. reflexivity. }
  unfold ScheduleRepository.add_schedule, ScheduleRepository.update_schedule,
    ScheduleRepository.remove_schedule.
  rewrite Hl.
  change (ScheduleRepository._load_for_modification
            (ScheduleRepository.set_lock true r))
    with (ScheduleRepository._load_for_modification r).
  set (stored := ScheduleRepository._load_for_modification r).
  repeat split.
  - intros found.
    destruct (ScheduleRepository.update_first schedule_id updates stored)
      as [[[d l]|]|e]; cbn; discriminate.
  - destruct (without_id schedule_id stored) as [kept|e];
      [|cbn; discriminate].
    destruct (length kept <? length stored)%nat; cbn; discriminate.
  - destruct (ScheduleRepository.update_first schedule_id updates stored)
      as [[[d l]|]|e]; reflexivity.
  - destruct (without_id schedule_id stored) as [kept|e]; [|reflexivity].
    destruct (length kept <? length stored)%nat; reflexivity.
  - destruct (ScheduleRepository.update_first schedule_id updates stored)
      as [[[d l]|]|e]; cbn; try discriminate. intros _. exact Hr.
  - destruct (without_id schedule_id stored) as [kept|e];
      [|cbn; discriminate].
    destruct (length kept <? length stored)%nat; cbn; try discriminate.
    intros _. exact Hr.
Qed.

Lemma repository_writers_never_write_witness :
  let r := free_repo (ScheduleRepository.Content three_schedules) in
  let added := ScheduleRepository.add_schedule (<["id" := VStr "3"]> ∅) r in
  let updated :=
    ScheduleRepository.update_schedule (VStr "2") (<["url" := VStr "v"]> ∅)
      r in
  let removed := ScheduleRepository.remove_schedule (VStr "2") r in
  added.1 = ScheduleRepository.Blocks
  /\ (forall found, updated.1 <> ScheduleRepository.Returns (Some found))
  /\ removed.1 <> ScheduleRepository.Returns true
  /\ ScheduleRepository.schedules_file added.2
     = ScheduleRepository.schedules_file r
  /\ ScheduleRepository.schedules_file updated.2
     = ScheduleRepository.schedules_file r
  /\ ScheduleRepository.schedules_file removed.2
     = ScheduleRepository.schedules_file r
  /\ (updated.1 = ScheduleRepository.Returns None -> updated.2 = r)
  /\ (removed.1 = ScheduleRepository.Returns false -> removed.2 = r).
Proof.
  exact (repository_writers_never_write
           (free_repo (ScheduleRepository.Content three_schedules))
           (<["id" := VStr "3"]> ∅) (VStr "2") (<["url" := VStr "v"]> ∅)
           eq_refl).
Defined.

(** X23: [ScheduleRepository.add_schedule] leaves the lock held: every
    later call of the repository blocks. *)
Theorem add_schedule_blocks_the_repository (r : ScheduleRepository.repo)
    (schedule : dict) (schedule_id : value) (updates : dict)
    (l : list dict) :
  ScheduleRepository.lock_held r = false ->
  let r' := (ScheduleRepository.add_schedule schedule r).2 in
  ScheduleRepository.lock_held r' = true
  /\ (ScheduleRepository.load_schedules r').1 = ScheduleRepository.Blocks
  /\ (ScheduleRepository.get_all_schedules r').1 = ScheduleRepository.Blocks
  /\ (ScheduleRepository.get_schedule_by_id schedule_id r').1
     = ScheduleRepository.Blocks
  /\ (ScheduleRepository.save_schedules l r').1 = ScheduleRepository.Blocks
  /\ (ScheduleRepository.add_schedule schedule r').1
     = ScheduleRepository.Blocks
  /\ (ScheduleRepository.update_schedule schedule_id updates r').1
     = ScheduleRepository.Blocks
  /\ (ScheduleRepository.remove_schedule schedule_id r').1
     = ScheduleRepository.Blocks.
Proof.
  intros Hl. cbv zeta. unfold ScheduleRepository.add_schedule. rewrite Hl.
  cbn [ScheduleRepository.save_schedules ScheduleRepository.set_lock
       ScheduleRepository.lock_held snd].
  repeat split.
Qed.

Lemma add_schedule_blocks_the_repository_witness :
  let r := free_repo ScheduleRepository.Missing in
  let r' := (ScheduleRepository.add_schedule (<["id" := VStr "3"]> ∅) r).2 in
  ScheduleRepository.lock_held r' = true
  /\ (ScheduleRepository.load_schedules r').1 = ScheduleRepository.Blocks
  /\ (ScheduleRepository.get_all_schedules r').1 = ScheduleRepository.Blocks
  /\ (ScheduleRepository.get_schedule_by_id (VStr "3") r').1
     = ScheduleRepository.Blocks
  /\ (ScheduleRepository.save_schedules [] r').1 = ScheduleRepository.Blocks
  /\ (ScheduleRepository.add_schedule (<["id" := VStr "3"]> ∅) r').1
     = ScheduleRepository.Blocks
  /\ (ScheduleRepository.update_schedule (VStr "3") ∅ r').1
     = ScheduleRepository.Blocks
  /\ (ScheduleRepository.remove_schedule (VStr "3") r').1
     = ScheduleRepository.Blocks.
Proof.
  exact (add_schedule_blocks_the_repository
           (free_repo ScheduleRepository.Missing)
           (<["id" := VStr "3"]> ∅) (VStr "3") ∅ [] eq_refl).
Defined.

Lemma first_with_id_find schedule_id l :
  Forall has_id l ->
  ScheduleRepository.first_with_id schedule_id l
  = Ok (List.find (fun d => bool_decide (d !! "id" = Some schedule_id)) l).
Proof.
  intros H. induction H as [|x l [i Hx] _ IH]; [reflexivity|].
  cbn [ScheduleRepository.first_with_id List.find]. rewrite Hx. unfold py_eq.
  destruct (decide (i = schedule_id)) as [->|N].
  - rewrite !bool_decide_eq_true_2 by reflexivity. reflexivity.
  - rewrite (bool_decide_eq_false_2 _ N).
    rewrite bool_decide_eq_false_2 by congruence. exact IH.
Qed.

(** X24: [get_schedule_by_id] returns the first stored schedule with the
    id, or [None] when there is none; it caches the stored list and leaves
    the file as it is. *)
Theorem get_schedule_by_id_finds_the_first (r : ScheduleRepository.repo)
    (schedule_id : value) :
  ScheduleRepository.lock_held r = false ->
  Forall has_id (ScheduleRepository._load_for_modification r) ->
  let stored := ScheduleRepository._load_for_modification r in
  exists found,
    ScheduleRepository.get_schedule_by_id schedule_id r
    = (ScheduleRepository.Returns found,
       {| ScheduleRepository.schedules_file :=
            ScheduleRepository.schedules_file r;
          ScheduleRepository.lock_held := false;
          ScheduleRepository._schedules_cache := Some stored |})
    /\ match found with
       | Some d =>
           exists l1 l2, stored = l1 ++ d :: l2
             /\ d !! "id" = Some schedule_id
             /\ Forall (fun x => x !! "id" <> Some schedule_id) l1
       | None => Forall (fun x => x !! "id" <> Some schedule_id) stored
       end.
Proof.
  intros Hl Hid. cbv zeta.
  unfold ScheduleRepository.get_schedule_by_id,
    ScheduleRepository.get_all_schedules, ScheduleRepository.load_schedules.
  rewrite Hl.
  assert (E : match ScheduleRepository.schedules_file r with
              | ScheduleRepository.Content l => l
              | _ => []
              end = ScheduleRepository._load_for_modification r)
    by (unfold ScheduleRepository._load_for_modification;
        destruct (ScheduleRepository.schedules_file r); reflexivity).
  rewrite E. rewrite (first_with_id_find _ _ Hid).
  eexists. split; [reflexivity|].
  clear E Hid Hl.
  induction (ScheduleRepository._load_for_modification r) as [|x l IH].
  - constructor.
  - cbn [List.find]. destruct (decide (x !! "id" = Some schedule_id)) as [Y|N].
    + rewrite (bool_decide_eq_true_2 _ Y). exists [], l.
      repeat split; [exact Y|constructor].
    + rewrite (bool_decide_eq_false_2 _ N).
      destruct (List.find _ l) as [d|].
      * destruct IH as (l1 & l2 & -> & Hd & Hn).
        exists (x :: l1), l2. repeat split; [exact Hd|].
        constructor; assumption.
      * constructor; assumption.
Qed.

Lemma get_schedule_by_id_finds_the_first_witness :
  let r := free_repo (ScheduleRepository.Content three_schedules) in
  exists found,
    ScheduleRepository.get_schedule_by_id (VStr "2") r
    = (ScheduleRepository.Returns found,
       {| ScheduleRepository.schedules_file :=
            ScheduleRepository.schedules_file r;
          ScheduleRepository.lock_held := false;
          ScheduleRepository._schedules_cache := Some three_schedules |})
    /\ match found with
       | Some d =>
           exists l1 l2, three_schedules = l1 ++ d :: l2
             /\ d !! "id" = Some (VStr "2")
             /\ Forall (fun x => x !! "id" <> Some (VStr "2")) l1
       | None => Forall (fun x => x !! "id" <> Some (VStr "2")) three_schedules
       end.
Proof.
  apply (get_schedule_by_id_finds_the_first
           (free_repo (ScheduleRepository.Content three_schedules))
           (VStr "2") eq_refl).
  repeat constructor; eexists; reflexivity.
Defined.

(** ** The launch queue: launching requests *)

Lemma launching_inv_work ok s : launching_inv s -> launching_inv (work ok s).
Proof.
  intros H. destruct s as [m q p]. unfold launching_inv in *.
  cbn [active_browsers processor] in H.
  destruct p as [|bid|bid|bid todo|bid b0 todo|bid|bid|bid];
    cbn [work processor browser_queue active_browsers with_worker
         with_browsers marked] in *.
  - destruct q as [|bid rest]; cbn [active_browsers processor marked];
      intros b Hb; exact (H b Hb).
  - intros b Hb. destruct (decide (b = bid)) as [->|N]; [reflexivity|].
    exfalso. assert (Hm : m !! b = Some (Placeholder launching)).
    { destruct (m !! bid) as [[st|]|]; try exact Hb.
      rewrite lookup_insert_ne in Hb by congruence. exact Hb. }
    specialize (H b Hm). discriminate.
  - exact H.
  - destruct todo as [|b0 todo];
      cbn [active_browsers processor marked with_worker with_browsers].
    + exact H.
    + destruct (m !! b0) as [[st|]|];
        cbn [active_browsers processor marked with_worker with_browsers];
        intros b Hb; try exact (H b Hb).
      apply lookup_delete_Some in Hb as [_ Hb]. exact (H b Hb).
  - intros b Hb. apply lookup_delete_Some in Hb as [_ Hb]. exact (H b Hb).
  - exact H.
  - intros b Hb. exfalso. destruct (decide (b = bid)) as [->|N].
    + rewrite lookup_insert_eq in Hb. discriminate.
    + rewrite lookup_insert_ne in Hb by congruence.
      specialize (H b Hb). congruence.
  - destruct ok;
      cbn [active_browsers processor marked with_worker with_browsers];
      intros b Hb; [exact (H b Hb)|].
    apply lookup_delete_Some in Hb as [_ Hb]. exact (H b Hb).
Qed.

Lemma launching_inv_step a s :
  a <> Fail -> launching_inv s -> launching_inv (step a s).
Proof.
  intros Ha H. destruct a as [bid|bid|bid|ok|]; cbn [step].
  - intros b Hb. cbn [with_browsers active_browsers processor] in *.
    destruct (decide (b = bid)) as [->|N].
    + rewrite lookup_insert_eq in Hb. discriminate.
    + rewrite lookup_insert_ne in Hb by congruence. exact (H b Hb).
  - exact H.
  - intros b Hb. cbn [with_browsers active_browsers processor] in *.
    apply lookup_delete_Some in Hb as [_ Hb]. exact (H b Hb).
  - apply launching_inv_work, H.
  - contradiction.
Qed.

Lemma launching_inv_run acts : forall s,
  no_failure acts -> launching_inv s -> launching_inv (run acts s).
Proof.
  unfold no_failure, run.
  induction acts as [|a acts IH]; intros s Hn H; [exact H|].
  cbn [foldl]. apply IH.
  - intros C. apply Hn. right. exact C.
  - apply launching_inv_step; [|exact H]. intros ->. apply Hn. left.
Qed.

(** X25: as long as the handler of the queue processor has not run, at
    most one placeholder holds the status ['launching'], and it is the
    request the processor is working on. *)
Theorem one_request_is_launching (acts : list action) :
  no_failure acts ->
  let s := run acts init in
  (forall b1 b2,
      active_browsers s !! b1 = Some (Placeholder launching) ->
      active_browsers s !! b2 = Some (Placeholder launching) -> b1 = b2)
  /\ (forall b, active_browsers s !! b = Some (Placeholder launching) ->
                marked (processor s) = Some b).
Proof.
  intros Hn. cbv zeta.
  assert (I : launching_inv (run acts init)).
  { apply launching_inv_run; [exact Hn|]. intros b Hb. cbn in Hb.
    rewrite lookup_empty in Hb. discriminate. }
  split; [|exact I].
  intros b1 b2 H1 H2. apply I in H1. apply I in H2. congruence.
Qed.

Lemma one_request_is_launching_witness :
  let s := run two_requests init in
  (forall b1 b2,
      active_browsers s !! b1 = Some (Placeholder launching) ->
      active_browsers s !! b2 = Some (Placeholder launching) -> b1 = b2)
  /\ (forall b, active_browsers s !! b = Some (Placeholder launching) ->
                marked (processor s) = Some b).
Proof.
  apply (one_request_is_launching two_requests).
  unfold no_failure, two_requests. intros C.
  repeat (apply elem_of_cons in C as [C|C]; [discriminate C|]).
  inversion C.
Defined.

Lemma run_works n m s :
  run (replicate (n + m) (Work true)) s
  = run (replicate m (Work true)) (run (replicate n (Work true)) s).
Proof. rewrite replicate_add. apply run_app. Qed.

(** the loop of [_ensure_chrome_closed] closes every id of its snapshot *)
Lemma closing_loop bid todo : forall m q,
  exists k,
    run (replicate k (Work true))
      {| active_browsers := m; browser_queue := q;
         processor := Closing bid todo |}
    = {| active_browsers := all_closed todo m; browser_queue := q;
         processor := Waiting bid |}.
Proof.
  induction todo as [|b todo IH]; intros m q.
  - exists 1%nat. reflexivity.
  - destruct (m !! b) as [[st|]|] eqn:Hb.
    + destruct (IH (delete b m) q) as [k E]. exists (1 + k)%nat.
      rewrite run_works. cbn [replicate run foldl step work processor
                                active_browsers].
      rewrite Hb. cbn [with_worker with_browsers active_browsers browser_queue
                       processor]. exact E.
    + destruct (IH (delete b m) q) as [k E]. exists (2 + k)%nat.
      rewrite run_works. cbn [replicate run foldl step work processor
                                active_browsers].
      rewrite Hb. cbn [with_worker with_browsers active_browsers browser_queue
                       processor work]. exact E.
    + destruct (IH m q) as [k E]. exists (1 + k)%nat.
      rewrite run_works. cbn [replicate run foldl step work processor
                                active_browsers].
      rewrite Hb. cbn [with_worker with_browsers active_browsers browser_queue
                       processor].
      unfold all_closed. cbn [foldl]. rewrite (delete_id m b Hb). exact E.
Qed.

Lemma all_closed_lookup todo : forall m x,
  all_closed todo m !! x = if decide (x ∈ todo) then None else m !! x.
Proof.
  unfold all_closed.
  induction todo as [|b todo IH]; intros m x; cbn [foldl].
  - destruct (decide (x ∈ [])) as [C|_]; [inversion C|reflexivity].
  - rewrite IH. destruct (decide (x ∈ todo)) as [Y|N].
    + rewrite decide_True by (right; exact Y). reflexivity.
    + destruct (decide (x = b)) as [->|Nb].
      * rewrite decide_True by left. apply lookup_delete_eq.
      * rewrite decide_False
          by (intros C; apply elem_of_cons in C as [C|C]; contradiction).
        apply lookup_delete_ne. congruence.
Qed.

Lemma snapshot_closed m x :
  all_closed (browsers_to_close m) m !! x <> Some Detector.
Proof.
  rewrite all_closed_lookup.
  destruct (decide (x ∈ browsers_to_close m)) as [Y|N]; [discriminate|].
  intros C. apply N.
  apply (launched_snapshot
           {| active_browsers := m; browser_queue := []; processor := Idle |}).
  exact C.
Qed.

(** X26: left alone, the queue processor launches the request at the head
    of the queue, whether its placeholder is still registered or was
    closed: it ends idle with that session launched and no other. *)
Theorem a_taken_request_is_launched (s : state) (b : string)
    (rest : list string) :
  processor s = Idle ->
  browser_queue s = b :: rest ->
  exists n,
    let s' := run (replicate n (Work true)) s in
    processor s' = Idle
    /\ browser_queue s' = rest
    /\ launched s' b
    /\ forall b', launched s' b' -> b' = b.
Proof.
  intros Hp Hq. destruct s as [m q p]. cbn in Hp, Hq. subst p q.
  set (m1 := match m !! b with
             | Some (Placeholder _) => <[b := Placeholder launching]> m
             | _ => m
             end).
  destruct (closing_loop b (browsers_to_close m1) m1 rest) as [k E].
  exists (3 + (k + 3))%nat. cbv zeta.
  rewrite run_works.
  replace (run (replicate 3 (Work true))
             {| active_browsers := m; browser_queue := b :: rest;
                processor := Idle |})
    with {| active_browsers := m1; browser_queue := rest;
            processor := Closing b (browsers_to_close m1) |}
    by reflexivity.
  rewrite run_works, E.
  replace (run (replicate 3 (Work true))
             {| active_browsers := all_closed (browsers_to_close m1) m1;
                browser_queue := rest; processor := Waiting b |})
    with {| active_browsers :=
              <[b := Detector]> (all_closed (browsers_to_close m1) m1);
            browser_queue := rest; processor := Idle |}
    by reflexivity.
  cbn [processor browser_queue].
  split; [reflexivity|]. split; [reflexivity|].
  unfold launched. cbn [active_browsers].
  split; [apply lookup_insert_eq|].
  intros b' Hb'. destruct (decide (b' = b)) as [->|N]; [reflexivity|].
  exfalso. rewrite lookup_insert_ne in Hb' by congruence.
  exact (snapshot_closed m1 b' Hb').
Qed.

Lemma a_taken_request_is_launched_witness :
  let s := run closed_while_queued init in
  active_browsers s !! "a" = None
  /\ exists n,
      let s' := run (replicate n (Work true)) s in
      processor s' = Idle
      /\ browser_queue s' = []
      /\ launched s' "a"
      /\ forall b', launched s' b' -> b' = "a".
Proof.
  split; [reflexivity|].
  exact (a_taken_request_is_launched (run closed_while_queued init) "a" []
           eq_refl eq_refl).
Defined.

(** X27: when [detector.start_browser] fails, the detector is removed
    again: the request is not tracked any more and no session is launched. *)
Theorem a_failed_launch_leaves_no_session (acts : list action)
    (bid : string) :
  processor (run acts init) = Starting bid ->
  let s' := step (Work false) (run acts init) in
  processor s' = Idle
  /\ active_browsers s' !! bid = None
  /\ forall b, ~ launched s' b.
Proof.
  intros Hp. cbv zeta.
  pose proof (queue_inv_run acts init queue_inv_init) as [_ I].
  unfold processor_inv in I. rewrite Hp in I.
  destruct (run acts init) as [m q p]. cbn in Hp. subst p.
  change (step (Work false)
            {| active_browsers := m; browser_queue := q;
               processor := Starting bid |})
    with {| active_browsers := delete bid m; browser_queue := q;
            processor := Idle |}.
  split; [reflexivity|]. unfold launched. cbn [active_browsers].
  split; [apply lookup_delete_eq|].
  intros b E.
  apply lookup_delete_Some in E as [N E]. apply N. symmetry. apply I. exact E.
Qed.

Lemma a_failed_launch_leaves_no_session_witness :
  let acts := [Place "a"; Put "a"; Work true; Work true; Work true; Work true;
               Work true; Work true] in
  let s' := step (Work false) (run acts init) in
  processor s' = Idle
  /\ active_browsers s' !! "a" = None
  /\ forall b, ~ launched s' b.
Proof.
  exact (a_failed_launch_leaves_no_session
           [Place "a"; Put "a"; Work true; Work true; Work true; Work true;
            Work true; Work true] "a" eq_refl).
Defined.

(** ** Times that cannot be read *)

(** X28: [add_schedule] for a schedule that is not daily, with a start
    time that [fromisoformat] cannot read, raises that exception; the list
    is as it was and nothing is saved. *)
Theorem add_schedule_unreadable_times (O : oracle) (id : string)
    (url start_time end_time repeat_ daily name resolution framerate
     format : value) (l : list dict) (w : world) (e : exn) :
  truthy daily = false ->
  fromisoformat start_time = Raise e ->
  Scheduler.add_schedule O id url start_time end_time repeat_ daily name
    resolution framerate format l w
  = (Raise e, l, tick_world (tick_world w)).
Proof.
  intros Hd He. unfold Scheduler.add_schedule.
  fold (tick_world w).
  set (d := Scheduler.new_schedule _ _ _ _ _ _ _ _ _ _ _).
  unfold Scheduler._update_next_check.
  unfold bind at 1. cbn [datetime_now cur wld].
  fold (tick_world (tick_world w)).
  unfold bind at 1. rewrite get_value. cbn [cur].
  replace (d !! "daily") with (Some daily)
    by (unfold d, Scheduler.new_schedule; lookups).
  change (default VNone (Some daily)) with daily. rewrite Hd.
  unfold RegularTimeCalculator.calculate_next_check, resolve_regular.
  unfold bind at 1. unfold bind at 1.
  erewrite getitem_some
    by (cbn [cur]; unfold d, Scheduler.new_schedule; lookups).
  unfold bind at 1. unfold lift. rewrite He. reflexivity.
Qed.

Lemma add_schedule_unreadable_times_witness :
  Scheduler.add_schedule (still_oracle 0) "1700000000003" (VStr "u")
    (VStr "soon") (VStr "later") (VBool false) (VBool false) VNone
    (VStr "1080p") (VStr "any") (VStr "mp4") two_schedules world0
  = (Raise ValueError, two_schedules, tick_world (tick_world world0)).
Proof.
  exact (add_schedule_unreadable_times (still_oracle 0) "1700000000003"
           (VStr "u") (VStr "soon") (VStr "later") (VBool false) (VBool false)
           VNone (VStr "1080p") (VStr "any") (VStr "mp4") two_schedules world0
           ValueError eq_refl eq_refl).
Defined.

Lemma time_replace_bad h m :
  ~ clock_ok h m -> time_replace h m = Raise (clock_error h m).
Proof.
  intros H. unfold time_replace, clock_error.
  destruct (c_int h && c_int m); [|reflexivity]. cbn [negb].
  destruct ((0 <=? h) && (h <=? 23) && (0 <=? m) && (m <=? 59)) eqn:E;
    [|reflexivity].
  exfalso. apply H. unfold clock_ok.
  repeat (apply andb_true_iff in E as [E ?]). lia.
Qed.

Lemma resolve_daily_bad now s sh sm eh em :
  cur s !! "start_time" = Some (VClock sh sm) ->
  cur s !! "end_time" = Some (VClock eh em) ->
  ~ (clock_ok sh sm /\ clock_ok eh em) ->
  resolve_daily now s = (Raise (window_error sh sm eh em), s).
Proof.
  intros A B H. unfold resolve_daily, window_error.
  rewrite (bind_ok _ _ _ _ _ (getitem_some _ _ _ A)).
  rewrite (bind_ok _ _ _ _ _ (getitem_some _ _ _ B)).
  unfold bind, lift. cbn [split_clock fst snd].
  destruct (decide (clock_ok sh sm)) as [Hs|Hs].
  - rewrite (time_replace_ok _ _ Hs).
    rewrite time_replace_bad; [reflexivity|].
    intros He. apply H. split; assumption.
  - rewrite (time_replace_bad _ _ Hs). reflexivity.
Qed.

(** X29: a daily schedule with a clock outside 00:00 to 23:59: the body
    of both loops raises for it and leaves it unchanged, and so does
    [_update_next_check], after its clock reading.  The exception is that
    of the first of the two clocks that is out of range: [ValueError], or
    [OverflowError] when its hour or minute does not fit a C [int]. *)
Theorem daily_clock_out_of_range_is_never_checked (O : oracle)
    (k : tick_kind) (now : Z) (s : pst) (sh sm eh em : Z) :
  truthy (default VNone (cur s !! "daily")) = true ->
  cur s !! "start_time" = Some (VClock sh sm) ->
  cur s !! "end_time" = Some (VClock eh em) ->
  ~ (clock_ok sh sm /\ clock_ok eh em) ->
  let e := window_error sh sm eh em in
  tick_body O k now s = (Raise e, s)
  /\ Scheduler._update_next_check O s = (Raise e, clocked s)
  /\ (e = ValueError \/ e = OverflowError)
  /\ (c_int sh && c_int sm && c_int eh && c_int em = true ->
      e = ValueError).
Proof.
  intros Hd A B H. cbv zeta.
  pose proof (resolve_daily_bad now s sh sm eh em A B H) as R.
  split; [|split; [|split]].
  - destruct k; cbn [tick_body].
    + unfold Scheduler.check_one. unfold bind at 1. rewrite get_value, Hd.
      unfold Scheduler._check_daily_schedule.
      rewrite (bind_raise _ _ _ _ _ R). reflexivity.
    + unfold ScheduleExecutor.execute_one. unfold bind at 1.
      rewrite get_value, Hd. unfold DailyTimeCalculator.check_schedule.
      rewrite (bind_raise _ _ _ _ _ (bind_raise _ _ _ _ _ R)). reflexivity.
  - unfold Scheduler._update_next_check. unfold bind at 1.
    cbn [datetime_now]. fold (clocked s). unfold bind at 1.
    rewrite get_value. change (cur (clocked s)) with (cur s). rewrite Hd.
    unfold DailyTimeCalculator.calculate_next_check.
    rewrite (bind_raise _ _ _ _ _
               (resolve_daily_bad _ (clocked s) sh sm eh em A B H)).
    reflexivity.
  - unfold window_error, clock_error.
    destruct (decide _), (c_int eh && c_int em), (c_int sh && c_int sm);
      auto.
  - intros C. apply andb_true_iff in C as [C Cem].
    apply andb_true_iff in C as [C Ceh]. apply andb_true_iff in C as [Csh Csm].
    unfold window_error, clock_error.
    rewrite Csh, Csm, Ceh, Cem. destruct (decide _); reflexivity.
Qed.

Lemma daily_clock_out_of_range_is_never_checked_witness :
  let s := on (daily_schedule "pending" 20 0 24 0 VNone) in
  let O := still_oracle (PyTime.civil 2024 1 1 21 0) in
  let e := window_error 20 0 24 0 in
  tick_body O SchedulerTick (PyTime.civil 2024 1 1 21 0) s = (Raise e, s)
  /\ Scheduler._update_next_check O s = (Raise e, clocked s)
  /\ (e = ValueError \/ e = OverflowError)
  /\ (c_int 20 && c_int 0 && c_int 24 && c_int 0 = true -> e = ValueError).
Proof.
  apply (daily_clock_out_of_range_is_never_checked
           (still_oracle (PyTime.civil 2024 1 1 21 0)) SchedulerTick
           (PyTime.civil 2024 1 1 21 0)
           (on (daily_schedule "pending" 20 0 24 0 VNone)) 20 0 24 0
           eq_refl eq_refl eq_refl).
  unfold clock_ok. lia.
Defined.

(** an end clock of 24:00 gives [ValueError]; an hour that no C [int]
    holds gives [OverflowError] *)
Example window_error_samples :
  window_error 20 0 24 0 = ValueError
  /\ window_error 20 0 2147483648 0 = OverflowError
  /\ window_error 25 0 2147483648 0 = ValueError
  /\ time_replace 2147483648 0 = Raise OverflowError
  /\ time_replace 24 0 = Raise ValueError.
Proof. repeat apply conj; reflexivity. Qed.

(** ** A due check is started once *)

(** [_update_next_check] is the calculator of the schedule's variant at
    the next clock reading *)
Lemma update_next_check_run O s :
  Scheduler._update_next_check O s
  = calculate_next_check O (variant_of (cur s))
      (now_at O (reads (wld s))) (clocked s).
Proof.
  unfold Scheduler._update_next_check. unfold bind at 1.
  cbn [datetime_now]. fold (clocked s). unfold bind at 1.
  rewrite get_value. change (cur (clocked s)) with (cur s).
  unfold variant_of, calculate_next_check.
  destruct (truthy (default VNone (cur s !! "daily"))); reflexivity.
Qed.

(** the check that is due inside the window *)
Lemma check_if_due_run O now s :
  (truthy (default VNone (cur s !! "next_check")) = false
   \/ exists t, cur s !! "next_check" = Some (VIso t) /\ t <= now) ->
  Scheduler.check_if_due O now s = Scheduler._perform_check O s.
Proof.
  intros H. unfold Scheduler.check_if_due. unfold bind at 1.
  rewrite get_value. destruct H as [F|(t & E & L)].
  - rewrite F. reflexivity.
  - rewrite E. cbn [default from_option Datatypes.id truthy negb].
    unfold bind, lift. cbn [fromisoformat].
    rewrite (proj2 (Z.leb_le _ _) L). reflexivity.
Qed.

Lemma in_window_active O now b s :
  cur s !! "status" = Some (VStr "active") ->
  Scheduler.in_window O now b s = Scheduler.check_if_due O now s.
Proof.
  intros Hst. unfold Scheduler.in_window.
  rewrite (bind_ok _ _ _ _ _ (getitem_some _ _ _ Hst)).
  rewrite py_eq_str.
  change (String.eqb "active" "download_started") with false. cbv iota.
  unfold bind at 1. cbn [ret negb].
  rewrite (bind_ok _ _ _ _ _ (getitem_some _ _ _ Hst)).
  rewrite py_eq_str. change (String.eqb "active" "active") with true.
  cbn [negb when]. reflexivity.
Qed.

(** X30: inside the window, a check that is due on an active schedule
    (no next check recorded, or one that has arrived) starts exactly one
    browser check and records the next check at the clock reading of
    [_update_next_check] plus the drawn delay, capped at the end of the
    window read then; at any later tick inside the window that comes before
    that time, the scheduler leaves the schedule as it is and starts
    nothing. *)
Theorem due_check_is_started_once (O : oracle) (now : Z) (s : pst)
    (a b a2 b2 : Z) :
  fst (resolve (variant_of (cur s)) now s) = Ok (a, b) ->
  a <= now <= b ->
  cur s !! "status" = Some (VStr "active") ->
  (truthy (default VNone (cur s !! "next_check")) = false
   \/ exists t, cur s !! "next_check" = Some (VIso t) /\ t <= now) ->
  is_Some (cur s !! "name") -> is_Some (cur s !! "url") ->
  is_Some (cur s !! "id") ->
  let now2 := now_at O (reads (wld s)) in
  let next := Z.min (now2 + delay_at O (draws (wld s))) b2 in
  fst (resolve (variant_of (cur s)) now2 s) = Ok (a2, b2) ->
  a2 <= now2 <= b2 ->
  exists s',
    Scheduler.check_one O now s = (Ok tt, s')
    /\ cur s' = <["next_check" := isoformat next]> (cur s)
    /\ trace (wld s') = Spawn (cur s) :: trace (wld s)
    /\ forall now3 w3 a3 b3,
         fst (resolve (variant_of (cur s)) now3 s) = Ok (a3, b3) ->
         a3 <= now3 <= b3 -> now3 < next ->
         Scheduler.check_one O now3 {| cur := cur s'; wld := w3 |}
         = (Ok tt, {| cur := cur s'; wld := w3 |}).
Proof.
  intros H Hin Hst Hdue [nm Hnm] [u Hu] Hid now2 next H2 Hin2.
  apply resolve_fst in H. apply resolve_fst in H2.
  rewrite (check_one_in_window O now s a b H Hin).
  rewrite (in_window_active O now b s Hst).
  rewrite (check_if_due_run O now s Hdue).
  unfold Scheduler._perform_check.
  rewrite (bind_ok _ _ _ _ _ (getitem_some _ _ _ Hnm)).
  rewrite (bind_ok _ _ _ _ _ (getitem_some _ _ _ Hu)).
  unfold bind. cbn [start_thread emitM].
  set (s1 := {| cur := cur s; wld := emit (Spawn (cur s)) (wld s) |}).
  rewrite update_next_check_run.
  change (cur s1) with (cur s).
  change (now_at O (reads (wld s1))) with now2.
  assert (R : resolve (variant_of (cur s)) now2 (clocked s1)
              = (Ok (a2, b2), clocked s1)).
  { apply (resolve_same _ now2 s _ _ _ H2). split; reflexivity. }
  pose proof (calc_result O _ now2 _ _ _ R) as Rf.
  pose proof (calc_inside O _ now2 _ _ _ R Hin2) as Rs.
  destruct (calculate_next_check O (variant_of (cur s)) now2 (clocked s1))
    as [r s'].
  cbn [fst snd] in Rf, Rs. subst r s'.
  change (cur (clocked s1)) with (cur s).
  rewrite (log_result_id _ Hid).
  eexists. split; [reflexivity|].
  change (draws (wld (clocked s1))) with (draws (wld s)). fold next.
  split; [reflexivity|]. split; [reflexivity|].
  intros now3 w3 a3 b3 H3 Hin3 Hlt.
  cbn [set_next cur].
  change (cur (drawn (clocked s1))) with (cur s).
  change (VIso next) with (isoformat next).
  set (d' := <["next_check" := isoformat next]> (cur s)).
  set (s3 := {| cur := d'; wld := w3 |}).
  assert (V : variant_of (cur s3) = variant_of (cur s)).
  { unfold variant_of. cbn [s3 cur]. unfold d'.
    rewrite lookup_insert_ne by discriminate. reflexivity. }
  assert (R3 : resolve (variant_of (cur s3)) now3 s3 = (Ok (a3, b3), s3)).
  { rewrite V. apply resolve_fst in H3.
    apply (resolve_same _ now3 s _ _ _ H3).
    split; cbn [s3 cur]; unfold d'; rewrite lookup_insert_ne by discriminate;
      reflexivity. }
  rewrite (check_one_in_window O now3 s3 a3 b3 R3 Hin3).
  rewrite (in_window_active O now3 b3 s3)
    by (cbn [s3 cur]; unfold d'; rewrite lookup_insert_ne by discriminate;
        exact Hst).
  unfold Scheduler.check_if_due. unfold bind at 1. rewrite get_value.
  cbn [s3 cur]. unfold d'. rewrite lookup_insert_eq.
  cbn [default from_option Datatypes.id truthy negb isoformat].
  unfold bind, lift. cbn [fromisoformat].
  change (fromisoformat (isoformat next)) with (@Ok Z next). cbv iota beta.
  rewrite (proj2 (Z.leb_gt _ _) Hlt). reflexivity.
Qed.

(** the property at a eleven o'clock check of a two hour window *)
Lemma due_check_is_started_once_witness :
  let now := PyTime.civil 2024 1 1 11 0 in
  let a := PyTime.civil 2024 1 1 10 0 in
  let b := PyTime.civil 2024 1 1 12 0 in
  let O := still_oracle now in
  let s := on (regular_schedule "active" a b false VNone) in
  let next := PyTime.civil 2024 1 1 11 8 in
  exists s',
    Scheduler.check_one O now s = (Ok tt, s')
    /\ cur s' = <["next_check" := isoformat next]> (cur s)
    /\ trace (wld s') = Spawn (cur s) :: trace (wld s)
    /\ forall now3 w3 a3 b3,
         fst (resolve (variant_of (cur s)) now3 s) = Ok (a3, b3) ->
         a3 <= now3 <= b3 -> now3 < next ->
         Scheduler.check_one O now3 {| cur := cur s'; wld := w3 |}
         = (Ok tt, {| cur := cur s'; wld := w3 |}).
Proof.
  apply (due_check_is_started_once
           (still_oracle (PyTime.civil 2024 1 1 11 0))
           (PyTime.civil 2024 1 1 11 0)
           (on (regular_schedule "active" (PyTime.civil 2024 1 1 10 0)
                  (PyTime.civil 2024 1 1 12 0) false VNone))
           (PyTime.civil 2024 1 1 10 0) (PyTime.civil 2024 1 1 12 0)
           (PyTime.civil 2024 1 1 10 0) (PyTime.civil 2024 1 1 12 0)
           eq_refl).
  - split; vm_compute; discriminate.
  - reflexivity.
  - left. reflexivity.
  - eexists; reflexivity.
  - eexists; reflexivity.
  - eexists; reflexivity.
  - reflexivity.
  - split; vm_compute; discriminate.
Defined.
